(** * k8s-bare-metal-agent: a shallow embedding of the Python sources

    The repository drives a LangChain agent that provisions machines with
    Terraform and configures a Kubernetes cluster over SSH.  This file embeds

    - [ssh_tools.py]: [SSHConnectionTool], [SCPTransferTool],
      [ScriptGeneratorTool], [sftp_is_dir], [download_dir_recursive];
    - [terraform_tools.py]: the five Terraform tools;
    - [main.py]: [validate_config];
    - [agent_prompts.py]: the prompt templates;
    - [k8s_manager.py]: [K8sClusterManager].

    Python values are an inductive type, exceptions are values of a result
    type, and the process state (local file system, working directory, the
    remote hosts reached over SSH, the log of external actions) is threaded
    explicitly through a state-and-exception monad.  Everything the sources
    obtain from outside the repository (the SSH peers, the [terraform]
    binary, the language model behind the agent, the codecs) is a field of
    an [environment] record over which the theorems quantify. *)

From Stdlib Require Import ZArith String Ascii DecimalString Lia.
From stdpp Require Import base option list strings gmap.

Set Warnings "-register-all".
Local Open Scope Z_scope.

(** ** Characters and small string utilities *)

Module Str.

Definition dq : string := String "034" "".
Definition sq : string := String "039" "".
Definition bs : string := String "092" "".
Definition nl : string := String "010" "".

(** [quoted pieces]: the text whose double quotes stand between the
    consecutive pieces, so that a literal with quotes can be written down. *)
Definition quoted (pieces : list string) : string := String.concat dq pieces.

Fixpoint starts_with (p s : string) : bool :=
  match p, s with
  | "", _ => true
  | String a p', String b s' => if Ascii.eqb a b then starts_with p' s' else false
  | String _ _, "" => false
  end.

Fixpoint contains (needle s : string) : bool :=
  starts_with needle s ||
  match s with
  | "" => false
  | String _ s' => contains needle s'
  end.

Fixpoint ends_with_char (c : ascii) (s : string) : bool :=
  match s with
  | "" => false
  | String a "" => Ascii.eqb a c
  | String _ s' => ends_with_char c s'
  end.

Fixpoint has_char (c : ascii) (s : string) : bool :=
  match s with
  | "" => false
  | String a s' => Ascii.eqb a c || has_char c s'
  end.

Definition of_Z (n : Z) : string := NilZero.string_of_int (Z.to_int n).

Definition hex_digit (n : N) : ascii :=
  match n with
  | 0 => "0" | 1 => "1" | 2 => "2" | 3 => "3" | 4 => "4" | 5 => "5"
  | 6 => "6" | 7 => "7" | 8 => "8" | 9 => "9" | 10 => "a" | 11 => "b"
  | 12 => "c" | 13 => "d" | 14 => "e" | _ => "f"
  end%N%char.

End Str.

(** ** Python values *)

Module Py.

(** The values a JSON configuration, a tool argument or a result dictionary
    holds.  Dictionaries keep their insertion order (an association list),
    which is the order [dict.items()] iterates in.  Floats are left out:
    the counts, paths and names the sources read are integers and strings. *)
Inductive value :=
| VNone
| VBool (b : bool)
| VInt (n : Z)
| VStr (s : string)
| VList (l : list value)
| VDict (d : list (string * value)).

Definition dict := list (string * value).

(** [d.get(k)] / [k in d] / [d[k]] on an insertion-ordered dictionary. *)
Fixpoint dict_get (d : dict) (k : string) : option value :=
  match d with
  | [] => None
  | (k', v) :: d' => if String.eqb k' k then Some v else dict_get d' k
  end.

Definition dict_get_default (d : dict) (k : string) (dflt : value) : value :=
  default dflt (dict_get d k).

Definition dict_has (d : dict) (k : string) : bool :=
  match dict_get d k with Some _ => true | None => false end.

(** [d[k] = v]: an existing key keeps its position. *)
Fixpoint dict_set (d : dict) (k : string) (v : value) : dict :=
  match d with
  | [] => [(k, v)]
  | (k', v') :: d' =>
      if String.eqb k' k then (k', v) :: d' else (k', v') :: dict_set d' k v
  end.

(** [repr] of a string: single quotes unless the text has a single quote
    and no double quote; backslash, the chosen quote, newline, carriage
    return and tab are escaped, other control characters are written
    [\xNN].  Bytes above 127 (the UTF-8 encoding of printable characters)
    are kept. *)
Definition repr_char (q c : ascii) : string :=
  let n := N_of_ascii c in
  if Ascii.eqb c "092" then Str.bs +:+ Str.bs
  else if Ascii.eqb c q then Str.bs +:+ String q ""
  else if Ascii.eqb c "010" then Str.bs +:+ "n"
  else if Ascii.eqb c "013" then Str.bs +:+ "r"
  else if Ascii.eqb c "009" then Str.bs +:+ "t"
  else if (n <? 32)%N || (n =? 127)%N then
    Str.bs +:+ "x" +:+ String (Str.hex_digit (n / 16)) (String (Str.hex_digit (n mod 16)) "")
  else String c "".

Fixpoint repr_body (q : ascii) (s : string) : string :=
  match s with
  | "" => ""
  | String c s' => repr_char q c +:+ repr_body q s'
  end.

Definition repr_str (s : string) : string :=
  let q : ascii :=
    if Str.has_char "039" s && negb (Str.has_char "034" s) then "034"%char else "039"%char in
  String q "" +:+ repr_body q s +:+ String q "".

(** [repr(v)] and [str(v)]; they differ on strings only. *)
Fixpoint repr (v : value) : string :=
  match v with
  | VNone => "None"
  | VBool true => "True"
  | VBool false => "False"
  | VInt n => Str.of_Z n
  | VStr s => repr_str s
  | VList l => "[" +:+ String.concat ", " (map repr l) +:+ "]"
  | VDict d =>
      "{" +:+ String.concat ", " (map (fun kv => repr_str (fst kv) +:+ ": " +:+ repr (snd kv)) d) +:+ "}"
  end.

Definition str (v : value) : string :=
  match v with
  | VStr s => s
  | _ => repr v
  end.

Definition is_str (v : value) : bool :=
  match v with VStr _ => true | _ => false end.

(** The name [type(v).__name__] prints in error messages. *)
Definition type_name (v : value) : string :=
  match v with
  | VNone => "NoneType"
  | VBool _ => "bool"
  | VInt _ => "int"
  | VStr _ => "str"
  | VList _ => "list"
  | VDict _ => "dict"
  end.

End Py.

(** ** Exceptions and results *)

Module Exc.

(** The exception classes the sources raise, catch or let through.  The
    first three derive from [BaseException] only, so an [except Exception]
    clause does not catch them. *)
Inductive cls :=
| KeyboardInterrupt | SystemExit | GeneratorExit
| FileNotFoundError | FileExistsError | IsADirectoryError | NotADirectoryError
| TypeError | AttributeError | ValueError | RecursionError | UnicodeDecodeError
| CalledProcessError
| Other (name : string).

(** An exception: its class, the text of [str(e)], and [e.stderr] (read by
    [TerraformInitTool] on a [CalledProcessError]). *)
Record exn := Exn { exn_cls : cls; exn_msg : string; exn_stderr : string }.

Definition mk (c : cls) (msg : string) : exn := Exn c msg "".

Definition is_Exception (e : exn) : bool :=
  match exn_cls e with
  | KeyboardInterrupt | SystemExit | GeneratorExit => false
  | _ => true
  end.

Definition is_FileNotFoundError (e : exn) : bool :=
  match exn_cls e with FileNotFoundError => true | _ => false end.

Definition is_CalledProcessError (e : exn) : bool :=
  match exn_cls e with CalledProcessError => true | _ => false end.

Inductive result (A : Type) :=
| Ok (a : A)
| Raise (e : exn).
Arguments Ok {A} a.
Arguments Raise {A} e.

Definition is_ok {A} (r : result A) : bool :=
  match r with Ok _ => true | Raise _ => false end.

(** The [OSError] texts of the local file system calls. *)
Definition enoent (p : string) : exn :=
  mk FileNotFoundError ("[Errno 2] No such file or directory: " +:+ Py.repr_str p).
Definition eexist (p : string) : exn :=
  mk FileExistsError ("[Errno 17] File exists: " +:+ Py.repr_str p).
Definition eisdir (p : string) : exn :=
  mk IsADirectoryError ("[Errno 21] Is a directory: " +:+ Py.repr_str p).
Definition enotdir (p : string) : exn :=
  mk NotADirectoryError ("[Errno 20] Not a directory: " +:+ Py.repr_str p).

End Exc.

(** ** POSIX paths: [os.path] on strings *)

Module Path.

(** Components of [p.split('/')]: never empty, [split_slash ""] is [[""]]. *)
Fixpoint split_slash (s : string) : list string :=
  match s with
  | "" => [""]
  | String c s' =>
      if Ascii.eqb c "/" then "" :: split_slash s'
      else match split_slash s' with
           | h :: t => String c h :: t
           | [] => [String c ""]
           end
  end.

Definition is_abs (p : string) : bool := Str.starts_with "/" p.

Definition is_empty (s : string) : bool := String.eqb s "".

(** One component of a lexical walk: empty and [.] stay, [..] goes up. *)
Definition step (acc : list string) (c : string) : list string :=
  if String.eqb c "" || String.eqb c "." then acc
  else if String.eqb c ".." then removelast acc
  else acc ++ [c].

(** The absolute, normalised location [p] names when the working directory
    is [cwd] ([os.path.abspath]); symbolic links are not modelled, so [..]
    is the lexical parent. *)
Definition resolve (cwd : list string) (p : string) : list string :=
  fold_left step (split_slash p) (if is_abs p then [] else cwd).

(** [os.path.join(a, b)]. *)
Definition join (a b : string) : string :=
  if is_abs b then b
  else if is_empty a || Str.ends_with_char "/" a then a +:+ b
  else a +:+ "/" +:+ b.

Fixpoint drop_trailing_empty (l : list string) : list string :=
  match l with
  | [] => []
  | x :: l' =>
      match drop_trailing_empty l' with
      | [] => if is_empty x then [] else [x]
      | t => x :: t
      end
  end.

(** [os.path.dirname(p)]: the text up to the last slash, without trailing
    slashes unless it consists of slashes only. *)
Definition dirname (p : string) : string :=
  match removelast (split_slash p) with
  | [] => ""
  | h =>
      if forallb is_empty h then String.concat "" (map (fun _ => "/") h)
      else String.concat "/" (drop_trailing_empty h)
  end.

Fixpoint common_prefix (a b : list string) : list string :=
  match a, b with
  | x :: a', y :: b' => if String.eqb x y then x :: common_prefix a' b' else []
  | _, _ => []
  end.

(** [os.path.relpath(path, start)]; [ValueError] on an empty [path]. *)
Definition relpath (cwd : list string) (path start : string) : Exc.result string :=
  if is_empty path then Exc.Raise (Exc.mk Exc.ValueError "no path specified")
  else
    let start_list := resolve cwd start in
    let path_list := resolve cwd path in
    let i := length (common_prefix start_list path_list) in
    let rel_list := repeat ".." (length start_list - i)%nat ++ drop i path_list in
    match rel_list with
    | [] => Exc.Ok "."
    | _ => Exc.Ok (String.concat "/" rel_list)
    end.

Fixpoint rstrip_slash (s : string) : string :=
  match s with
  | "" => ""
  | String c s' =>
      match rstrip_slash s' with
      | "" => if Ascii.eqb c "/" then "" else String c ""
      | t => String c t
      end
  end.

(** [(s[:i], s[i:])] for [i] the index of the first slash ([len(s)] if none). *)
Fixpoint cut_at_slash (s : string) : string * string :=
  match s with
  | "" => ("", "")
  | String c s' =>
      if Ascii.eqb c "/" then ("", s)
      else let '(a, b) := cut_at_slash s' in (String c a, b)
  end.

(** [os.path.expanduser(path)]; [home name] is the home directory of user
    [name] (the empty name is the current user), when there is one. *)
Definition expanduser (home : string -> option string) (path : string) : string :=
  match path with
  | String "~" rest =>
      let '(name, tail) := cut_at_slash rest in
      match home name with
      | None => path
      | Some userhome =>
          match rstrip_slash userhome +:+ tail with
          | "" => "/"
          | r => r
          end
      end
  | _ => path
  end.

(** A name a directory entry can have. *)
Definition valid_name (s : string) : bool :=
  negb (String.eqb s "") && negb (String.eqb s ".") && negb (String.eqb s "..")
  && negb (Str.has_char "/" s).

End Path.

(** ** File systems as trees

    The local file system and the file system of every remote host are
    trees: a regular file with its permission bits and content, or a
    directory with its entries in listing order.  Ownership, permissions
    checks and symbolic links are not modelled. *)

Module FS.

Inductive node :=
| File (perm : Z) (content : string)
| Dir (entries : list (string * node)).

Definition path := list string.

Definition empty : node := Dir [].

Fixpoint assoc (es : list (string * node)) (x : string) : option node :=
  match es with
  | [] => None
  | (y, n) :: es' => if String.eqb y x then Some n else assoc es' x
  end.

(** Replace the entry named [x], or add it after the others. *)
Fixpoint set_entry (es : list (string * node)) (x : string) (n : node) : list (string * node) :=
  match es with
  | [] => [(x, n)]
  | (y, m) :: es' =>
      if String.eqb y x then (y, n) :: es' else (y, m) :: set_entry es' x n
  end.

Fixpoint lookup (n : node) (p : path) : option node :=
  match p with
  | [] => Some n
  | x :: p' =>
      match n with
      | Dir es =>
          match assoc es x with
          | Some c => lookup c p'
          | None => None
          end
      | File _ _ => None
      end
  end.

(** Put [new] at [p]; the parent of [p] must be an existing directory. *)
Fixpoint put_node (n : node) (p : path) (new : node) : option node :=
  match p with
  | [] => Some new
  | x :: p' =>
      match n with
      | Dir es =>
          match p', assoc es x with
          | [], _ => Some (Dir (set_entry es x new))
          | _ :: _, Some c =>
              match put_node c p' new with
              | Some c' => Some (Dir (set_entry es x c'))
              | None => None
              end
          | _ :: _, None => None
          end
      | File _ _ => None
      end
  end.

(** Create every missing directory along [p]; [None] when a regular file
    is in the way. *)
Fixpoint makedirs_node (n : node) (p : path) : option node :=
  match n with
  | File _ _ => None
  | Dir es =>
      match p with
      | [] => Some n
      | x :: p' =>
          match makedirs_node (default empty (assoc es x)) p' with
          | Some c' => Some (Dir (set_entry es x c'))
          | None => None
          end
      end
  end.

Definition exists_ (n : node) (p : path) : bool :=
  match lookup n p with Some _ => true | None => false end.

Definition is_dir (n : node) (p : path) : bool :=
  match lookup n p with Some (Dir _) => true | _ => false end.

Definition is_file (n : node) (p : path) : bool :=
  match lookup n p with Some (File _ _) => true | _ => false end.

Definition read (n : node) (p : path) : option string :=
  match lookup n p with Some (File _ c) => Some c | _ => None end.

Definition perm_of (n : node) (p : path) : option Z :=
  match lookup n p with Some (File m _) => Some m | _ => None end.

(** [st_mode]: [S_IFREG | perm] for a file, [S_IFDIR | 0o755] for a
    directory. *)
Definition st_mode (n : node) : Z :=
  match n with
  | File perm _ => Z.lor 0x8000 perm
  | Dir _ => Z.lor 0x4000 0x1ED
  end.

Definition names (n : node) : list string :=
  match n with
  | Dir es => map fst es
  | File _ _ => []
  end.

(** Names of a directory are valid and distinct, all the way down. *)
Fixpoint wf (n : node) : bool :=
  match n with
  | File _ _ => true
  | Dir es =>
      (fix go (l : list (string * node)) : bool :=
         match l with
         | [] => true
         | (x, c) :: l' =>
             Path.valid_name x && negb (existsb (String.eqb x) (map fst l'))
             && wf c && go l'
         end) es
  end.

Fixpoint height (n : node) : nat :=
  match n with
  | File _ _ => 0
  | Dir es => S (fold_right (fun xc h => Nat.max (height (snd xc)) h) 0%nat es)
  end.

(** The regular files below a directory: relative path and content, in
    the order a top-down walk meets them. *)
Fixpoint files_under (n : node) : list (path * string) :=
  match n with
  | File _ _ => []
  | Dir es =>
      (fix level (l : list (string * node)) : list (path * string) :=
         match l with
         | [] => []
         | (x, File _ c) :: l' => ([x], c) :: level l'
         | (_, Dir _) :: l' => level l'
         end) es
      ++
      (fix below (l : list (string * node)) : list (path * string) :=
         match l with
         | [] => []
         | (x, c) :: l' =>
             map (fun pc => (x :: fst pc, snd pc)) (files_under c) ++ below l'
         end) es
  end.

End FS.

(** ** The process state, the outside world, and the monad of effects *)

(** What the agent asks a tool to do: the tool's [name] with the keyword
    arguments of its [_run]. *)
Inductive tool_call :=
| terraform_init (workspace_dir : string)
| terraform_plan (workspace_dir : string) (variables : option Py.dict)
| terraform_apply (workspace_dir : string) (auto_approve : bool)
    (plan_file : option string) (variables : option Py.dict)
| terraform_output (workspace_dir : string) (output_name : option string)
| terraform_destroy (workspace_dir : string) (auto_approve : bool)
    (variables : option Py.dict)
| ssh_execute (host username key_path : string) (port : Z) (command : string)
    (timeout : Z)
| scp_transfer (host username key_path : string) (port : Z)
    (local_path remote_path : string) (upload recursive : bool) (timeout : Z)
| generate_script (script_type output_path : string) (parameters : option Py.dict).

(** Requests on an open SFTP session, with the paths as the code passes
    them. *)
Inductive sftp_op :=
| SStat (p : string)
| SMkdir (p : string)
| SPut (localpath remotepath : string)
| SGet (remotepath localpath : string)
| SListdir (p : string).

(** The log of what the process does to the outside: calls on the SSH
    channel, subprocesses, agent invocations and the tools the agent runs. *)
Inductive event :=
| EConnect (host username key_path : string) (port timeout : Z)
| EExec (host command : string)
| EOpenSftp (host : string)
| ESftp (host : string) (op : sftp_op)
| ESubprocess (cmd : list string) (cwd : FS.path)
| EInvoke (prompt : string)
| ETool (c : tool_call).

(** A call on the Remote Execution Channel. *)
Definition is_channel_event (ev : event) : bool :=
  match ev with
  | EConnect _ _ _ _ _ | EExec _ _ | EOpenSftp _ | ESftp _ _ => true
  | _ => false
  end.

Definition is_connect (ev : event) : bool :=
  match ev with EConnect _ _ _ _ _ => true | _ => false end.

Definition is_exec (ev : event) : bool :=
  match ev with EExec _ _ => true | _ => false end.

Record world := World {
  w_fs : FS.node;               (* the local file system *)
  w_cwd : FS.path;              (* the working directory of the process *)
  w_hosts : gmap string FS.node;(* the file system of each remote host *)
  w_trace : list event;         (* oldest event first *)
  w_stdout : list string        (* what [print] wrote, oldest first *)
}.

Definition host_fs (w : world) (host : string) : FS.node :=
  default FS.empty (w_hosts w !! host).

(** What a remote command did: it could not be run, or it ran to an exit
    status with the bytes of its two output streams and left the host's
    file system in a new state. *)
Inductive exec_outcome :=
| ExecRaise (e : Exc.exn)
| ExecDone (exit_status : Z) (out err : string) (fs' : FS.node).

(** [subprocess.CompletedProcess]. *)
Record completed := Completed { returncode : Z; proc_stdout : string; proc_stderr : string }.

(** The agent as the executor sees it: it finishes with an output, fails
    with an exception, or runs a tool and goes on from the tool's answer. *)
Inductive plan :=
| Finish (output : Py.value)
| Abort (e : Exc.exn)
| Call (c : tool_call) (k : string -> plan).

(** Everything outside the repository.  Each oracle sees the log so far,
    so its answers may change from one call to the next. *)
Record environment := Env {
  env_home : string -> option string;
  (* a transport failure striking the channel call about to be logged *)
  env_fault : list event -> event -> option Exc.exn;
  env_exec : list event -> string -> string -> FS.node -> exec_outcome;
  (* [bytes.decode('utf-8')] *)
  env_decode : string -> Exc.result string;
  (* the directory a relative remote path starts from *)
  env_remote_home : string -> FS.path;
  env_subprocess : list event -> list string -> FS.path -> Exc.result completed;
  (* [json.dumps(json.loads(s), indent=2)], or [None] on a JSONDecodeError *)
  env_json_pretty : string -> option string;
  env_agent : list event -> string -> plan;
  (* how deep a recursion may go before [RecursionError] *)
  env_recursion_limit : nat
}.

Definition M (A : Type) : Type := world -> Exc.result A * world.

Definition ret {A} (a : A) : M A := fun w => (Exc.Ok a, w).

Definition bind {A B} (m : M A) (k : A -> M B) : M B :=
  fun w =>
    match m w with
    | (Exc.Ok a, w') => k a w'
    | (Exc.Raise e, w') => (Exc.Raise e, w')
    end.

Definition raise {A} (e : Exc.exn) : M A := fun w => (Exc.Raise e, w).

Declare Scope py_scope.
Delimit Scope py_scope with py.
Notation "x ← y ; z" := (bind y (fun x => z))
  (at level 20, y at level 100, z at level 200, only parsing) : py_scope.
Notation "' x ← y ; z" := (bind y (fun x => z))
  (at level 20, x pattern, y at level 100, z at level 200, only parsing) : py_scope.
Notation "x ;; z" := (bind x (fun _ => z))
  (at level 100, z at level 200, only parsing, right associativity) : py_scope.
Open Scope py_scope.

Definition lift {A} (r : Exc.result A) : M A := fun w => (r, w).

Definition get : M world := fun w => (Exc.Ok w, w).

Definition put (w' : world) : M unit := fun _ => (Exc.Ok tt, w').

(** [try: m except C as e: h e], where [catches] says which exceptions the
    clause takes. *)
Definition try_except {A} (m : M A) (catches : Exc.exn -> bool) (h : Exc.exn -> M A) : M A :=
  fun w =>
    match m w with
    | (Exc.Raise e, w') => if catches e then h e w' else (Exc.Raise e, w')
    | r => r
    end.

(** [try: m finally: fin]: [fin] runs whatever [m] did; an exception of
    [fin] replaces the outcome of [m]. *)
Definition try_finally {A} (m : M A) (fin : M unit) : M A :=
  fun w =>
    let '(r, w') := m w in
    match fin w' with
    | (Exc.Ok _, w'') => (r, w'')
    | (Exc.Raise e, w'') => (Exc.Raise e, w'')
    end.

Fixpoint for_each {A} (l : list A) (body : A -> M unit) : M unit :=
  match l with
  | [] => ret tt
  | x :: l' => body x ;; for_each l' body
  end.

Definition log (ev : event) : M unit :=
  fun w => (Exc.Ok tt, World (w_fs w) (w_cwd w) (w_hosts w) (w_trace w ++ [ev]) (w_stdout w)).

Definition print (line : string) : M unit :=
  fun w => (Exc.Ok tt, World (w_fs w) (w_cwd w) (w_hosts w) (w_trace w) (w_stdout w ++ [line])).

Definition set_fs (fs : FS.node) : M unit :=
  fun w => (Exc.Ok tt, World fs (w_cwd w) (w_hosts w) (w_trace w) (w_stdout w)).

Definition set_cwd (cwd : FS.path) : M unit :=
  fun w => (Exc.Ok tt, World (w_fs w) cwd (w_hosts w) (w_trace w) (w_stdout w)).

Definition set_host_fs (host : string) (fs : FS.node) : M unit :=
  fun w => (Exc.Ok tt, World (w_fs w) (w_cwd w) (<[host := fs]> (w_hosts w)) (w_trace w) (w_stdout w)).

(** The events a computation added to the log. *)
Definition new_events (w w' : world) : list event :=
  drop (length (w_trace w)) (w_trace w').

(** ** The [os] calls on the local file system *)

Module OS.

Import Exc.

(** [os.makedirs(name, exist_ok=exist_ok)]. *)
Definition makedirs (name : string) (exist_ok : bool) : M unit :=
  w ← get;
  if Path.is_empty name then raise (enoent name)
  else
    let p := Path.resolve (w_cwd w) name in
    if negb exist_ok && FS.exists_ (w_fs w) p then raise (eexist name)
    else
      match FS.makedirs_node (w_fs w) p with
      | Some fs' => set_fs fs'
      | None => raise (if FS.is_file (w_fs w) p then eexist name else enotdir name)
      end.

(** [with open(name, 'w') as f: f.write(content)]: the file is created
    with permissions [0o644] or truncated; its directory must exist. *)
Definition write_text (name content : string) : M unit :=
  w ← get;
  let p := Path.resolve (w_cwd w) name in
  if Path.is_empty name then raise (enoent name)
  else if FS.is_dir (w_fs w) p then raise (eisdir name)
  else if negb (FS.is_dir (w_fs w) (removelast p)) then
    raise (if FS.exists_ (w_fs w) (removelast p) then enotdir name else enoent name)
  else
    match FS.put_node (w_fs w) p (FS.File (default 0x1A4 (FS.perm_of (w_fs w) p)) content) with
    | Some fs' => set_fs fs'
    | None => raise (enoent name)
    end.

(** [open(name, 'rb').read()]. *)
Definition read_bytes (name : string) : M string :=
  w ← get;
  let p := Path.resolve (w_cwd w) name in
  if Path.is_empty name then raise (enoent name)
  else
    match FS.lookup (w_fs w) p with
    | Some (FS.File _ c) => ret c
    | Some (FS.Dir _) => raise (eisdir name)
    | None => raise (enoent name)
    end.

(** [os.chmod(name, mode)]. *)
Definition chmod (name : string) (mode : Z) : M unit :=
  w ← get;
  let p := Path.resolve (w_cwd w) name in
  if Path.is_empty name then raise (enoent name)
  else
    match FS.lookup (w_fs w) p with
    | Some (FS.File _ c) =>
        match FS.put_node (w_fs w) p (FS.File mode c) with
        | Some fs' => set_fs fs'
        | None => raise (enoent name)
        end
    | Some (FS.Dir _) => ret tt
    | None => raise (enoent name)
    end.

(** [os.chdir(name)]. *)
Definition chdir (name : string) : M unit :=
  w ← get;
  let p := Path.resolve (w_cwd w) name in
  if Path.is_empty name then raise (enoent name)
  else if FS.is_dir (w_fs w) p then set_cwd p
  else raise (if FS.exists_ (w_fs w) p then enotdir name else enoent name).

(** [os.path.exists(name)] and [os.path.isdir(name)]. *)
Definition path_exists (name : string) : M bool :=
  w ← get;
  ret (negb (Path.is_empty name) && FS.exists_ (w_fs w) (Path.resolve (w_cwd w) name)).

Definition path_isdir (name : string) : M bool :=
  w ← get;
  ret (negb (Path.is_empty name) && FS.is_dir (w_fs w) (Path.resolve (w_cwd w) name)).

End OS.

(** ** [ScriptGeneratorTool] (ssh_tools.py) *)

Module ScriptGeneratorTool.

Import Exc.

(** The literal text of the three f-strings, cut at their placeholders. *)
Definition common_text_0 : string :=
  Str.quoted
  ["#!/bin/bash
set -e

# Common setup script for Kubernetes nodes

# Update system and install dependencies
apt-get update
apt-get upgrade -y
apt-get install -y apt-transport-https ca-certificates curl software-properties-common gnupg

# Disable swap
swapoff -a
sed -i '/swap/d' /etc/fstab

# Load kernel modules
cat <<EOF | tee /etc/modules-load.d/k8s.conf
overlay
br_netfilter
EOF

modprobe overlay
modprobe br_netfilter

# Set up required sysctl params
cat <<EOF | tee /etc/sysctl.d/k8s.conf
net.bridge.bridge-nf-call-iptables  = 1
net.bridge.bridge-nf-call-ip6tables = 1
net.ipv4.ip_forward                 = 1
EOF

sysctl --system

# Install containerd
curl -fsSL https://download.docker.com/linux/ubuntu/gpg | gpg --dearmor -o /etc/apt/keyrings/docker.gpg
echo ";
   "deb [arch=$(dpkg --print-architecture) signed-by=/etc/apt/keyrings/docker.gpg] https://download.docker.com/linux/ubuntu $(lsb_release -cs) stable";
   " | tee /etc/apt/sources.list.d/docker.list
apt-get update
apt-get install -y containerd.io

# Configure containerd to use systemd as cgroup driver
mkdir -p /etc/containerd
containerd config default | tee /etc/containerd/config.toml
sed -i 's/SystemdCgroup = false/SystemdCgroup = true/g' /etc/containerd/config.toml
systemctl restart containerd
systemctl enable containerd

# Install Kubernetes components
curl -fsSL https://pkgs.k8s.io/core:/stable:/v"].

Definition common_text_1 : string :=
  Str.quoted
  ["/deb/Release.key | gpg --dearmor -o /etc/apt/keyrings/kubernetes-apt-keyring.gpg
echo ";
   "deb [signed-by=/etc/apt/keyrings/kubernetes-apt-keyring.gpg] https://pkgs.k8s.io/core:/stable:/v"].

Definition common_text_2 : string :=
  Str.quoted
  ["/deb/ /";
   " | tee /etc/apt/sources.list.d/kubernetes.list
apt-get update
apt-get install -y kubelet kubeadm kubectl
apt-mark hold kubelet kubeadm kubectl

echo ";
   "Common node setup completed!";
   "
"].

Definition master_text_0 : string :=
  "#!/bin/bash
set -e

# Master node setup script

# Initialize Kubernetes cluster
kubeadm init --pod-network-cidr=".

Definition master_text_1 : string :=
  " --service-cidr=".

Definition master_text_2 : string :=
  Str.quoted
  ["

# Set up kubeconfig for the user
mkdir -p $HOME/.kube
cp -i /etc/kubernetes/admin.conf $HOME/.kube/config
chown $(id -u):$(id -g) $HOME/.kube/config

# Install Calico network plugin
kubectl create -f https://raw.githubusercontent.com/projectcalico/calico/master/manifests/tigera-operator.yaml
kubectl create -f https://raw.githubusercontent.com/projectcalico/calico/master/manifests/custom-resources.yaml

# Generate join command for worker nodes
JOIN_COMMAND=$(kubeadm token create --print-join-command)
echo ";
   "$JOIN_COMMAND";
   " > /root/k8s_join_command.sh

# Output cluster info
kubectl cluster-info
kubectl get nodes

echo ";
   "Master node setup completed!";
   "
"].

Definition worker_text_0 : string :=
  "#!/bin/bash
set -e

# Worker node setup script

# Join the cluster
".

Definition worker_text_1 : string :=
  Str.quoted
  ["

echo ";
   "Worker node joined the cluster!";
   "
"].

(** [parameters.get] on [None]. *)
Definition none_has_no_get : exn :=
  mk AttributeError "'NoneType' object has no attribute 'get'".

Definition _generate_common_script (parameters : option Py.dict) : result string :=
  match parameters with
  | None => Raise none_has_no_get
  | Some parameters =>
      let kubernetes_version :=
        Py.dict_get_default parameters "kubernetes_version" (Py.VStr "1.28.2") in
      let containerd_version :=
        Py.dict_get_default parameters "containerd_version" (Py.VStr "1.7.2") in
      Ok (common_text_0 +:+ Py.str kubernetes_version +:+ common_text_1
          +:+ Py.str kubernetes_version +:+ common_text_2)
  end.

Definition _generate_k8s_master_script (parameters : option Py.dict) : result string :=
  match parameters with
  | None => Raise none_has_no_get
  | Some parameters =>
      let pod_network_cidr :=
        Py.dict_get_default parameters "pod_network_cidr" (Py.VStr "10.244.0.0/16") in
      let service_cidr :=
        Py.dict_get_default parameters "service_cidr" (Py.VStr "10.96.0.0/12") in
      Ok (master_text_0 +:+ Py.str pod_network_cidr +:+ master_text_1
          +:+ Py.str service_cidr +:+ master_text_2)
  end.

Definition _generate_k8s_worker_script (parameters : option Py.dict) : result string :=
  match parameters with
  | None => Raise none_has_no_get
  | Some parameters =>
      let join_command := Py.dict_get_default parameters "join_command" (Py.VStr "") in
      Ok (worker_text_0 +:+ Py.str join_command +:+ worker_text_1)
  end.

Definition generated (output_path : string) : string :=
  "Script generated at " +:+ output_path.

(** The [if]/[elif] chain of [_run]: the script text, or [None] in the
    [else] branch that returns early. *)
Definition dispatch (script_type : string) (parameters : option Py.dict)
  : result (option string) :=
  let some (r : result string) : result (option string) :=
    match r with Ok s => Ok (Some s) | Raise e => Raise e end in
  if String.eqb script_type "k8s_master" then some (_generate_k8s_master_script parameters)
  else if String.eqb script_type "k8s_worker" then some (_generate_k8s_worker_script parameters)
  else if String.eqb script_type "common" then some (_generate_common_script parameters)
  else Ok None.

Definition _run (script_type output_path : string) (parameters : option Py.dict) : M string :=
  try_except
    (OS.makedirs (Path.dirname output_path) true;;
     chosen ← lift (dispatch script_type parameters);
     match chosen with
     | None => ret ("Unknown script type: " +:+ script_type)
     | Some script_content =>
         OS.write_text output_path script_content;;
         OS.chmod output_path 0x1ED;;
         ret (generated output_path)
     end)
    is_Exception
    (fun e => ret ("Script generation error: " +:+ exn_msg e)).

End ScriptGeneratorTool.

(** ** The SSH channel: what [paramiko]'s client and SFTP session do *)

Module Channel.

Import Exc.

Section WithEnv.
Context (env : environment).

(** A call on the channel is logged, then a transport fault may strike. *)
Definition call (ev : event) : M unit :=
  w ← get;
  log ev;;
  match env_fault env (w_trace w) ev with
  | Some e => raise e
  | None => ret tt
  end.

(** [client.connect(hostname=..., username=..., key_filename=..., port=...,
    timeout=...)]. *)
Definition connect (host username key_path : string) (port timeout : Z) : M unit :=
  call (EConnect host username key_path port timeout).

(** [client.exec_command(command)] up to [recv_exit_status()] and the two
    [read()]s: the exit status and the bytes of stdout and stderr. *)
Definition exec_command (host command : string) : M (Z * string * string) :=
  w ← get;
  call (EExec host command);;
  match env_exec env (w_trace w) host command (host_fs w host) with
  | ExecRaise e => raise e
  | ExecDone exit_status out err fs' =>
      set_host_fs host fs';; ret (exit_status, out, err)
  end.

Definition open_sftp (host : string) : M unit := call (EOpenSftp host).

(** The errors of the SFTP server, as paramiko raises them. *)
Definition no_such_file : exn := mk FileNotFoundError "[Errno 2] No such file".
Definition failure : exn := mk (Other "OSError") "Failure".

Definition remote_path (host p : string) : FS.path :=
  Path.resolve (env_remote_home env host) p.

(** [sftp.stat(p).st_mode]. *)
Definition stat (host p : string) : M Z :=
  call (ESftp host (SStat p));;
  w ← get;
  match FS.lookup (host_fs w host) (remote_path host p) with
  | Some n => ret (FS.st_mode n)
  | None => raise no_such_file
  end.

(** [sftp.mkdir(p)]: the directory must be new and its parent must exist. *)
Definition mkdir (host p : string) : M unit :=
  call (ESftp host (SMkdir p));;
  w ← get;
  let q := remote_path host p in
  if FS.exists_ (host_fs w host) q then raise failure
  else if negb (FS.is_dir (host_fs w host) (removelast q)) then raise no_such_file
  else
    match FS.put_node (host_fs w host) q FS.empty with
    | Some fs' => set_host_fs host fs'
    | None => raise no_such_file
    end.

(** [sftp.listdir(p)]. *)
Definition listdir (host p : string) : M (list string) :=
  call (ESftp host (SListdir p));;
  w ← get;
  match FS.lookup (host_fs w host) (remote_path host p) with
  | Some (FS.Dir es) => ret (map fst es)
  | Some (FS.File _ _) => raise failure
  | None => raise no_such_file
  end.

(** [sftp.put(localpath, remotepath)]: the local file is read, then
    written on the host. *)
Definition sftp_put (host localpath remotepath : string) : M unit :=
  content ← OS.read_bytes localpath;
  call (ESftp host (SPut localpath remotepath));;
  w ← get;
  let q := remote_path host remotepath in
  if FS.is_dir (host_fs w host) q then raise failure
  else if negb (FS.is_dir (host_fs w host) (removelast q)) then raise no_such_file
  else
    match FS.put_node (host_fs w host) q
            (FS.File (default 0x1A4 (FS.perm_of (host_fs w host) q)) content) with
    | Some fs' => set_host_fs host fs'
    | None => raise no_such_file
    end.

(** [sftp.get(remotepath, localpath)]: the local file is opened for
    writing first, then filled from the host. *)
Definition sftp_get (host remotepath localpath : string) : M unit :=
  OS.write_text localpath "";;
  call (ESftp host (SGet remotepath localpath));;
  w ← get;
  match FS.lookup (host_fs w host) (remote_path host remotepath) with
  | Some (FS.File _ content) => OS.write_text localpath content
  | Some (FS.Dir _) => raise failure
  | None => raise no_such_file
  end.

End WithEnv.

End Channel.

(** ** ssh_tools.py: the SSH and SCP tools *)

(** [os.walk(top)] over the tree found at [top]: one triple
    [(root, dirs, files)] per directory, top-down, the names in listing
    order and each [root] built with [os.path.join].  The generator is
    lazy in Python; the bodies of the loops below never touch the local
    tree, so walking it up front yields the same triples. *)
Fixpoint walk (top : string) (n : FS.node) : list (string * list string * list string) :=
  match n with
  | FS.File _ _ => []
  | FS.Dir es =>
      let dirs := map fst (List.filter (fun xc => match snd xc with FS.Dir _ => true | _ => false end) es) in
      let files := map fst (List.filter (fun xc => match snd xc with FS.File _ _ => true | _ => false end) es) in
      (top, dirs, files) ::
      (fix below (l : list (string * FS.node)) : list (string * list string * list string) :=
         match l with
         | [] => []
         | (x, c) :: l' => walk (Path.join top x) c ++ below l'
         end) es
  end.

Definition os_walk (top : string) : M (list (string * list string * list string)) :=
  w ← get;
  ret (match FS.lookup (w_fs w) (Path.resolve (w_cwd w) top) with
       | Some n => if Path.is_empty top then [] else walk top n
       | None => []
       end).

Section SshTools.
Context (env : environment).

Import Exc.

(** [sftp_is_dir(sftp, path)]; the bare [except:] takes every exception. *)
Definition sftp_is_dir (host path : string) : M bool :=
  try_except
    (st_mode ← Channel.stat env host path;
     ret (Z.land st_mode 0xF000 =? 0x4000))
    (fun _ => true)
    (fun _ => ret false).

(** [download_dir_recursive(sftp, remote_dir, local_dir)]; [depth] is the
    recursion depth left before Python raises [RecursionError]. *)
Fixpoint download_dir_recursive (depth : nat) (host remote_dir local_dir : string) : M unit :=
  match depth with
  | O => raise (mk RecursionError "maximum recursion depth exceeded")
  | S depth' =>
      items ← Channel.listdir env host remote_dir;
      for_each items (fun item =>
        let remote_path := Path.join remote_dir item in
        let local_path := Path.join local_dir item in
        isd ← sftp_is_dir host remote_path;
        if isd then
          (present ← OS.path_exists local_path;
           if negb present then OS.makedirs local_path false else ret tt);;
          download_dir_recursive depth' host remote_path local_path
        else Channel.sftp_get env host remote_path local_path)
  end.

(** The [try: sftp.stat(d) except FileNotFoundError: sftp.mkdir(d)] that
    [SCPTransferTool._run] writes out for the destination and for every
    directory of the walk. *)
Definition stat_or_mkdir (host d : string) : M unit :=
  try_except
    (Channel.stat env host d;; ret tt)
    is_FileNotFoundError
    (fun _ => Channel.mkdir env host d).

End SshTools.

Module SSHConnectionTool.

Import Exc.

Definition _run (env : environment) (host username key_path : string) (port : Z)
    (command : string) (timeout : Z) : M string :=
  try_except
    (let key_path := Path.expanduser (env_home env) key_path in
     Channel.connect env host username key_path port timeout;;
     '(exit_status, out, err) ← Channel.exec_command env host command;
     output ← lift (env_decode env out);
     error ← lift (env_decode env err);
     if exit_status =? 0 then
       ret ("Command executed successfully:" +:+ Str.nl +:+ output)
     else
       ret ("Command failed with exit status " +:+ Str.of_Z exit_status +:+ ":"
            +:+ Str.nl +:+ error))
    is_Exception
    (fun e => ret ("SSH error: " +:+ exn_msg e)).

End SSHConnectionTool.

Module SCPTransferTool.

Import Exc.

(** The body of the [for root, dirs, files in os.walk(local_path)] loop. *)
Definition upload_level (env : environment) (host local_path remote_path : string)
    (triple : string * list string * list string) : M unit :=
  let '(root, dirs, files) := triple in
  for_each dirs (fun dir_name =>
    w ← get;
    let local_dir := Path.join root dir_name in
    rel_path ← lift (Path.relpath (w_cwd w) local_dir local_path);
    let remote_dir := Path.join remote_path rel_path in
    stat_or_mkdir env host remote_dir);;
  for_each files (fun file_name =>
    w ← get;
    let local_file := Path.join root file_name in
    rel_path ← lift (Path.relpath (w_cwd w) local_file local_path);
    let remote_file := Path.join remote_path rel_path in
    Channel.sftp_put env host local_file remote_file).

Definition _run (env : environment) (host username key_path : string) (port : Z)
    (local_path remote_path : string) (upload recursive : bool) (timeout : Z) : M string :=
  try_except
    (let key_path := Path.expanduser (env_home env) key_path in
     Channel.connect env host username key_path port timeout;;
     Channel.open_sftp env host;;
     result ←
       (if upload then
          isd ← (if recursive then OS.path_isdir local_path else ret false);
          if isd then
            stat_or_mkdir env host remote_path;;
            triples ← os_walk local_path;
            for_each triples (upload_level env host local_path remote_path);;
            ret ("Directory " +:+ local_path +:+ " uploaded to " +:+ remote_path
                 +:+ " on " +:+ host)
          else
            Channel.sftp_put env host local_path remote_path;;
            ret ("File " +:+ local_path +:+ " uploaded to " +:+ remote_path
                 +:+ " on " +:+ host)
        else
          isd ← (if recursive then sftp_is_dir env host remote_path else ret false);
          if isd then
            (present ← OS.path_exists local_path;
             if negb present then OS.makedirs local_path false else ret tt);;
            download_dir_recursive env (env_recursion_limit env) host remote_path local_path;;
            ret ("Directory " +:+ remote_path +:+ " downloaded to " +:+ local_path
                 +:+ " from " +:+ host)
          else
            Channel.sftp_get env host remote_path local_path;;
            ret ("File " +:+ remote_path +:+ " downloaded to " +:+ local_path
                 +:+ " from " +:+ host));
     ret result)
    is_Exception
    (fun e => ret ("SCP error: " +:+ exn_msg e)).

End SCPTransferTool.

(** ** terraform_tools.py *)

Module Subprocess.

Import Exc.

(** [subprocess.run(cmd, capture_output=True, text=True)]: the child runs
    in the working directory of the process and cannot change it. *)
Definition run (env : environment) (cmd : list string) : M completed :=
  w ← get;
  log (ESubprocess cmd (w_cwd w));;
  lift (env_subprocess env (w_trace w) cmd (w_cwd w)).

(** The same with [check=True]: a non-zero return code raises
    [CalledProcessError], which carries the captured stderr. *)
Definition run_check (env : environment) (cmd : list string) : M completed :=
  result ← run env cmd;
  if returncode result =? 0 then ret result
  else
    raise (Exn CalledProcessError
             ("Command " +:+ Py.repr (Py.VList (map Py.VStr cmd))
              +:+ " returned non-zero exit status " +:+ Str.of_Z (returncode result) +:+ ".")
             (proc_stderr result)).

End Subprocess.

(** [if variables:] and the [-var key=value] arguments built from it. *)
Definition truthy_dict (variables : option Py.dict) : bool :=
  match variables with
  | None | Some [] => false
  | Some _ => true
  end.

Definition var_args (variables : option Py.dict) : list string :=
  flat_map (fun kv => ["-var"; fst kv +:+ "=" +:+ Py.str (snd kv)]) (default [] variables).

Definition truthy_str (s : option string) : bool :=
  match s with
  | None | Some "" => false
  | Some _ => true
  end.

Module TerraformInitTool.

Import Exc.

Definition _run (env : environment) (workspace_dir : string) : M string :=
  try_finally
    (try_except
       (OS.chdir workspace_dir;;
        result ← Subprocess.run_check env ["terraform"; "init"];
        ret ("Terraform initialization complete:" +:+ Str.nl +:+ proc_stdout result))
       is_CalledProcessError
       (fun e => ret ("Error initializing Terraform: " +:+ exn_stderr e)))
    (OS.chdir "..").

End TerraformInitTool.

Module TerraformPlanTool.

Import Exc.

Definition _run (env : environment) (workspace_dir : string)
    (variables : option Py.dict) : M string :=
  try_finally
    (try_except
       (OS.chdir workspace_dir;;
        let cmd := ["terraform"; "plan"; "-detailed-exitcode"; "-out=tfplan"] in
        let cmd := if truthy_dict variables then cmd ++ var_args variables else cmd in
        result ← Subprocess.run env cmd;
        if returncode result =? 0 then ret "Terraform plan shows no changes needed"
        else if returncode result =? 2 then
          ret ("Terraform plan generated with changes:" +:+ Str.nl +:+ proc_stdout result)
        else ret ("Error in Terraform plan: " +:+ proc_stderr result))
       is_Exception
       (fun e => ret ("Error executing Terraform plan: " +:+ exn_msg e)))
    (OS.chdir "..").

End TerraformPlanTool.

Module TerraformApplyTool.

Import Exc.

Definition _run (env : environment) (workspace_dir : string) (auto_approve : bool)
    (plan_file : option string) (variables : option Py.dict) : M string :=
  try_finally
    (try_except
       (OS.chdir workspace_dir;;
        let cmd := ["terraform"; "apply"] in
        let cmd := if auto_approve then cmd ++ ["-auto-approve"] else cmd in
        let cmd := if truthy_str plan_file then cmd ++ [default "" plan_file] else cmd in
        let cmd :=
          if truthy_dict variables && negb (truthy_str plan_file)
          then cmd ++ var_args variables else cmd in
        result ← Subprocess.run env cmd;
        if returncode result =? 0 then
          outputs_cmd ← Subprocess.run env ["terraform"; "output"; "-json"];
          if returncode outputs_cmd =? 0 then
            match env_json_pretty env (proc_stdout outputs_cmd) with
            | Some formatted_outputs =>
                ret ("Terraform apply successful. Outputs:" +:+ Str.nl +:+ formatted_outputs)
            | None => ret "Terraform apply successful. No outputs or error parsing outputs."
            end
          else
            ret ("Terraform apply successful, but error fetching outputs: "
                 +:+ proc_stderr outputs_cmd)
        else ret ("Error in Terraform apply: " +:+ proc_stderr result))
       is_Exception
       (fun e => ret ("Error executing Terraform apply: " +:+ exn_msg e)))
    (OS.chdir "..").

End TerraformApplyTool.

Module TerraformOutputTool.

Import Exc.

Definition _run (env : environment) (workspace_dir : string)
    (output_name : option string) : M string :=
  try_finally
    (try_except
       (OS.chdir workspace_dir;;
        let cmd := ["terraform"; "output"; "-json"] in
        let cmd := if truthy_str output_name then cmd ++ [default "" output_name] else cmd in
        result ← Subprocess.run env cmd;
        if returncode result =? 0 then
          match env_json_pretty env (proc_stdout result) with
          | Some outputs => ret outputs
          | None => ret ("Error parsing Terraform outputs: " +:+ proc_stdout result)
          end
        else ret ("Error getting Terraform outputs: " +:+ proc_stderr result))
       is_Exception
       (fun e => ret ("Error executing Terraform output command: " +:+ exn_msg e)))
    (OS.chdir "..").

End TerraformOutputTool.

Module TerraformDestroyTool.

Import Exc.

Definition _run (env : environment) (workspace_dir : string) (auto_approve : bool)
    (variables : option Py.dict) : M string :=
  try_finally
    (try_except
       (OS.chdir workspace_dir;;
        let cmd := ["terraform"; "destroy"] in
        let cmd := if auto_approve then cmd ++ ["-auto-approve"] else cmd in
        let cmd := if truthy_dict variables then cmd ++ var_args variables else cmd in
        result ← Subprocess.run env cmd;
        if returncode result =? 0 then ret "Terraform destroy completed successfully"
        else ret ("Error in Terraform destroy: " +:+ proc_stderr result))
       is_Exception
       (fun e => ret ("Error executing Terraform destroy: " +:+ exn_msg e)))
    (OS.chdir "..").

End TerraformDestroyTool.

(** ** main.py: configuration checks *)

Module Main.

Import Exc.

Definition required_fields : list string :=
  ["cluster_name"; "aws_region"; "availability_zones"; "vpc_cidr";
   "master_count"; "worker_count"; "ssh_public_key_path"; "ssh_private_key_path"].

(** [v < n] for an integer literal [n]: integers and booleans compare,
    anything else is a [TypeError]. *)
Definition lt_int (v : Py.value) (n : Z) : result bool :=
  match v with
  | Py.VInt m => Ok (m <? n)
  | Py.VBool b => Ok ((if b then 1 else 0) <? n)
  | _ =>
      Raise (mk TypeError
               ("'<' not supported between instances of '" +:+ Py.type_name v
                +:+ "' and 'int'"))
  end.

(** [os.path.expanduser(v)]: a [TypeError] unless [v] is a string. *)
Definition expanduser_value (env : environment) (v : Py.value) : result string :=
  match v with
  | Py.VStr s => Ok (Path.expanduser (env_home env) s)
  | _ =>
      Raise (mk TypeError
               ("expected str, bytes or os.PathLike object, not " +:+ Py.type_name v))
  end.

(** [config[k]] for a key known to be present. *)
Definition item (config : Py.dict) (k : string) : Py.value :=
  Py.dict_get_default config k Py.VNone.

Definition validate_config (env : environment) (config : Py.dict) : M bool :=
  let missing_fields :=
    List.filter (fun field => negb (Py.dict_has config field)) required_fields in
  match missing_fields with
  | _ :: _ =>
      print ("Missing required configuration fields: " +:+ String.concat ", " missing_fields);;
      ret false
  | [] =>
      too_few ← lift (lt_int (item config "master_count") 1);
      if too_few then
        print "At least one master node is required";; ret false
      else
        public_key ← lift (expanduser_value env (item config "ssh_public_key_path"));
        public_found ← OS.path_exists public_key;
        if negb public_found then
          print ("SSH public key not found at " +:+ Py.str (item config "ssh_public_key_path"));;
          ret false
        else
          private_key ← lift (expanduser_value env (item config "ssh_private_key_path"));
          private_found ← OS.path_exists private_key;
          if negb private_found then
            print ("SSH private key not found at "
                   +:+ Py.str (item config "ssh_private_key_path"));;
            ret false
          else ret true
  end.

End Main.

(** ** agent_prompts.py *)

Module K8sPromptTemplates.

Definition infrastructure_setup_text : string :=
  "
        I need you to set up the AWS infrastructure for a Kubernetes cluster using Terraform.
        
        First, initialize Terraform in the working directory. Then, create a plan to review the resources 
        that will be created. Finally, apply the configuration to create the infrastructure.
        
        After the infrastructure is created, collect the public and private IP addresses of the master 
        and worker nodes for later use.
        
        Here's what you need to do:
        1. Change to the Terraform directory
        2. Run 'terraform init'
        3. Run 'terraform plan'
        4. Run 'terraform apply'
        5. Collect and return the output information
        
        Please execute these steps and keep track of the resources created.
        ".

Definition master_setup_text_0 : string :=
  "
        Now that the infrastructure is ready, I need you to set up the Kubernetes master node on ".

Definition master_setup_text_1 : string :=
  ".
        
        First, generate the common setup script that will be used for all nodes. This script should:
        1. Update the system
        2. Install dependencies
        3. Disable swap
        4. Configure containerd
        5. Install kubelet, kubeadm, and kubectl
        
        Then, generate a master-specific script that will:
        1. Initialize the Kubernetes cluster with kubeadm
        2. Set up the kubeconfig file
        3. Install a network plugin (Calico)
        4. Generate a join command for worker nodes
        
        After generating these scripts, transfer them to the master node and execute them in order.
        
        Here's what you need to do:
        1. Generate the common setup script
        2. Generate the master-specific script
        3. Transfer the scripts to the master node using SCP
        4. Execute the scripts via SSH
        5. Retrieve the join command for worker nodes
        
        Please execute these steps and report back on the status of the master node.
        ".

Definition worker_setup_text_0 : string :=
  "
        Now that the master node is set up, I need you to set up the Kubernetes worker node on ".

Definition worker_setup_text_1 : string :=
  ".
        
        First, generate the common setup script that will be used for all nodes (if not already done). This script should:
        1. Update the system
        2. Install dependencies
        3. Disable swap
        4. Configure containerd
        5. Install kubelet, kubeadm, and kubectl
        
        Then, generate a worker-specific script that will:
        1. Join the Kubernetes cluster using the join command from the master node
        
        After generating these scripts, transfer them to the worker node and execute them in order.
        
        Here's what you need to do:
        1. Generate the common setup script (if not already done)
        2. Generate the worker-specific script with the join command: ".

Definition worker_setup_text_2 : string :=
  "
        3. Transfer the scripts to the worker node using SCP
        4. Execute the scripts via SSH
        
        Please execute these steps and report back on the status of the worker node.
        ".

Definition cluster_verification_text_0 : string :=
  "
        Now that both master and worker nodes are set up, I need you to verify that the Kubernetes cluster is functioning correctly.
        
        Connect to the master node via SSH and run the following commands:
        1. kubectl get nodes - to verify that all nodes are in the Ready state
        2. kubectl get pods --all-namespaces - to verify that system pods are running
        3. kubectl version - to verify the Kubernetes version
        
        Here's what you need to do:
        1. SSH into the master node ".

Definition cluster_verification_text_1 : string :=
  "
        2. Run the verification commands
        3. Report back on the status of the cluster
        
        Please execute these steps and confirm that the cluster is functioning correctly.
        ".

Definition cluster_destruction_text : string :=
  "
        I need you to destroy the Kubernetes cluster infrastructure that was created with Terraform.
        
        Run 'terraform destroy' with the auto-approve flag to remove all AWS resources that were created.
        
        Here's what you need to do:
        1. Change to the Terraform directory
        2. Run 'terraform destroy -auto-approve'
        3. Verify that all resources have been destroyed
        
        Please execute these steps and confirm that all resources have been destroyed.
        ".

Definition infrastructure_setup_prompt : string := infrastructure_setup_text.

Definition master_setup_prompt (master_ip ssh_key_path : Py.value) : string :=
  master_setup_text_0 +:+ Py.str master_ip +:+ master_setup_text_1.

Definition worker_setup_prompt (worker_ip ssh_key_path join_command : Py.value) : string :=
  worker_setup_text_0 +:+ Py.str worker_ip +:+ worker_setup_text_1
  +:+ Py.str join_command +:+ worker_setup_text_2.

Definition cluster_verification_prompt (master_ip ssh_key_path : Py.value) : string :=
  cluster_verification_text_0 +:+ Py.str master_ip +:+ cluster_verification_text_1.

Definition cluster_destruction_prompt : string := cluster_destruction_text.

End K8sPromptTemplates.

(** ** k8s_manager.py: the agent executor and [K8sClusterManager] *)

(** The tool's [_run] behind each call. *)
Definition run_tool (env : environment) (c : tool_call) : M string :=
  match c with
  | terraform_init workspace_dir => TerraformInitTool._run env workspace_dir
  | terraform_plan workspace_dir variables =>
      TerraformPlanTool._run env workspace_dir variables
  | terraform_apply workspace_dir auto_approve plan_file variables =>
      TerraformApplyTool._run env workspace_dir auto_approve plan_file variables
  | terraform_output workspace_dir output_name =>
      TerraformOutputTool._run env workspace_dir output_name
  | terraform_destroy workspace_dir auto_approve variables =>
      TerraformDestroyTool._run env workspace_dir auto_approve variables
  | ssh_execute host username key_path port command timeout =>
      SSHConnectionTool._run env host username key_path port command timeout
  | scp_transfer host username key_path port local_path remote_path upload recursive timeout =>
      SCPTransferTool._run env host username key_path port local_path remote_path
        upload recursive timeout
  | generate_script script_type output_path parameters =>
      ScriptGeneratorTool._run script_type output_path parameters
  end.

(** The executor's loop: every tool the agent asks for is run, in the
    order asked, and its answer is handed back; an exception leaving a
    tool leaves the executor. *)
Fixpoint run_plan (env : environment) (p : plan) : M Py.value :=
  match p with
  | Finish output => ret output
  | Abort e => raise e
  | Call c k =>
      log (ETool c);;
      observation ← run_tool env c;
      run_plan env (k observation)
  end.

(** [self.agent.invoke({"input": prompt})]. *)
Definition agent_invoke (env : environment) (prompt : string) : M Py.value :=
  w ← get;
  log (EInvoke prompt);;
  run_plan env (env_agent env (w_trace w) prompt).

Module K8sClusterManager.

Import Exc.

Definition main_tf_text : string :=
  Str.quoted
  ["
# Provider configuration
provider ";
   "aws";
   " {
  region = var.aws_region
}

# VPC for the Kubernetes cluster
resource ";
   "aws_vpc";
   " ";
   "k8s_vpc";
   " {
  cidr_block           = var.vpc_cidr
  enable_dns_hostnames = true
  enable_dns_support   = true

  tags = {
    Name = ";
   "${var.cluster_name}-vpc";
   "
  }
}

# Internet Gateway
resource ";
   "aws_internet_gateway";
   " ";
   "k8s_igw";
   " {
  vpc_id = aws_vpc.k8s_vpc.id

  tags = {
    Name = ";
   "${var.cluster_name}-igw";
   "
  }
}

# Public subnet
resource ";
   "aws_subnet";
   " ";
   "k8s_public_subnet";
   " {
  count                   = var.subnet_count
  vpc_id                  = aws_vpc.k8s_vpc.id
  cidr_block              = cidrsubnet(var.vpc_cidr, 8, count.index)
  availability_zone       = element(var.availability_zones, count.index)
  map_public_ip_on_launch = true

  tags = {
    Name = ";
   "${var.cluster_name}-public-subnet-${count.index + 1}";
   "
  }
}

# Route table for public subnet
resource ";
   "aws_route_table";
   " ";
   "k8s_public_rt";
   " {
  vpc_id = aws_vpc.k8s_vpc.id

  route {
    cidr_block = ";
   "0.0.0.0/0";
   "
    gateway_id = aws_internet_gateway.k8s_igw.id
  }

  tags = {
    Name = ";
   "${var.cluster_name}-public-rt";
   "
  }
}

# Route table association with public subnets
resource ";
   "aws_route_table_association";
   " ";
   "k8s_public_rta";
   " {
  count          = var.subnet_count
  subnet_id      = aws_subnet.k8s_public_subnet[count.index].id
  route_table_id = aws_route_table.k8s_public_rt.id
}

# Security group for Kubernetes nodes
resource ";
   "aws_security_group";
   " ";
   "k8s_sg";
   " {
  name        = ";
   "${var.cluster_name}-sg";
   "
  description = ";
   "Security group for Kubernetes cluster nodes";
   "
  vpc_id      = aws_vpc.k8s_vpc.id

  # SSH access
  ingress {
    from_port   = 22
    to_port     = 22
    protocol    = ";
   "tcp";
   "
    cidr_blocks = [";
   "0.0.0.0/0";
   "]
  }

  # Kubernetes API server
  ingress {
    from_port   = 6443
    to_port     = 6443
    protocol    = ";
   "tcp";
   "
    cidr_blocks = [";
   "0.0.0.0/0";
   "]
  }

  # Allow all internal traffic within the security group
  ingress {
    from_port = 0
    to_port   = 0
    protocol  = ";
   "-1";
   "
    self      = true
  }

  # Allow all outbound traffic
  egress {
    from_port   = 0
    to_port     = 0
    protocol    = ";
   "-1";
   "
    cidr_blocks = [";
   "0.0.0.0/0";
   "]
  }

  tags = {
    Name = ";
   "${var.cluster_name}-sg";
   "
  }
}

# Key pair for SSH access
resource ";
   "aws_key_pair";
   " ";
   "k8s_key_pair";
   " {
  key_name   = ";
   "${var.cluster_name}-key";
   "
  public_key = file(var.ssh_public_key_path)
}

# Master nodes
resource ";
   "aws_instance";
   " ";
   "k8s_master";
   " {
  count                  = var.master_count
  ami                    = var.ami_id
  instance_type          = var.master_instance_type
  key_name               = aws_key_pair.k8s_key_pair.key_name
  vpc_security_group_ids = [aws_security_group.k8s_sg.id]
  subnet_id              = aws_subnet.k8s_public_subnet[count.index % var.subnet_count].id
  root_block_device {
    volume_size = var.master_volume_size
    volume_type = ";
   "gp3";
   "
  }

  tags = {
    Name = ";
   "${var.cluster_name}-master-${count.index + 1}";
   "
    Role = ";
   "master";
   "
  }
}

# Worker nodes
resource ";
   "aws_instance";
   " ";
   "k8s_worker";
   " {
  count                  = var.worker_count
  ami                    = var.ami_id
  instance_type          = var.worker_instance_type
  key_name               = aws_key_pair.k8s_key_pair.key_name
  vpc_security_group_ids = [aws_security_group.k8s_sg.id]
  subnet_id              = aws_subnet.k8s_public_subnet[count.index % var.subnet_count].id
  root_block_device {
    volume_size = var.worker_volume_size
    volume_type = ";
   "gp3";
   "
  }

  tags = {
    Name = ";
   "${var.cluster_name}-worker-${count.index + 1}";
   "
    Role = ";
   "worker";
   "
  }
}

# Outputs
output ";
   "master_public_ips";
   " {
  value = aws_instance.k8s_master[*].public_ip
}

output ";
   "worker_public_ips";
   " {
  value = aws_instance.k8s_worker[*].public_ip
}

output ";
   "master_private_ips";
   " {
  value = aws_instance.k8s_master[*].private_ip
}

output ";
   "worker_private_ips";
   " {
  value = aws_instance.k8s_worker[*].private_ip
}

output ";
   "kubernetes_api_endpoint";
   " {
  value = ";
   "https://${aws_instance.k8s_master[0].public_ip}:6443";
   "
}
"].

Definition variables_tf_text : string :=
  Str.quoted
  ["
variable ";
   "aws_region";
   " {
  description = ";
   "AWS region where the Kubernetes cluster will be provisioned";
   "
  type        = string
  default     = ";
   "us-east-1";
   "
}

variable ";
   "cluster_name";
   " {
  description = ";
   "Name of the Kubernetes cluster";
   "
  type        = string
  default     = ";
   "k8s-cluster";
   "
}

variable ";
   "vpc_cidr";
   " {
  description = ";
   "CIDR block for the VPC";
   "
  type        = string
  default     = ";
   "10.0.0.0/16";
   "
}

variable ";
   "subnet_count";
   " {
  description = ";
   "Number of subnets to create";
   "
  type        = number
  default     = 2
}

variable ";
   "availability_zones";
   " {
  description = ";
   "List of availability zones to use";
   "
  type        = list(string)
  default     = [";
   "us-east-1a";
   ", ";
   "us-east-1b";
   ", ";
   "us-east-1c";
   "]
}

variable ";
   "ami_id";
   " {
  description = ";
   "AMI ID for the EC2 instances (Ubuntu Server 22.04 LTS)";
   "
  type        = string
  default     = ";
   "ami-0c7217cdde317cfec";
   " # Ubuntu Server 22.04 LTS in us-east-1
}

variable ";
   "master_count";
   " {
  description = ";
   "Number of Kubernetes master nodes";
   "
  type        = number
  default     = 1
}

variable ";
   "worker_count";
   " {
  description = ";
   "Number of Kubernetes worker nodes";
   "
  type        = number
  default     = 2
}

variable ";
   "master_instance_type";
   " {
  description = ";
   "Instance type for Kubernetes master nodes";
   "
  type        = string
  default     = ";
   "t3.medium";
   "
}

variable ";
   "worker_instance_type";
   " {
  description = ";
   "Instance type for Kubernetes worker nodes";
   "
  type        = string
  default     = ";
   "t3.large";
   "
}

variable ";
   "master_volume_size";
   " {
  description = ";
   "Root volume size for master nodes in GB";
   "
  type        = number
  default     = 50
}

variable ";
   "worker_volume_size";
   " {
  description = ";
   "Root volume size for worker nodes in GB";
   "
  type        = number
  default     = 100
}

variable ";
   "ssh_public_key_path";
   " {
  description = ";
   "Path to the public SSH key for EC2 instance access";
   "
  type        = string
  default     = ";
   "~/.ssh/id_rsa.pub";
   "
}

variable ";
   "kubernetes_version";
   " {
  description = ";
   "Kubernetes version to install";
   "
  type        = string
  default     = ";
   "1.28.2";
   "
}

variable ";
   "pod_network_cidr";
   " {
  description = ";
   "CIDR for pod network";
   "
  type        = string
  default     = ";
   "10.244.0.0/16";
   "
}

variable ";
   "service_cidr";
   " {
  description = ";
   "CIDR for Kubernetes services";
   "
  type        = string
  default     = ";
   "10.96.0.0/12";
   "
}
"].

Definition setup_input_text_0 : string :=
  "
                I want to set up a Kubernetes cluster with ".

Definition setup_input_text_1 : string :=
  " master nodes 
                and ".

Definition setup_input_text_2 : string :=
  " worker nodes in AWS region ".

Definition setup_input_text_3 : string :=
  ".
                
                I have already created the Terraform files in ".

Definition setup_input_text_4 : string :=
  "/terraform.
                
                Please perform the following steps:
                1. Initialize Terraform
                2. Create an execution plan
                3. Apply the Terraform configuration to create the infrastructure
                4. Generate the necessary scripts for setting up the Kubernetes cluster
                5. Configure the master node(s)
                6. Configure the worker nodes
                7. Verify the cluster is properly set up
                
                I'll be using the SSH key at ".

Definition setup_input_text_5 : string :=
  " for accessing the instances.
                ".

Definition destroy_input_text : string :=
  "
                Please destroy the Kubernetes cluster that was created.
                Run terraform destroy with auto-approve to remove all resources.
                ".

(** [self.working_dir], set once by [__init__]. *)
Definition working_dir : string := "./k8s_setup".

(** The directories [__init__] makes sure exist. *)
Definition __init__ : M unit :=
  OS.makedirs working_dir true;;
  OS.makedirs (working_dir +:+ "/terraform") true;;
  OS.makedirs (working_dir +:+ "/scripts") true.

Definition _generate_main_tf : string := main_tf_text.

Definition _generate_variables_tf : string := variables_tf_text.

Definition all_str (l : list Py.value) : bool := forallb Py.is_str l.

Definition _generate_tfvars (config : Py.dict) : string :=
  fold_left
    (fun tfvars kv =>
       let '(key, value) := kv in
       match value with
       | Py.VStr s => tfvars +:+ key +:+ " = " +:+ Str.dq +:+ s +:+ Str.dq +:+ Str.nl
       | Py.VList l =>
           if all_str l then
             let formatted_list :=
               String.concat (Str.dq +:+ ", " +:+ Str.dq) (map Py.str l) in
             tfvars +:+ key +:+ " = [" +:+ Str.dq +:+ formatted_list +:+ Str.dq +:+ "]" +:+ Str.nl
           else
             let formatted_list := String.concat ", " (map Py.str l) in
             tfvars +:+ key +:+ " = [" +:+ formatted_list +:+ "]" +:+ Str.nl
       | _ => tfvars +:+ key +:+ " = " +:+ Py.str value +:+ Str.nl
       end)
    config "".

Definition terraform_file (name : string) : string :=
  Path.join (Path.join working_dir "terraform") name.

Definition create_terraform_files (config : Py.dict) : M unit :=
  OS.write_text (terraform_file "main.tf") _generate_main_tf;;
  OS.write_text (terraform_file "variables.tf") _generate_variables_tf;;
  OS.write_text (terraform_file "terraform.tfvars") (_generate_tfvars config).

(** The [input] of the agent in [setup_kubernetes_cluster]. *)
Definition setup_input (config : Py.dict) : string :=
  setup_input_text_0
  +:+ Py.str (Py.dict_get_default config "master_count" (Py.VInt 1))
  +:+ setup_input_text_1
  +:+ Py.str (Py.dict_get_default config "worker_count" (Py.VInt 2))
  +:+ setup_input_text_2
  +:+ Py.str (Py.dict_get_default config "aws_region" (Py.VStr "us-east-1"))
  +:+ setup_input_text_3
  +:+ working_dir
  +:+ setup_input_text_4
  +:+ Py.str (Py.dict_get_default config "ssh_private_key_path" (Py.VStr "~/.ssh/id_rsa"))
  +:+ setup_input_text_5.

Definition setup_kubernetes_cluster (env : environment) (config : Py.dict) : M Py.dict :=
  try_except
    (create_terraform_files config;;
     result ← agent_invoke env (setup_input config);
     ret [("success", Py.VBool true);
          ("message", Py.VStr "Kubernetes cluster setup completed successfully");
          ("agent_output", result)])
    is_Exception
    (fun e =>
       ret [("success", Py.VBool false);
            ("message", Py.VStr ("Error setting up Kubernetes cluster: " +:+ exn_msg e));
            ("error", Py.VStr (exn_msg e))]).

Definition destroy_cluster (env : environment) : M Py.dict :=
  try_except
    (result ← agent_invoke env destroy_input_text;
     ret [("success", Py.VBool true);
          ("message", Py.VStr "Kubernetes cluster destroyed successfully");
          ("agent_output", result)])
    is_Exception
    (fun e =>
       ret [("success", Py.VBool false);
            ("message", Py.VStr ("Error destroying Kubernetes cluster: " +:+ exn_msg e));
            ("error", Py.VStr (exn_msg e))]).

End K8sClusterManager.

(** * Reasoning about computations *)

(** ** Relations every step of a computation keeps

    [respects R m]: whatever [m] does, its final state is [R]-related to
    the state it started from.  For a preorder [R] this is closed under
    every way the sources compose steps. *)

Definition respects {A} (R : relation world) (m : M A) : Prop :=
  forall w, R w (snd (m w)).

(** The log only grows, and by events satisfying [P]. *)
Definition grows_by (P : event -> Prop) : relation world :=
  fun w w' => exists evs, w_trace w' = w_trace w ++ evs /\ Forall P evs.

(** A component of the state is left as it was. *)
Definition keeps {X} (f : world -> X) : relation world :=
  fun w w' => f w' = f w.

#[export] Instance grows_by_preorder P : PreOrder (grows_by P).
Proof.
  split.
  - intros w. exists []. rewrite app_nil_r. auto.
  - intros w1 w2 w3 [e1 [H1 F1]] [e2 [H2 F2]].
    exists (e1 ++ e2). rewrite H2, H1, app_assoc. split; [reflexivity|].
    apply Forall_app; auto.
Qed.

#[export] Instance keeps_preorder {X} (f : world -> X) : PreOrder (keeps f).
Proof.
  split.
  - intros w. reflexivity.
  - intros w1 w2 w3 H1 H2. unfold keeps in *. congruence.
Qed.

Section Respects.
Context (R : relation world) `{!PreOrder R}.

Lemma respects_ret {A} (a : A) : respects R (ret a).
Proof. intros w. simpl. reflexivity. Qed.

Lemma respects_raise {A} (e : Exc.exn) : respects R (@raise A e).
Proof. intros w. simpl. reflexivity. Qed.

Lemma respects_lift {A} (r : Exc.result A) : respects R (lift r).
Proof. intros w. simpl. reflexivity. Qed.

Lemma respects_get : respects R get.
Proof. intros w. simpl. reflexivity. Qed.

Lemma respects_bind {A B} (m : M A) (k : A -> M B) :
  respects R m -> (forall a, respects R (k a)) -> respects R (bind m k).
Proof.
  intros Hm Hk w. unfold bind. specialize (Hm w).
  destruct (m w) as [[a|e] w1]; simpl in *; [|exact Hm].
  etransitivity; [exact Hm|apply Hk].
Qed.

Lemma respects_try_except {A} (m : M A) catches h :
  respects R m -> (forall e, respects R (h e)) -> respects R (try_except m catches h).
Proof.
  intros Hm Hh w. unfold try_except. specialize (Hm w).
  destruct (m w) as [[a|e] w1]; simpl in *; [exact Hm|].
  destruct (catches e); [|exact Hm].
  etransitivity; [exact Hm|apply Hh].
Qed.

Lemma respects_try_finally {A} (m : M A) fin :
  respects R m -> respects R fin -> respects R (try_finally m fin).
Proof.
  intros Hm Hf w. unfold try_finally. specialize (Hm w).
  destruct (m w) as [r w1]; simpl in *. specialize (Hf w1).
  destruct (fin w1) as [[u|e] w2]; simpl in *; etransitivity; eauto.
Qed.

Lemma respects_for_each {A} (l : list A) body :
  (forall x, respects R (body x)) -> respects R (for_each l body).
Proof.
  intros Hb. induction l as [|x l IH]; simpl.
  - apply respects_ret.
  - apply respects_bind; auto.
Qed.

End Respects.

(** Break a computation down along its binds, branches and handlers. *)
Ltac respects_step :=
  match goal with
  | |- respects _ (bind _ _) => apply respects_bind; [tc_solve| |intros]
  | |- respects _ (try_except _ _ _) => apply respects_try_except; [tc_solve| |intros]
  | |- respects _ (try_finally _ _) => apply respects_try_finally; [tc_solve| |]
  | |- respects _ (for_each _ _) => apply respects_for_each; [tc_solve|intros]
  | |- respects _ (ret _) => apply respects_ret; tc_solve
  | |- respects _ (raise _) => apply respects_raise; tc_solve
  | |- respects _ (lift _) => apply respects_lift; tc_solve
  | |- respects _ get => apply respects_get; tc_solve
  | |- respects _ (if ?b then _ else _) => destruct b
  | |- respects _ (match ?x with _ => _ end) => destruct x
  | |- respects _ (let '(_, _) := ?x in _) => destruct x
  | |- respects _ (let _ := _ in _) => cbv zeta
  end.

Ltac respects_auto := repeat respects_step.

(** ** What the primitive steps keep *)

Lemma grows_by_set_fs P fs : respects (grows_by P) (set_fs fs).
Proof. intros w. exists []. simpl. rewrite app_nil_r. auto. Qed.

Lemma grows_by_set_cwd P cwd : respects (grows_by P) (set_cwd cwd).
Proof. intros w. exists []. simpl. rewrite app_nil_r. auto. Qed.

Lemma grows_by_set_host_fs P host fs : respects (grows_by P) (set_host_fs host fs).
Proof. intros w. exists []. simpl. rewrite app_nil_r. auto. Qed.

Lemma grows_by_print P line : respects (grows_by P) (print line).
Proof. intros w. exists []. simpl. rewrite app_nil_r. auto. Qed.

Lemma grows_by_log (P : event -> Prop) ev : P ev -> respects (grows_by P) (log ev).
Proof. intros H w. exists [ev]. simpl. auto. Qed.

Lemma grows_by_new_events P w w' :
  grows_by P w w' -> Forall P (new_events w w') /\ w_trace w' = w_trace w ++ new_events w w'.
Proof.
  intros [evs [H F]]. unfold new_events. rewrite H, drop_app_length. auto.
Qed.

Section LocalSteps.
Context (R : relation world) `{!PreOrder R}.
Context (Hfs : forall fs, respects R (set_fs fs)).

Lemma respects_makedirs name exist_ok : respects R (OS.makedirs name exist_ok).
Proof. unfold OS.makedirs. respects_auto; auto. Qed.

Lemma respects_write_text name content : respects R (OS.write_text name content).
Proof. unfold OS.write_text. respects_auto; auto. Qed.

Lemma respects_read_bytes name : respects R (OS.read_bytes name).
Proof. unfold OS.read_bytes. respects_auto; auto. Qed.

Lemma respects_chmod name mode : respects R (OS.chmod name mode).
Proof. unfold OS.chmod. respects_auto; auto. Qed.

Lemma respects_path_exists name : respects R (OS.path_exists name).
Proof. unfold OS.path_exists. respects_auto; auto. Qed.

Lemma respects_path_isdir name : respects R (OS.path_isdir name).
Proof. unfold OS.path_isdir. respects_auto; auto. Qed.

Lemma respects_os_walk top : respects R (os_walk top).
Proof. unfold os_walk. respects_auto; auto. Qed.

Lemma respects_chdir name :
  (forall cwd, respects R (set_cwd cwd)) -> respects R (OS.chdir name).
Proof. intros Hcwd. unfold OS.chdir. respects_auto; auto. Qed.

Lemma respects_script_run script_type output_path parameters :
  respects R (ScriptGeneratorTool._run script_type output_path parameters).
Proof.
  unfold ScriptGeneratorTool._run.
  respects_auto; auto using respects_makedirs, respects_write_text, respects_chmod.
Qed.

End LocalSteps.

(** ** Trees: lookups after updates *)

Lemma assoc_set_entry_eq es x n : FS.assoc (FS.set_entry es x n) x = Some n.
Proof.
  induction es as [|[y m] es IH]; simpl.
  - rewrite String.eqb_refl. reflexivity.
  - destruct (String.eqb y x) eqn:E; simpl; rewrite E; auto.
Qed.

Lemma assoc_set_entry_ne es x y n :
  x <> y -> FS.assoc (FS.set_entry es x n) y = FS.assoc es y.
Proof.
  intros Hne. induction es as [|[z m] es IH]; simpl.
  - destruct (String.eqb x y) eqn:E; [apply String.eqb_eq in E; contradiction|reflexivity].
  - destruct (String.eqb z x) eqn:E; simpl.
    + apply String.eqb_eq in E. subst z.
      destruct (String.eqb x y) eqn:E'; [apply String.eqb_eq in E'; contradiction|reflexivity].
    + destruct (String.eqb z y); auto.
Qed.

Lemma lookup_put_node_eq n p new n' :
  FS.put_node n p new = Some n' -> FS.lookup n' p = Some new.
Proof.
  revert n n'. induction p as [|x p IH]; intros n n' H; simpl in *.
  - congruence.
  - destruct n as [|es]; [discriminate|].
    destruct p as [|y p].
    + inversion H; subst. simpl. rewrite assoc_set_entry_eq. reflexivity.
    + destruct (FS.assoc es x) as [c|] eqn:Ec; [|discriminate].
      destruct (FS.put_node c (y :: p) new) as [c'|] eqn:Ep; [|discriminate].
      inversion H; subst. simpl. rewrite assoc_set_entry_eq.
      apply (IH c c' Ep).
Qed.

(** A file elsewhere is not touched by putting a node at [q], as long as
    [q] is not a directory above it. *)
Lemma lookup_put_node_file n p q new n' m c :
  FS.lookup n p = Some (FS.File m c) ->
  FS.put_node n q new = Some n' ->
  q <> p -> FS.is_dir n q = false ->
  FS.lookup n' p = Some (FS.File m c).
Proof.
  revert n n' p. induction q as [|y q IH]; intros n n' p Hp Hq Hne Hd.
  - unfold FS.is_dir in Hd. simpl in *. destruct n; [|discriminate].
    destruct p; [congruence|discriminate].
  - simpl in Hq. destruct n as [|es]; [discriminate|].
    destruct p as [|x p]; [discriminate|].
    simpl in Hp.
    destruct (FS.assoc es x) as [cx|] eqn:Ex; [|discriminate].
    destruct (String.eqb_spec y x) as [->|Hyx].
    + rewrite Ex in Hq.
      destruct q as [|z q].
      * inversion Hq; subst. unfold FS.is_dir in Hd. simpl in Hd. rewrite Ex in Hd.
        destruct cx; [|discriminate].
        destruct p; [congruence|discriminate].
      * destruct (FS.put_node cx (z :: q) new) as [c'|] eqn:Ep; [|discriminate].
        inversion Hq; subst. simpl. rewrite assoc_set_entry_eq.
        apply (IH cx c' p Hp Ep); [congruence|].
        unfold FS.is_dir in *. simpl in Hd. rewrite Ex in Hd. exact Hd.
    + assert (FS.lookup n' (x :: p) = FS.lookup (FS.Dir es) (x :: p)) as ->.
      { destruct q as [|z q].
        - inversion Hq; subst. simpl. rewrite assoc_set_entry_ne by auto. reflexivity.
        - destruct (FS.assoc es y) as [cy|]; [|discriminate].
          destruct (FS.put_node cy (z :: q) new); [|discriminate].
          inversion Hq; subst. simpl. rewrite assoc_set_entry_ne by auto. reflexivity. }
      simpl. rewrite Ex. exact Hp.
Qed.

(** ** Taking a finished computation apart *)

Lemma bind_ok_inv {A B} (m : M A) (k : A -> M B) w b w' :
  bind m k w = (Exc.Ok b, w') ->
  exists a w1, m w = (Exc.Ok a, w1) /\ k a w1 = (Exc.Ok b, w').
Proof.
  unfold bind. destruct (m w) as [[a|e] w1]; [eauto|discriminate].
Qed.

Lemma bind_ok {A B} (m : M A) (k : A -> M B) w a w1 :
  m w = (Exc.Ok a, w1) -> bind m k w = k a w1.
Proof. unfold bind. intros ->. reflexivity. Qed.

Lemma bind_raise {A B} (m : M A) (k : A -> M B) w e w1 :
  m w = (Exc.Raise e, w1) -> bind m k w = (Exc.Raise e, w1).
Proof. unfold bind. intros ->. reflexivity. Qed.

Lemma try_except_inv {A} (m : M A) catches h w r w' :
  try_except m catches h w = (r, w') ->
  (m w = (r, w') /\ match r with Exc.Ok _ => True | Exc.Raise e => catches e = false end)
  \/ exists e w1, m w = (Exc.Raise e, w1) /\ catches e = true /\ h e w1 = (r, w').
Proof.
  unfold try_except. destruct (m w) as [[a|e] w1].
  - intros H. inversion H; subst. left. auto.
  - destruct (catches e) eqn:E.
    + intros H. right. eauto.
    + intros H. inversion H; subst. left. auto.
Qed.

Lemma try_except_ok {A} (m : M A) catches h w a w1 :
  m w = (Exc.Ok a, w1) -> try_except m catches h w = (Exc.Ok a, w1).
Proof. unfold try_except. intros ->. reflexivity. Qed.

Lemma try_except_caught {A} (m : M A) catches h w e w1 :
  m w = (Exc.Raise e, w1) -> catches e = true -> try_except m catches h w = h e w1.
Proof. unfold try_except. intros -> ->. reflexivity. Qed.

Lemma try_except_passed {A} (m : M A) catches h w e w1 :
  m w = (Exc.Raise e, w1) -> catches e = false ->
  try_except m catches h w = (Exc.Raise e, w1).
Proof. unfold try_except. intros -> ->. reflexivity. Qed.

Lemma ret_inv {A} (a b : A) w w' : ret a w = (Exc.Ok b, w') -> a = b /\ w = w'.
Proof. unfold ret. intros H. inversion H. auto. Qed.

(** ** Text that tells the answers of a tool apart *)

Lemma append_String c s t : String c s +:+ t = String c (s +:+ t).
Proof. reflexivity. Qed.

Lemma append_empty t : "" +:+ t = t.
Proof. reflexivity. Qed.

Lemma append_assoc (s1 s2 s3 : string) : (s1 +:+ s2) +:+ s3 = s1 +:+ s2 +:+ s3.
Proof.
  induction s1 as [|c s1 IH]; [reflexivity|].
  rewrite !append_String. f_equal. exact IH.
Qed.

Ltac string_discr H :=
  exfalso; repeat rewrite append_String in H; repeat rewrite append_empty in H;
  repeat (injection H as _ H); discriminate H.

(** ** [ScriptGeneratorTool._run]: what a successful call leaves behind *)

Lemma write_text_ok name content w w' :
  OS.write_text name content w = (Exc.Ok tt, w') ->
  exists perm,
    FS.lookup (w_fs w') (Path.resolve (w_cwd w) name) = Some (FS.File perm content)
    /\ FS.put_node (w_fs w) (Path.resolve (w_cwd w) name) (FS.File perm content) = Some (w_fs w')
    /\ FS.is_dir (w_fs w) (Path.resolve (w_cwd w) name) = false
    /\ w_cwd w' = w_cwd w /\ w_hosts w' = w_hosts w /\ w_trace w' = w_trace w
    /\ w_stdout w' = w_stdout w.
Proof.
  unfold OS.write_text, bind, get. simpl.
  destruct (Path.is_empty name); [discriminate|].
  destruct (FS.is_dir (w_fs w) (Path.resolve (w_cwd w) name)) eqn:Ed; [discriminate|].
  destruct (negb _); [destruct (FS.exists_ _ _); discriminate|].
  destruct (FS.put_node _ _ _) as [fs'|] eqn:Ep; [|discriminate].
  intros H. inversion H; subst; simpl.
  eexists. split; [eapply lookup_put_node_eq; exact Ep|].
  repeat split; try reflexivity. exact Ep.
Qed.

Lemma chmod_ok name mode w w' perm content :
  OS.chmod name mode w = (Exc.Ok tt, w') ->
  FS.lookup (w_fs w) (Path.resolve (w_cwd w) name) = Some (FS.File perm content) ->
  FS.lookup (w_fs w') (Path.resolve (w_cwd w) name) = Some (FS.File mode content).
Proof.
  unfold OS.chmod, bind, get. simpl. intros H Hl.
  destruct (Path.is_empty name); [discriminate|].
  rewrite Hl in H.
  destruct (FS.put_node _ _ _) as [fs'|] eqn:Ep; [|discriminate].
  inversion H; subst; simpl. eapply lookup_put_node_eq; exact Ep.
Qed.

Lemma script_run_success script_type output_path parameters w w' :
  ScriptGeneratorTool._run script_type output_path parameters w
    = (Exc.Ok (ScriptGeneratorTool.generated output_path), w') ->
  exists text,
    ScriptGeneratorTool.dispatch script_type parameters = Exc.Ok (Some text)
    /\ FS.lookup (w_fs w') (Path.resolve (w_cwd w) output_path) = Some (FS.File 0x1ED text).
Proof.
  unfold ScriptGeneratorTool._run. intros H.
  apply try_except_inv in H as [[H _]|(e & w1 & _ & _ & H)].
  2:{ apply ret_inv in H as [H _]. unfold ScriptGeneratorTool.generated in H. string_discr H. }
  apply bind_ok_inv in H as ([] & w1 & Hmk & H).
  assert (Hcwd : w_cwd w1 = w_cwd w).
  { pose proof (respects_makedirs (keeps w_cwd) (fun fs w => eq_refl)
                  (Path.dirname output_path) true w) as Hk.
    rewrite Hmk in Hk. exact Hk. }
  apply bind_ok_inv in H as (chosen & w2 & Hd & H).
  unfold lift in Hd. injection Hd as Hd <-.
  destruct chosen as [text|].
  2:{ apply ret_inv in H as [H _]. unfold ScriptGeneratorTool.generated in H. string_discr H. }
  exists text. split; [assumption|].
  apply bind_ok_inv in H as ([] & w2 & Hw & H).
  apply bind_ok_inv in H as ([] & w3 & Hc & H).
  apply ret_inv in H as [_ <-].
  apply write_text_ok in Hw as (perm & Hl & _ & _ & Hcwd2 & _).
  rewrite <- Hcwd. rewrite <- Hcwd2 at 1.
  eapply chmod_ok; [exact Hc|]. rewrite Hcwd2. exact Hl.
Qed.

(** ** Sample worlds and environments for the worked examples *)

Module Sample.

(** An obliging outside: no transport fault, every remote command exits
    with status [0] and prints nothing, every subprocess succeeds, and the
    agent finishes at once. *)
Definition env : environment := {|
  env_home := fun name => if String.eqb name "" then Some "/home/u" else None;
  env_fault := fun _ _ => None;
  env_exec := fun _ _ _ fs => ExecDone 0 "" "" fs;
  env_decode := fun s => Exc.Ok s;
  env_remote_home := fun _ => ["home"; "ubuntu"];
  env_subprocess := fun _ _ _ => Exc.Ok (Completed 0 "" "");
  env_json_pretty := fun s => Some s;
  env_agent := fun _ _ => Finish Py.VNone;
  env_recursion_limit := 1000
|}.

(** The same outside with another agent. *)
Definition with_agent (agent : list event -> string -> plan) : environment :=
  Env (env_home env) (env_fault env) (env_exec env) (env_decode env)
      (env_remote_home env) (env_subprocess env) (env_json_pretty env)
      agent (env_recursion_limit env).

(** The same outside with another remote shell, or with transport faults. *)
Definition with_exec (exec : list event -> string -> string -> FS.node -> exec_outcome)
  : environment :=
  Env (env_home env) (env_fault env) exec (env_decode env)
      (env_remote_home env) (env_subprocess env) (env_json_pretty env)
      (env_agent env) (env_recursion_limit env).

Definition with_fault (fault : list event -> event -> option Exc.exn) : environment :=
  Env (env_home env) fault (env_exec env) (env_decode env)
      (env_remote_home env) (env_subprocess env) (env_json_pretty env)
      (env_agent env) (env_recursion_limit env).

(** A remote shell that always exits with [status] after writing [out]
    and [err]. *)
Definition shell (status : Z) (out err : string)
  : list event -> string -> string -> FS.node -> exec_outcome :=
  fun _ _ _ fs => ExecDone status out err fs.

(** A link that times out on the first connection of the process and
    works from then on. *)
Definition flaky : list event -> event -> option Exc.exn :=
  fun trace ev =>
    if is_connect ev && negb (existsb is_connect trace)
    then Some (Exc.mk (Exc.Other "TimeoutError") "timed out")
    else None.

(** A home directory with an SSH key pair, and one remote host. *)
Definition home : world :=
  World
    (FS.Dir
       [("home",
         FS.Dir
           [("u",
             FS.Dir
               [(".ssh",
                 FS.Dir [("id_rsa", FS.File 0x180 "PRIVATE");
                         ("id_rsa.pub", FS.File 0x1A4 "PUBLIC")])])])])
    ["home"; "u"]
    (<["10.0.0.1" := FS.Dir [("home", FS.Dir [("ubuntu", FS.Dir [])])]]> ∅)
    [] [].

(** The world after [K8sClusterManager.__init__]. *)
Definition ready : world := snd (K8sClusterManager.__init__ home).

Definition config : Py.dict :=
  [("cluster_name", Py.VStr "k8s-cluster");
   ("aws_region", Py.VStr "us-east-1");
   ("availability_zones", Py.VList [Py.VStr "us-east-1a"; Py.VStr "us-east-1b"]);
   ("vpc_cidr", Py.VStr "10.0.0.0/16");
   ("master_count", Py.VInt 1);
   ("worker_count", Py.VInt 2);
   ("ssh_public_key_path", Py.VStr "~/.ssh/id_rsa.pub");
   ("ssh_private_key_path", Py.VStr "~/.ssh/id_rsa")].

Definition join_command : string := "kubeadm join 10.0.0.1:6443 --token tok-123".

(** What [setup_kubernetes_cluster] returns when the agent finished with
    [None]. *)
Definition success_result : Py.dict :=
  [("success", Py.VBool true);
   ("message", Py.VStr "Kubernetes cluster setup completed successfully");
   ("agent_output", Py.VNone)].

End Sample.

(** The line of the master script that keeps the join command on the
    control-plane host. *)
Definition join_command_file_line : string :=
  Str.quoted ["echo "; "$JOIN_COMMAND"; " > /root/k8s_join_command.sh"].

(** A result dictionary with a boolean [success] and a text [message]. *)
Definition structured_result (d : Py.dict) : Prop :=
  exists (flag : bool) (message : string),
    Py.dict_get d "success" = Some (Py.VBool flag)
    /\ Py.dict_get d "message" = Some (Py.VStr message).

(** An agent the user interrupts with Ctrl-C. *)
Definition interrupted_agent : list event -> string -> plan :=
  fun _ _ => Abort (Exc.mk Exc.KeyboardInterrupt "").

(** The working directory together with the local tree. *)
Definition place (w : world) : FS.path * FS.node := (w_cwd w, w_fs w).


(** ** What the channel steps add to the log *)

Create HintDb trace.

Lemma grows_by_read_bytes P name : respects (grows_by P) (OS.read_bytes name).
Proof. apply (respects_read_bytes (grows_by P)). Qed.

Lemma grows_by_write_text P name content : respects (grows_by P) (OS.write_text name content).
Proof. apply (respects_write_text (grows_by P) (grows_by_set_fs P)). Qed.

Lemma grows_by_makedirs P name exist_ok : respects (grows_by P) (OS.makedirs name exist_ok).
Proof. apply (respects_makedirs (grows_by P) (grows_by_set_fs P)). Qed.

Lemma grows_by_path_exists P name : respects (grows_by P) (OS.path_exists name).
Proof. apply (respects_path_exists (grows_by P)). Qed.

Lemma grows_by_path_isdir P name : respects (grows_by P) (OS.path_isdir name).
Proof. apply (respects_path_isdir (grows_by P)). Qed.

Lemma grows_by_os_walk P top : respects (grows_by P) (os_walk top).
Proof. apply (respects_os_walk (grows_by P)). Qed.

#[export] Hint Resolve grows_by_read_bytes grows_by_write_text grows_by_makedirs
  grows_by_path_exists grows_by_path_isdir grows_by_os_walk grows_by_set_fs
  grows_by_set_host_fs grows_by_set_cwd grows_by_print grows_by_log : trace.

Section ChannelSteps.
Context (env : environment) (P : event -> Prop).
Context (Hsftp : forall host op, P (ESftp host op)).

Lemma grows_by_call ev : P ev -> respects (grows_by P) (Channel.call env ev).
Proof.
  intros H. unfold Channel.call. respects_auto; auto with trace.
Qed.

#[local] Hint Resolve grows_by_call : trace.

Lemma grows_by_stat host p : respects (grows_by P) (Channel.stat env host p).
Proof. unfold Channel.stat. respects_auto; auto with trace. Qed.

Lemma grows_by_mkdir host p : respects (grows_by P) (Channel.mkdir env host p).
Proof.
  unfold Channel.mkdir. respects_auto; auto with trace.
Qed.

Lemma grows_by_listdir host p : respects (grows_by P) (Channel.listdir env host p).
Proof. unfold Channel.listdir. respects_auto; auto with trace. Qed.

Lemma grows_by_sftp_put host l r : respects (grows_by P) (Channel.sftp_put env host l r).
Proof.
  unfold Channel.sftp_put.
  respects_auto; auto with trace.
Qed.

Lemma grows_by_sftp_get host r l : respects (grows_by P) (Channel.sftp_get env host r l).
Proof.
  unfold Channel.sftp_get.
  respects_auto; auto with trace.
Qed.

#[local] Hint Resolve grows_by_stat grows_by_mkdir grows_by_listdir grows_by_sftp_put
  grows_by_sftp_get : trace.

Lemma grows_by_sftp_is_dir host p : respects (grows_by P) (sftp_is_dir env host p).
Proof. unfold sftp_is_dir. respects_auto; auto with trace. Qed.

Lemma grows_by_stat_or_mkdir host d : respects (grows_by P) (stat_or_mkdir env host d).
Proof. unfold stat_or_mkdir. respects_auto; auto with trace. Qed.

#[local] Hint Resolve grows_by_sftp_is_dir grows_by_stat_or_mkdir : trace.

Lemma grows_by_download depth host remote_dir local_dir :
  respects (grows_by P) (download_dir_recursive env depth host remote_dir local_dir).
Proof.
  revert remote_dir local_dir. induction depth as [|depth IH]; intros; simpl.
  - apply respects_raise. tc_solve.
  - respects_auto;
      auto with trace.
Qed.

Lemma grows_by_upload_level host local_path remote_path triple :
  respects (grows_by P)
    (SCPTransferTool.upload_level env host local_path remote_path triple).
Proof.
  unfold SCPTransferTool.upload_level. destruct triple as [[root dirs] files].
  respects_auto; auto with trace.
Qed.

End ChannelSteps.

(** The state after [evs] have been logged and nothing else has happened. *)
Definition logged (w : world) (evs : list event) : world :=
  World (w_fs w) (w_cwd w) (w_hosts w) (w_trace w ++ evs) (w_stdout w).

Lemma new_events_logged w evs : new_events w (logged w evs) = evs.
Proof. unfold new_events, logged. simpl. apply drop_app_length. Qed.

Lemma new_events_grows P w w1 w2 evs :
  w_trace w1 = w_trace w ++ evs -> grows_by P w1 w2 ->
  exists more, new_events w w2 = evs ++ more /\ Forall P more.
Proof.
  intros H1 [more [H2 F]]. exists more. split; [|exact F].
  unfold new_events. rewrite H2, H1, <- app_assoc. apply drop_app_length.
Qed.

(** The connection a tool call opens. *)
Definition attempt (env : environment) (host username key_path : string)
    (port timeout : Z) : event :=
  EConnect host username (Path.expanduser (env_home env) key_path) port timeout.

(** ** What a tool adds to the log *)

Section ToolSteps.
Context (env : environment) (P : event -> Prop).
Context (Hchannel : forall ev, is_channel_event ev = true -> P ev).
Context (Hsubprocess : forall cmd cwd, P (ESubprocess cmd cwd)).

Lemma grows_by_subprocess_run cmd : respects (grows_by P) (Subprocess.run env cmd).
Proof. unfold Subprocess.run. respects_auto; auto with trace. Qed.

Lemma grows_by_subprocess_run_check cmd :
  respects (grows_by P) (Subprocess.run_check env cmd).
Proof. unfold Subprocess.run_check. respects_auto. apply grows_by_subprocess_run. Qed.

Lemma grows_by_chdir name : respects (grows_by P) (OS.chdir name).
Proof. apply (respects_chdir (grows_by P)). apply grows_by_set_cwd. Qed.

Lemma grows_by_run_tool c : respects (grows_by P) (run_tool env c).
Proof.
  assert (Hsftp : forall host op, P (ESftp host op)) by (intros; apply Hchannel; reflexivity).
  destruct c; simpl.
  - unfold TerraformInitTool._run.
    respects_auto; auto using grows_by_chdir, grows_by_subprocess_run_check.
  - unfold TerraformPlanTool._run.
    respects_auto; auto using grows_by_chdir, grows_by_subprocess_run.
  - unfold TerraformApplyTool._run.
    respects_auto; auto using grows_by_chdir, grows_by_subprocess_run.
  - unfold TerraformOutputTool._run.
    respects_auto; auto using grows_by_chdir, grows_by_subprocess_run.
  - unfold TerraformDestroyTool._run.
    respects_auto; auto using grows_by_chdir, grows_by_subprocess_run.
  - unfold SSHConnectionTool._run, Channel.connect, Channel.exec_command.
    respects_auto; auto using grows_by_call with trace.
  - unfold SCPTransferTool._run, Channel.connect, Channel.open_sftp.
    respects_auto;
      auto using grows_by_call, grows_by_stat_or_mkdir, grows_by_upload_level,
        grows_by_sftp_put, grows_by_sftp_get, grows_by_sftp_is_dir, grows_by_download
        with trace.
  - apply (respects_script_run (grows_by P) (grows_by_set_fs P)).
Qed.

End ToolSteps.

(** ** Agents that follow a script, and what a log says about tools *)

(** The agent that asks for the calls of [cs] in order, whatever the tools
    answer, and then finishes with [output]. *)
Fixpoint script (cs : list tool_call) (output : Py.value) : plan :=
  match cs with
  | [] => Finish output
  | c :: cs' => Call c (fun _ => script cs' output)
  end.

(** The tool calls of a log, in order. *)
Definition tool_calls (evs : list event) : list tool_call :=
  omap (fun ev => match ev with ETool c => Some c | _ => None end) evs.

(** An event below the level of the agent: a channel call or a subprocess. *)
Definition is_inner (ev : event) : bool :=
  match ev with
  | ETool _ | EInvoke _ => false
  | _ => true
  end.

(** The worker-side join operation: the worker script, which is the text
    around the join command, is generated. *)
Definition is_join_operation (ev : event) : bool :=
  match ev with
  | ETool (generate_script script_type _ _) => String.eqb script_type "k8s_worker"
  | _ => false
  end.

(** The ordering the specification asks of a log: no join operation
    before a command has run on a remote host, which is the least the
    control plane needs to have issued a join credential.  [credential]
    says whether such a command has run already. *)
Fixpoint joins_follow_control_plane (credential : bool) (evs : list event) : bool :=
  match evs with
  | [] => true
  | ev :: evs' =>
      (negb (is_join_operation ev) || credential)
      && joins_follow_control_plane (credential || is_exec ev) evs'
  end.

(** Steps 5 and 6 of the input [setup_kubernetes_cluster] gives the agent. *)
Definition master_before_worker_steps : string :=
  "5. Configure the master node(s)
                6. Configure the worker nodes".

(** [success] is [True] in a result dictionary. *)
Definition reports_success (d : Py.dict) : bool :=
  match Py.dict_get d "success" with
  | Some (Py.VBool true) => true
  | _ => false
  end.

(** The agent that generates and runs the worker script at once. *)
Definition eager_worker_calls : list tool_call :=
  [generate_script "k8s_worker" "./k8s_setup/scripts/worker.sh" (Some []);
   scp_transfer "10.0.0.1" "ubuntu" "~/.ssh/id_rsa" 22
     "./k8s_setup/scripts/worker.sh" "worker.sh" true false 30;
   ssh_execute "10.0.0.1" "ubuntu" "~/.ssh/id_rsa" 22 "sudo bash worker.sh" 30].

(** The agent that checks the nodes of the cluster. *)
Definition verify_calls : list tool_call :=
  [ssh_execute "10.0.0.1" "ubuntu" "~/.ssh/id_rsa" 22 "kubectl get nodes" 30].

(** ** Further definitions for the properties beyond the claims *)

(** [os.chdir(name)] goes through: the name is not empty and resolves to a
    directory. *)
Definition enterable (w : world) (name : string) : bool :=
  negb (Path.is_empty name) && FS.is_dir (w_fs w) (Path.resolve (w_cwd w) name).

(** The exception [os.chdir(name)] raises when it does not go through. *)
Definition chdir_error (w : world) (name : string) : Exc.exn :=
  if Path.is_empty name then Exc.enoent name
  else if FS.exists_ (w_fs w) (Path.resolve (w_cwd w) name) then Exc.enotdir name
  else Exc.enoent name.

(** The state after the process has moved to the parent of its working
    directory and nothing else has changed. *)
Definition moved_up (w : world) : world :=
  World (w_fs w) (removelast (w_cwd w)) (w_hosts w) (w_trace w) (w_stdout w).

(** One of the three script types [ScriptGeneratorTool._run] knows. *)
Definition known_script_type (script_type : string) : bool :=
  String.eqb script_type "k8s_master" || String.eqb script_type "k8s_worker"
  || String.eqb script_type "common".

(** Every exception [m] can raise satisfies [P]. *)
Definition raises_only {A} (P : Exc.exn -> bool) (m : M A) : Prop :=
  forall w e w', m w = (Exc.Raise e, w') -> P e = true.

(** A key path value [validate_config] is satisfied with: a string that,
    after [expanduser], names something that exists (a file or a
    directory). *)
Definition key_found (env : environment) (w : world) (v : Py.value) : bool :=
  match v with
  | Py.VStr s =>
      negb (Path.is_empty (Path.expanduser (env_home env) s))
      && FS.exists_ (w_fs w) (Path.resolve (w_cwd w) (Path.expanduser (env_home env) s))
  | _ => false
  end.

(** A value [<] compares with an integer. *)
Definition is_number (v : Py.value) : bool :=
  match v with
  | Py.VInt _ | Py.VBool _ => true
  | _ => false
  end.

(** Where [./k8s_setup/terraform] lies for a process in state [w]. *)
Definition terraform_dir (w : world) : FS.path :=
  w_cwd w ++ ["k8s_setup"; "terraform"].

(** The dictionary [setup_kubernetes_cluster] returns for an exception
    with the text [msg]. *)
Definition setup_failure (msg : string) : Py.dict :=
  [("success", Py.VBool false);
   ("message", Py.VStr ("Error setting up Kubernetes cluster: " +:+ msg));
   ("error", Py.VStr msg)].

(** ** Definitions for the recursive transfers *)

(** What [os.path.join] puts before a relative second argument. *)
Definition dir_prefix (a : string) : string :=
  if Path.is_empty a || Str.ends_with_char "/" a then a else a +:+ "/".

Definition is_Dir (n : FS.node) : bool :=
  match n with FS.Dir _ => true | FS.File _ _ => false end.

Definition is_File (n : FS.node) : bool :=
  match n with FS.File _ _ => true | FS.Dir _ => false end.

(** The files at and below a node: a regular file is its own only file. *)
Definition files_of (n : FS.node) : list (FS.path * string) :=
  match n with
  | FS.File _ c => [([], c)]
  | FS.Dir _ => FS.files_under n
  end.

(** The locations where the files below [n] land when [n] is copied to
    [d] below [rb]. *)
Definition landing (rb d : FS.path) (n : FS.node) (q : FS.path) : Prop :=
  exists rel c, In (rel, c) (FS.files_under n) /\ q = rb ++ d ++ rel.

(** Neither of the two locations lies at or below the other. *)
Definition apart (p q : FS.path) : Prop :=
  (forall r, p <> q ++ r) /\ (forall r, q <> p ++ r).

(** From [w] to [w'] the local side is untouched, and every file of
    [host] whose location is not in [W] has kept its content. *)
Definition remote_kept (host : string) (W : FS.path -> Prop) (w w' : world) : Prop :=
  place w' = place w
  /\ forall q c, ~ W q ->
       FS.read (host_fs w host) q = Some c -> FS.read (host_fs w' host) q = Some c.

(** From [w] to [w'] the process stayed where it was, the hosts are
    untouched, and every local file whose location is not in [W] has kept
    its content. *)
Definition local_kept (W : FS.path -> Prop) (w w' : world) : Prop :=
  w_cwd w' = w_cwd w /\ w_hosts w' = w_hosts w
  /\ forall q c, ~ W q -> FS.read (w_fs w) q = Some c -> FS.read (w_fs w') q = Some c.

(** No call on the channel ever meets a transport fault. *)
Definition no_faults (env : environment) : Prop :=
  forall trace ev, env_fault env trace ev = None.

(** A small tree of scripts, and a world that has it in [~/scripts]. *)
Definition scripts_tree : FS.node :=
  FS.Dir [("common.sh", FS.File 0x1ED "apt-get update");
          ("k8s",
           FS.Dir [("master.sh", FS.File 0x1ED "kubeadm init");
                   ("worker.sh", FS.File 0x1ED "kubeadm join")])].

Definition workshop : world :=
  World
    (FS.Dir [("home", FS.Dir [("u", FS.Dir [("scripts", scripts_tree)])])])
    ["home"; "u"]
    (<["10.0.0.1" := FS.Dir [("home", FS.Dir [("ubuntu", FS.Dir [])])]]> ∅)
    [] [].

(** A small tree of logs, and a world whose host has it in [~/logs]. *)
Definition logs_tree : FS.node :=
  FS.Dir [("init.log", FS.File 0x1A4 "kubeadm init ok");
          ("pods", FS.Dir [("dns.log", FS.File 0x1A4 "ready")])].

Definition archive : world :=
  World
    (FS.Dir [("home", FS.Dir [("u", FS.Dir [])])])
    ["home"; "u"]
    (<["10.0.0.1" :=
         FS.Dir [("home", FS.Dir [("ubuntu", FS.Dir [("logs", logs_tree)])])]]> ∅)
    [] [].

(** ** What a transfer can change *)

(** The location [q] is [b] or lies below it. *)
Definition at_or_below (b q : FS.path) : Prop := exists r, q = b ++ r.

(** Started where the working directory is [cwd] and the local tree is
    [fs], a step changes neither, and no file of [host] outside [rb]. *)
Definition upload_frame (host : string) (cwd : FS.path) (fs : FS.node) (rb : FS.path)
  : relation world :=
  fun w w' => place w = (cwd, fs) -> remote_kept host (at_or_below rb) w w'.

(** Started where the working directory is [cwd] and the hosts are
    [hosts], a step changes neither, and no local file outside [lq]. *)
Definition download_frame (cwd : FS.path) (hosts : gmap string FS.node) (lq : FS.path)
  : relation world :=
  fun w w' => w_cwd w = cwd -> w_hosts w = hosts -> local_kept (at_or_below lq) w w'.

(** * The claims *)

(** ** Script generation (C7, C5) *)

Lemma grows_by_nothing w w' :
  grows_by (fun _ => False) w w' -> new_events w w' = [].
Proof.
  intros H. apply grows_by_new_events in H as [F _].
  destruct (new_events w w'); [reflexivity|]. inversion F. contradiction.
Qed.

Lemma script_run_offline script_type output_path parameters w :
  new_events w (snd (ScriptGeneratorTool._run script_type output_path parameters w)) = []
  /\ w_hosts (snd (ScriptGeneratorTool._run script_type output_path parameters w)) = w_hosts w.
Proof.
  split.
  - apply grows_by_nothing.
    apply (respects_script_run (grows_by (fun _ => False)) (grows_by_set_fs _)).
  - apply (respects_script_run (keeps w_hosts) (fun fs w0 => eq_refl)).
Qed.



(** C5, the claim as stated fails: generating the worker script for the
    join command [kubeadm join 10.0.0.1:6443 --token tok-123] leaves a file
    on the local disk whose text holds the token. *)
Lemma join_credential_reaches_disk :
  fst (ScriptGeneratorTool._run "k8s_worker" "./k8s_setup/scripts/worker.sh"
         (Some [("join_command", Py.VStr Sample.join_command)]) Sample.ready)
    = Exc.Ok "Script generated at ./k8s_setup/scripts/worker.sh"
  /\ exists text,
       FS.read
         (w_fs (snd (ScriptGeneratorTool._run "k8s_worker" "./k8s_setup/scripts/worker.sh"
                       (Some [("join_command", Py.VStr Sample.join_command)]) Sample.ready)))
         ["home"; "u"; "k8s_setup"; "scripts"; "worker.sh"] = Some text
       /\ Str.contains "--token tok-123" text = true.
Proof.
  split; [vm_compute; reflexivity|].
  eexists. split; vm_compute; reflexivity.
Qed.

(** C5, amended.  The code keeps no credential-presence flag and does
    write the join command to files.  Whenever [ScriptGeneratorTool._run]
    reports success for a worker script with a string [join_command], the
    file at [output_path] on the local file system, with mode [0o755],
    holds the fixed worker text around that join command, verbatim; and
    every master script stores the join command the control plane prints
    in [/root/k8s_join_command.sh] on that host. *)
Theorem worker_script_stores_join_command
    (d : Py.dict) (join_command output_path : string) (w w' : world) :
  Py.dict_get d "join_command" = Some (Py.VStr join_command) ->
  ScriptGeneratorTool._run "k8s_worker" output_path (Some d) w
    = (Exc.Ok (ScriptGeneratorTool.generated output_path), w') ->
  FS.lookup (w_fs w') (Path.resolve (w_cwd w) output_path)
    = Some (FS.File 0x1ED
              (ScriptGeneratorTool.worker_text_0 +:+ join_command
               +:+ ScriptGeneratorTool.worker_text_1))
  /\ Str.contains join_command_file_line ScriptGeneratorTool.master_text_2 = true
  /\ forall parameters, exists head,
       ScriptGeneratorTool._generate_k8s_master_script (Some parameters)
         = Exc.Ok (head +:+ ScriptGeneratorTool.master_text_2).
Proof.
  intros Hjc H. apply script_run_success in H as (text & D & L).
  unfold ScriptGeneratorTool.dispatch in D. simpl in D.
  unfold Py.dict_get_default in D. rewrite Hjc in D. simpl in D.
  injection D as <-. split; [exact L|]. split; [vm_compute; reflexivity|].
  intros parameters. simpl.
  exists (ScriptGeneratorTool.master_text_0
          +:+ Py.str (Py.dict_get_default parameters "pod_network_cidr" (Py.VStr "10.244.0.0/16"))
          +:+ ScriptGeneratorTool.master_text_1
          +:+ Py.str (Py.dict_get_default parameters "service_cidr" (Py.VStr "10.96.0.0/12"))).
  f_equal. rewrite !append_assoc. reflexivity.
Qed.

Lemma worker_script_stores_join_command_witness :
  FS.lookup
    (w_fs (snd (ScriptGeneratorTool._run "k8s_worker" "./k8s_setup/scripts/worker.sh"
                  (Some [("join_command", Py.VStr Sample.join_command)]) Sample.ready)))
    ["home"; "u"; "k8s_setup"; "scripts"; "worker.sh"]
  = Some (FS.File 0x1ED
            (ScriptGeneratorTool.worker_text_0 +:+ Sample.join_command
             +:+ ScriptGeneratorTool.worker_text_1)).
Proof.
  exact (proj1 (worker_script_stores_join_command
                  [("join_command", Py.VStr Sample.join_command)] Sample.join_command
                  "./k8s_setup/scripts/worker.sh" Sample.ready _ eq_refl eq_refl)).
Defined.

(** ** Configuration checks (C6) *)

Lemma dict_get_set (d : Py.dict) k v k' :
  Py.dict_get (Py.dict_set d k v) k' =
  if String.eqb k k' then Some v else Py.dict_get d k'.
Proof.
  induction d as [|[k0 v0] d IH]; simpl.
  - reflexivity.
  - destruct (String.eqb_spec k0 k) as [->|Hne]; simpl.
    + destruct (String.eqb k k'); reflexivity.
    + destruct (String.eqb_spec k0 k') as [->|Hne'].
      * destruct (String.eqb_spec k k'); [congruence|reflexivity].
      * exact IH.
Qed.

Lemma dict_has_set (d : Py.dict) k v k' :
  Py.dict_has d k = true -> Py.dict_has (Py.dict_set d k v) k' = Py.dict_has d k'.
Proof.
  unfold Py.dict_has. rewrite dict_get_set. intros H.
  destruct (String.eqb_spec k k') as [->|_]; [|reflexivity].
  destruct (Py.dict_get d k'); [reflexivity|discriminate].
Qed.

(** C6, the claim as stated fails: a configuration asking for [-1] workers
    is accepted. *)
Lemma negative_worker_count_accepted :
  fst (Main.validate_config Sample.env
         (Py.dict_set Sample.config "worker_count" (Py.VInt (-1))) Sample.home)
    = Exc.Ok true.
Proof. vm_compute. reflexivity. Qed.

(** C6, amended.  [validate_config] rejects every configuration whose
    [master_count] is an integer below one; a configuration it accepts has
    a [master_count] that is not below one; and [worker_count] has to be
    present but its value is never examined: putting any other value in
    its place changes neither the answer nor what is printed. *)
Theorem validate_config_checks_master_count
    (env : environment) (config : Py.dict) (w : world) :
  (forall n, Py.dict_get config "master_count" = Some (Py.VInt n) -> n < 1 ->
             fst (Main.validate_config env config w) = Exc.Ok false)
  /\ (fst (Main.validate_config env config w) = Exc.Ok true ->
      exists v, Py.dict_get config "master_count" = Some v
                /\ Main.lt_int v 1 = Exc.Ok false)
  /\ (forall v, Py.dict_has config "worker_count" = true ->
                Main.validate_config env (Py.dict_set config "worker_count" v) w
                = Main.validate_config env config w).
Proof.
  split; [|split].
  - intros n Hm Hn. unfold Main.validate_config.
    destruct (List.filter _ Main.required_fields); [|reflexivity].
    unfold Main.item, Py.dict_get_default. rewrite Hm. simpl.
    assert ((n <? 1) = true) as -> by (apply Z.ltb_lt; exact Hn). reflexivity.
  - unfold Main.validate_config.
    destruct (List.filter _ Main.required_fields) as [|f fs] eqn:Ef; [|discriminate].
    assert (Hin : Py.dict_has config "master_count" = true).
    { destruct (Py.dict_has config "master_count") eqn:E; [reflexivity|].
      assert (In "master_count" (List.filter (fun field => negb (Py.dict_has config field))
                                   Main.required_fields)) as Hi.
      { apply filter_In. split; [simpl; tauto|]. rewrite E. reflexivity. }
      rewrite Ef in Hi. destruct Hi. }
    unfold Py.dict_has in Hin. unfold Main.item, Py.dict_get_default.
    destruct (Py.dict_get config "master_count") as [v|]; [|discriminate].
    intros H. exists v. split; [reflexivity|]. simpl in H.
    unfold bind, lift in H.
    destruct (Main.lt_int v 1) as [[|]|e]; simpl in H; try discriminate. reflexivity.
  - intros v Hw. unfold Main.validate_config.
    rewrite (filter_ext _ (fun field => negb (Py.dict_has config field)))
      by (intros f; rewrite dict_has_set by exact Hw; reflexivity).
    unfold Main.item, Py.dict_get_default. rewrite !dict_get_set. reflexivity.
Qed.

(** ** The Terraform tools and the working directory (C10) *)

Lemma keeps_place_run env cmd : respects (keeps place) (Subprocess.run env cmd).
Proof.
  unfold Subprocess.run. respects_auto. intros w0. reflexivity.
Qed.

Lemma keeps_place_run_check env cmd : respects (keeps place) (Subprocess.run_check env cmd).
Proof.
  unfold Subprocess.run_check. respects_auto. apply keeps_place_run.
Qed.

Lemma resolve_parent cwd name : Path.resolve (cwd ++ [name]) ".." = cwd.
Proof.
  unfold Path.resolve. simpl. unfold Path.step. simpl. apply removelast_last.
Qed.

(** The frame every Terraform tool is built on: enter the workspace, do
    work that stays in place, and leave through [os.chdir("..")]. *)
Lemma chdir_frame_restores {A} (body : M A) catches (h : Exc.exn -> M A)
    (workspace_dir name : string) (w : world) :
  respects (keeps place) body ->
  (forall e, respects (keeps place) (h e)) ->
  Path.resolve (w_cwd w) workspace_dir = w_cwd w ++ [name] ->
  FS.is_dir (w_fs w) (w_cwd w ++ [name]) = true ->
  FS.is_dir (w_fs w) (w_cwd w) = true ->
  w_cwd (snd (try_finally
                (try_except (bind (OS.chdir workspace_dir) (fun _ => body)) catches h)
                (OS.chdir "..") w)) = w_cwd w.
Proof.
  intros Hb Hh Hres Hchild Hcwd.
  assert (Hne : Path.is_empty workspace_dir = false).
  { destruct workspace_dir; [|reflexivity]. exfalso.
    unfold Path.resolve, Path.step in Hres. simpl in Hres.
    apply (f_equal (@length string)) in Hres. rewrite length_app in Hres. simpl in Hres.
    clear -Hres. lia. }
  set (w1 := World (w_fs w) (w_cwd w ++ [name]) (w_hosts w) (w_trace w) (w_stdout w)).
  assert (Hcd : OS.chdir workspace_dir w = (Exc.Ok tt, w1)).
  { unfold OS.chdir, bind, get. simpl. rewrite Hne, Hres, Hchild. reflexivity. }
  assert (Hin : keeps place w1
                  (snd (try_except (bind (OS.chdir workspace_dir) (fun _ => body)) catches h w))).
  { unfold try_except. rewrite (bind_ok _ _ _ _ _ Hcd).
    pose proof (Hb w1) as Hb1.
    destruct (body w1) as [[a|e] w2]; simpl in *; [exact Hb1|].
    destruct (catches e); [|exact Hb1].
    pose proof (Hh e w2) as Hh2. unfold keeps in *. congruence. }
  unfold try_finally.
  destruct (try_except _ catches h w) as [r w2]. simpl in Hin.
  unfold keeps, place in Hin. injection Hin as Hc Hf. subst w1. simpl in *.
  assert (Hup : OS.chdir ".." w2
                = (Exc.Ok tt, World (w_fs w2) (w_cwd w) (w_hosts w2) (w_trace w2) (w_stdout w2))).
  { unfold OS.chdir, bind, get. simpl. rewrite Hc, resolve_parent, Hf, Hcwd.
    unfold set_cwd. rewrite Hf. reflexivity. }
  rewrite Hup. reflexivity.
Qed.



(** ** The entry points and exceptions (C8) *)



(** ** The SSH tools: answers and attempts (C4, C3) *)





Lemma filter_none {A} (f : A -> bool) (l : list A) :
  Forall (fun x => f x = false) l -> List.filter f l = [].
Proof.
  induction 1 as [|x l Hx _ IH]; simpl; [reflexivity|]. rewrite Hx. exact IH.
Qed.

Lemma connect_logs_attempt env host username key_path port timeout w :
  snd (Channel.connect env host username key_path port timeout w)
  = logged w [EConnect host username key_path port timeout].
Proof.
  unfold Channel.connect, Channel.call, bind, get, log. simpl.
  destruct (env_fault env _ _); reflexivity.
Qed.

(** A tool body that connects first and never connects again makes one
    connection attempt, whether it returns, answers with an error or
    lets an exception through. *)
Lemma one_connect {A} env host username key_path port timeout
    (rest : M A) catches (h : Exc.exn -> M A) w :
  respects (grows_by (fun ev => is_connect ev = false)) rest ->
  (forall e, respects (grows_by (fun ev => is_connect ev = false)) (h e)) ->
  List.filter is_connect
    (new_events w
       (snd (try_except
               (bind (Channel.connect env host username key_path port timeout)
                  (fun _ => rest)) catches h w)))
  = [EConnect host username key_path port timeout].
Proof.
  intros Hrest Hh.
  assert (G : grows_by (fun ev => is_connect ev = false)
                (logged w [EConnect host username key_path port timeout])
                (snd (try_except
                        (bind (Channel.connect env host username key_path port timeout)
                           (fun _ => rest)) catches h w))).
  { pose proof (connect_logs_attempt env host username key_path port timeout w) as Hc.
    unfold try_except, bind.
    destruct (Channel.connect env host username key_path port timeout w) as [[u|e] w1];
      simpl in Hc; subst w1.
    - pose proof (Hrest (logged w [EConnect host username key_path port timeout])) as Hr.
      destruct (rest _) as [[a|e] w2]; simpl in *; [exact Hr|].
      destruct (catches e); [|exact Hr].
      etransitivity; [exact Hr|apply Hh].
    - destruct (catches e); [apply Hh|reflexivity]. }
  eapply new_events_grows in G as (more & -> & F); [|reflexivity].
  simpl. rewrite filter_none by exact F. reflexivity.
Qed.


(** ** The agent loop (C1, C2) *)

Lemma grows_by_true_run_tool env c : respects (grows_by (fun _ => True)) (run_tool env c).
Proof. apply grows_by_run_tool; auto. Qed.

Lemma grows_by_inner_run_tool env c :
  respects (grows_by (fun ev => is_inner ev = true)) (run_tool env c).
Proof.
  apply grows_by_run_tool.
  - intros [] H; try discriminate; reflexivity.
  - reflexivity.
Qed.

Lemma grows_by_run_plan env p : respects (grows_by (fun _ => True)) (run_plan env p).
Proof.
  induction p as [output|e|c k IH]; simpl.
  - apply respects_ret. tc_solve.
  - apply respects_raise. tc_solve.
  - respects_auto; auto using grows_by_true_run_tool with trace.
Qed.

Lemma tool_calls_app evs evs' : tool_calls (evs ++ evs') = tool_calls evs ++ tool_calls evs'.
Proof. apply omap_app. Qed.

Lemma tool_calls_inner evs :
  Forall (fun ev => is_inner ev = true) evs -> tool_calls evs = [].
Proof.
  induction 1 as [|ev evs H _ IH]; [reflexivity|].
  destruct ev; try discriminate H; exact IH.
Qed.

Lemma new_events_trans P Q w w1 w2 :
  grows_by P w w1 -> grows_by Q w1 w2 ->
  new_events w w2 = new_events w w1 ++ new_events w1 w2.
Proof.
  intros H1 H2. apply grows_by_new_events in H1 as [_ E1].
  apply grows_by_new_events in H2 as [_ E2].
  unfold new_events at 1. rewrite E2, E1, <- app_assoc. apply drop_app_length.
Qed.

(** A scripted agent that runs to its end has had every call of its script
    run, in the order of the script. *)
Lemma run_plan_script env cs output w v w' :
  run_plan env (script cs output) w = (Exc.Ok v, w') ->
  tool_calls (new_events w w') = cs.
Proof.
  revert w. induction cs as [|c cs IH]; intros w H; simpl in H.
  - apply ret_inv in H as [_ <-]. unfold new_events. rewrite drop_all. reflexivity.
  - apply bind_ok_inv in H as ([] & w1 & Hlog & H).
    apply bind_ok_inv in H as (observation & w2 & Htool & H).
    assert (w1 = logged w [ETool c]) as ->
      by (unfold log in Hlog; injection Hlog as <-; reflexivity).
    pose proof (grows_by_inner_run_tool env c (logged w [ETool c])) as G.
    rewrite Htool in G. simpl in G.
    pose proof (grows_by_run_plan env (script cs output) w2) as G2.
    rewrite H in G2. simpl in G2.
    assert (G0 : grows_by (fun _ => True) w (logged w [ETool c])).
    { exists [ETool c]. split; [reflexivity|auto]. }
    assert (G1 : grows_by (fun _ => True) w w2).
    { etransitivity; [exact G0|].
      destruct G as (evs & E & _). exists evs. split; [exact E|]. apply Forall_true. auto. }
    rewrite (new_events_trans _ _ w w2 w' G1 G2).
    rewrite (new_events_trans _ _ w _ w2 G0 G).
    rewrite new_events_logged, !tool_calls_app.
    apply grows_by_new_events in G as [F _].
    rewrite (tool_calls_inner _ F), (IH _ H). reflexivity.
Qed.

Lemma create_terraform_files_quiet config w :
  w_trace (snd (K8sClusterManager.create_terraform_files config w)) = w_trace w.
Proof.
  assert (R : respects (keeps w_trace) (K8sClusterManager.create_terraform_files config)).
  { unfold K8sClusterManager.create_terraform_files.
    respects_auto; apply (respects_write_text (keeps w_trace)); intros fs w0; reflexivity. }
  exact (R w).
Qed.

(** A call of [setup_kubernetes_cluster] that reports success wrote the
    Terraform files, invoked the agent on the input made from the
    configuration, and ran the plan of the agent to its end. *)
Lemma setup_success_inv env config w d w' :
  K8sClusterManager.setup_kubernetes_cluster env config w = (Exc.Ok d, w') ->
  reports_success d = true ->
  exists w0 v,
    K8sClusterManager.create_terraform_files config w = (Exc.Ok tt, w0)
    /\ w_trace w0 = w_trace w
    /\ run_plan env (env_agent env (w_trace w0) (K8sClusterManager.setup_input config))
         (logged w0 [EInvoke (K8sClusterManager.setup_input config)]) = (Exc.Ok v, w').
Proof.
  unfold K8sClusterManager.setup_kubernetes_cluster. intros H Hs.
  apply try_except_inv in H as [[H _]|(e & w1 & _ & _ & H)].
  2:{ apply ret_inv in H as [<- _]. discriminate Hs. }
  apply bind_ok_inv in H as ([] & w0 & Hc & H).
  apply bind_ok_inv in H as (v & w2 & Ha & H).
  apply ret_inv in H as [_ <-].
  exists w0, v. split; [exact Hc|]. split.
  - pose proof (create_terraform_files_quiet config w) as Hq. rewrite Hc in Hq. exact Hq.
  - unfold agent_invoke, bind, get, log in Ha. simpl in Ha. exact Ha.
Qed.

Lemma setup_runs_script env config cs output w d w' :
  (forall trace prompt, env_agent env trace prompt = script cs output) ->
  K8sClusterManager.setup_kubernetes_cluster env config w = (Exc.Ok d, w') ->
  reports_success d = true ->
  exists rest,
    new_events w w' = EInvoke (K8sClusterManager.setup_input config) :: rest
    /\ tool_calls rest = cs.
Proof.
  intros Hagent H Hs.
  apply setup_success_inv in H as (w0 & v & Hc & Ht & Hr); [|exact Hs].
  rewrite Hagent in Hr.
  pose proof (run_plan_script _ _ _ _ _ _ Hr) as Hcalls.
  pose proof (grows_by_run_plan env (script cs output)
                (logged w0 [EInvoke (K8sClusterManager.setup_input config)])) as G.
  rewrite Hr in G. simpl in G.
  exists (new_events (logged w0 [EInvoke (K8sClusterManager.setup_input config)]) w').
  split; [|exact Hcalls].
  apply grows_by_new_events in G as [_ E].
  unfold new_events at 1. rewrite E. unfold logged at 1. simpl.
  rewrite Ht, <- app_assoc. apply drop_app_length.
Qed.

Lemma starts_with_app p s t :
  Str.starts_with p s = true -> Str.starts_with p (s +:+ t) = true.
Proof.
  revert s. induction p as [|a p IH]; intros s H; [reflexivity|].
  destruct s as [|b s]; [discriminate|]. simpl in *.
  destruct (Ascii.eqb a b); [apply IH; exact H|discriminate].
Qed.

Lemma contains_app_l needle s t :
  Str.contains needle s = true -> Str.contains needle (s +:+ t) = true.
Proof.
  induction s as [|c s IH]; intros H.
  - simpl in H. rewrite orb_false_r in H. destruct needle; [|discriminate].
    rewrite append_empty. destruct t; reflexivity.
  - rewrite append_String. simpl in H. apply orb_true_iff in H as [H|H].
    + apply (starts_with_app _ _ t) in H. rewrite append_String in H.
      simpl. rewrite H. reflexivity.
    + simpl. rewrite (IH H). apply orb_true_r.
Qed.

Lemma contains_app_r needle s t :
  Str.contains needle t = true -> Str.contains needle (s +:+ t) = true.
Proof.
  intros H. induction s as [|c s IH]; [exact H|].
  rewrite append_String. simpl. rewrite IH. apply orb_true_r.
Qed.

Lemma setup_input_lists_master_first config :
  Str.contains master_before_worker_steps (K8sClusterManager.setup_input config) = true.
Proof.
  unfold K8sClusterManager.setup_input.
  do 8 apply contains_app_r. apply contains_app_l. vm_compute. reflexivity.
Qed.







(** * Properties beyond the claims *)

(** ** The Terraform tools and the working directory, in general *)

Lemma is_dir_parent n p : FS.is_dir n p = true -> FS.is_dir n (removelast p) = true.
Proof.
  unfold FS.is_dir. revert n. induction p as [|x p IH]; intros n H; [exact H|].
  destruct p as [|y p].
  - simpl in *. destruct n as [|es]; [discriminate|reflexivity].
  - change (removelast (x :: y :: p)) with (x :: removelast (y :: p)).
    simpl in H. simpl. destruct n as [|es]; [discriminate|].
    destruct (FS.assoc es x) as [c|]; [|discriminate].
    apply IH. exact H.
Qed.

Lemma chdir_cases name w :
  OS.chdir name w =
  if enterable w name
  then (Exc.Ok tt, World (w_fs w) (Path.resolve (w_cwd w) name) (w_hosts w) (w_trace w)
                     (w_stdout w))
  else (Exc.Raise (chdir_error w name), w).
Proof.
  unfold OS.chdir, enterable, chdir_error, bind, get. simpl.
  destruct (Path.is_empty name); simpl; [reflexivity|].
  destruct (FS.is_dir _ _); reflexivity.
Qed.

Lemma resolve_up cwd : Path.resolve cwd ".." = removelast cwd.
Proof. reflexivity. Qed.

(** Leaving through [os.chdir("..")] from a directory that exists. *)
Lemma chdir_up w :
  FS.is_dir (w_fs w) (w_cwd w) = true ->
  OS.chdir ".." w
  = (Exc.Ok tt, World (w_fs w) (removelast (w_cwd w)) (w_hosts w) (w_trace w) (w_stdout w)).
Proof.
  intros H. rewrite chdir_cases. unfold enterable. simpl.
  rewrite resolve_up, (is_dir_parent _ _ H). reflexivity.
Qed.

(** The frame of the Terraform tools when the workspace can be entered:
    the process ends up in the parent of the workspace. *)
Lemma chdir_frame_enterable {A} (body : M A) catches (h : Exc.exn -> M A)
    (workspace_dir : string) (w : world) :
  respects (keeps place) body ->
  (forall e, respects (keeps place) (h e)) ->
  enterable w workspace_dir = true ->
  w_cwd (snd (try_finally
                (try_except (bind (OS.chdir workspace_dir) (fun _ => body)) catches h)
                (OS.chdir "..") w))
  = removelast (Path.resolve (w_cwd w) workspace_dir).
Proof.
  intros Hb Hh He.
  set (w1 := World (w_fs w) (Path.resolve (w_cwd w) workspace_dir) (w_hosts w) (w_trace w)
               (w_stdout w)).
  assert (Hcd : OS.chdir workspace_dir w = (Exc.Ok tt, w1))
    by (rewrite chdir_cases, He; reflexivity).
  assert (Hin : keeps place w1
                  (snd (try_except (bind (OS.chdir workspace_dir) (fun _ => body)) catches h w))).
  { unfold try_except. rewrite (bind_ok _ _ _ _ _ Hcd).
    pose proof (Hb w1) as Hb1.
    destruct (body w1) as [[a|e] w2]; simpl in *; [exact Hb1|].
    destruct (catches e); [|exact Hb1].
    pose proof (Hh e w2) as Hh2. unfold keeps in *. congruence. }
  unfold try_finally.
  destruct (try_except _ catches h w) as [r w2]. simpl in Hin.
  unfold keeps, place in Hin. injection Hin as Hc Hf. subst w1. simpl in *.
  apply andb_true_iff in He as [_ Hd].
  rewrite chdir_up by (rewrite Hc, Hf; exact Hd).
  simpl. rewrite Hc. reflexivity.
Qed.



Lemma chdir_error_is_Exception w name : Exc.is_Exception (chdir_error w name) = true.
Proof.
  unfold chdir_error. destruct (Path.is_empty name); [reflexivity|].
  destruct (FS.exists_ _ _); reflexivity.
Qed.

Lemma chdir_error_not_CalledProcessError w name :
  Exc.is_CalledProcessError (chdir_error w name) = false.
Proof.
  unfold chdir_error. destruct (Path.is_empty name); [reflexivity|].
  destruct (FS.exists_ _ _); reflexivity.
Qed.

(** The frame of the Terraform tools when the workspace cannot be entered:
    the body is skipped, and [os.chdir("..")] still runs. *)
Lemma chdir_frame_blocked {A} (body : M A) catches (h : Exc.exn -> M A)
    (workspace_dir : string) (w : world) :
  enterable w workspace_dir = false ->
  FS.is_dir (w_fs w) (w_cwd w) = true ->
  try_finally
    (try_except (bind (OS.chdir workspace_dir) (fun _ => body)) catches h)
    (OS.chdir "..") w
  = if catches (chdir_error w workspace_dir)
    then try_finally (h (chdir_error w workspace_dir)) (OS.chdir "..") w
    else (Exc.Raise (chdir_error w workspace_dir), moved_up w).
Proof.
  intros He Hd.
  assert (Hcd : OS.chdir workspace_dir w = (Exc.Raise (chdir_error w workspace_dir), w))
    by (rewrite chdir_cases, He; reflexivity).
  unfold try_finally, try_except. rewrite (bind_raise _ _ _ _ _ Hcd).
  destruct (catches _); [reflexivity|].
  rewrite (chdir_up w Hd). reflexivity.
Qed.



(** ** Terraform command lines *)

(** [terraform_apply] with a plan file drops its variables: whenever
    [plan_file] is a non-empty name (as the default [tfplan] is), the
    call does the same, and answers the same, whatever [variables]
    holds. *)
Theorem terraform_apply_ignores_variables_with_plan_file
    (env : environment) (workspace_dir plan_file : string) (auto_approve : bool)
    (variables : option Py.dict) (w : world) :
  plan_file <> "" ->
  TerraformApplyTool._run env workspace_dir auto_approve (Some plan_file) variables w
  = TerraformApplyTool._run env workspace_dir auto_approve (Some plan_file) None w.
Proof.
  intros Hne. unfold TerraformApplyTool._run.
  assert (Ht : truthy_str (Some plan_file) = true)
    by (destruct plan_file; [contradiction|reflexivity]).
  rewrite Ht. simpl. rewrite andb_false_r. reflexivity.
Qed.

Lemma terraform_apply_ignores_variables_with_plan_file_witness :
  TerraformApplyTool._run Sample.env "./k8s_setup" true (Some "tfplan")
    (Some [("worker_count", Py.VInt 5)]) Sample.ready
  = TerraformApplyTool._run Sample.env "./k8s_setup" true (Some "tfplan") None Sample.ready.
Proof.
  apply (terraform_apply_ignores_variables_with_plan_file Sample.env "./k8s_setup" "tfplan"
           true (Some [("worker_count", Py.VInt 5)]) Sample.ready).
  discriminate.
Defined.

(** ** [ScriptGeneratorTool._run]: edge cases *)

Lemma split_slash_no_slash s : Str.has_char "/" s = false -> Path.split_slash s = [s].
Proof.
  induction s as [|c s IH]; intros H; [reflexivity|].
  simpl in H. apply orb_false_iff in H as [Hc Hs].
  simpl. rewrite Hc, (IH Hs). reflexivity.
Qed.

Lemma dirname_no_slash s : Str.has_char "/" s = false -> Path.dirname s = "".
Proof.
  intros H. unfold Path.dirname. rewrite (split_slash_no_slash s H). reflexivity.
Qed.

(** An output path without a directory part makes every call fail, for
    every script type and every parameters, known or not: [os.makedirs]
    is called on the empty directory name before anything else, the
    answer is its error text, and the state is left as it was. *)
Theorem script_run_rejects_bare_file_names
    (script_type output_path : string) (parameters : option Py.dict) (w : world) :
  Str.has_char "/" output_path = false ->
  ScriptGeneratorTool._run script_type output_path parameters w
  = (Exc.Ok "Script generation error: [Errno 2] No such file or directory: ''", w).
Proof.
  intros H. unfold ScriptGeneratorTool._run. rewrite (dirname_no_slash _ H).
  reflexivity.
Qed.

Lemma script_run_rejects_bare_file_names_witness :
  ScriptGeneratorTool._run "common" "common.sh" (Some []) Sample.ready
  = (Exc.Ok "Script generation error: [Errno 2] No such file or directory: ''", Sample.ready).
Proof.
  apply (script_run_rejects_bare_file_names "common" "common.sh" (Some []) Sample.ready).
  reflexivity.
Defined.

(** The output directory is created before the request is looked at: once
    [os.makedirs] has gone through, an unknown script type is answered
    with [Unknown script type], and a known one called without parameters
    (the default [None]) is answered with the [AttributeError] text; in
    both cases no file is written and the created directory stays. *)
Theorem script_run_creates_directory_before_checking
    (script_type output_path : string) (parameters : option Py.dict) (w w1 : world) :
  OS.makedirs (Path.dirname output_path) true w = (Exc.Ok tt, w1) ->
  (known_script_type script_type = false ->
   ScriptGeneratorTool._run script_type output_path parameters w
   = (Exc.Ok ("Unknown script type: " +:+ script_type), w1))
  /\ (known_script_type script_type = true ->
      ScriptGeneratorTool._run script_type output_path None w
      = (Exc.Ok "Script generation error: 'NoneType' object has no attribute 'get'", w1)).
Proof.
  intros Hmk. unfold known_script_type, ScriptGeneratorTool._run, try_except.
  unfold ScriptGeneratorTool.dispatch.
  split; intros H; rewrite (bind_ok _ _ _ _ _ Hmk).
  - apply orb_false_iff in H as [H H3]. apply orb_false_iff in H as [H1 H2].
    rewrite H1, H2, H3. reflexivity.
  - destruct (String.eqb script_type "k8s_master"); [reflexivity|].
    destruct (String.eqb script_type "k8s_worker"); [reflexivity|].
    destruct (String.eqb script_type "common"); [reflexivity|discriminate].
Qed.

Lemma script_run_creates_directory_before_checking_witness :
  ScriptGeneratorTool._run "k8s_worker" "./out/worker.sh" None Sample.home
  = (Exc.Ok "Script generation error: 'NoneType' object has no attribute 'get'",
     snd (OS.makedirs "./out" true Sample.home))
  /\ FS.is_dir (w_fs (snd (OS.makedirs "./out" true Sample.home))) ["home"; "u"; "out"] = true.
Proof.
  split; [|reflexivity].
  exact (proj2 (script_run_creates_directory_before_checking "k8s_worker" "./out/worker.sh"
                  None Sample.home (snd (OS.makedirs "./out" true Sample.home)) eq_refl)
           eq_refl).
Defined.

Lemma raises_only_bind {A B} P (m : M A) (k : A -> M B) :
  raises_only P m -> (forall a, raises_only P (k a)) -> raises_only P (bind m k).
Proof.
  intros Hm Hk w e w' H. unfold bind in H.
  destruct (m w) as [[a|e0] w1] eqn:E.
  - eapply Hk; exact H.
  - injection H as <- <-. eapply Hm; exact E.
Qed.

Lemma raises_only_ret {A} P (a : A) : raises_only P (ret a).
Proof. intros w e w' H. discriminate. Qed.

Lemma raises_only_get P : raises_only P get.
Proof. intros w e w' H. discriminate. Qed.

Lemma raises_only_set_fs P fs : raises_only P (set_fs fs).
Proof. intros w e w' H. discriminate. Qed.

Lemma raises_only_raise {A} (P : Exc.exn -> bool) e :
  P e = true -> raises_only P (@raise A e).
Proof. intros He w e' w' H. injection H as <- <-. exact He. Qed.

Ltac raises_step :=
  match goal with
  | |- raises_only _ (bind _ _) => apply raises_only_bind; [|intros]
  | |- raises_only _ (ret _) => apply raises_only_ret
  | |- raises_only _ get => apply raises_only_get
  | |- raises_only _ (set_fs _) => apply raises_only_set_fs
  | |- raises_only _ (raise _) => apply raises_only_raise
  | |- raises_only _ (if ?b then _ else _) => destruct b
  | |- raises_only _ (match ?x with _ => _ end) => destruct x
  | |- raises_only _ (let _ := _ in _) => cbv zeta
  end.

Lemma makedirs_raises_exceptions name exist_ok :
  raises_only Exc.is_Exception (OS.makedirs name exist_ok).
Proof.
  unfold OS.makedirs. repeat raises_step; try reflexivity.
  destruct (FS.is_file _ _); reflexivity.
Qed.

Lemma write_text_raises_exceptions name content :
  raises_only Exc.is_Exception (OS.write_text name content).
Proof.
  unfold OS.write_text. repeat raises_step; try reflexivity.
  destruct (FS.exists_ _ _); reflexivity.
Qed.

Lemma chmod_raises_exceptions name mode :
  raises_only Exc.is_Exception (OS.chmod name mode).
Proof. unfold OS.chmod. repeat raises_step; reflexivity. Qed.

Lemma dispatch_raises_exceptions script_type parameters :
  raises_only Exc.is_Exception (lift (ScriptGeneratorTool.dispatch script_type parameters)).
Proof.
  intros w e w' H. unfold lift in H. injection H as H _.
  unfold ScriptGeneratorTool.dispatch in H.
  destruct parameters as [d|]; simpl in H;
    repeat (destruct (String.eqb script_type _); [congruence|]); try congruence;
    repeat match type of H with
           | context [String.eqb ?a ?b] => destruct (String.eqb a b)
           end; try discriminate; injection H as <-; reflexivity.
Qed.

(** [generate_script] never raises: whatever goes wrong with the request
    or on the file system comes back as text. *)
Theorem script_run_always_answers
    (script_type output_path : string) (parameters : option Py.dict) (w : world) :
  exists text,
    fst (ScriptGeneratorTool._run script_type output_path parameters w) = Exc.Ok text.
Proof.
  unfold ScriptGeneratorTool._run, try_except.
  match goal with |- context [match ?m w with _ => _ end] =>
    assert (R : raises_only Exc.is_Exception m); [|destruct (m w) as [[a|e] w1] eqn:E]
  end.
  - repeat raises_step;
      auto using makedirs_raises_exceptions, write_text_raises_exceptions,
        chmod_raises_exceptions, dispatch_raises_exceptions.
  - eexists. reflexivity.
  - rewrite (R _ _ _ E). eexists. reflexivity.
Qed.

(** ** [validate_config]: when it accepts, and when it raises *)

Lemma filter_missing_nil (config : Py.dict) (fields : list string) :
  List.filter (fun field => negb (Py.dict_has config field)) fields = []
  <-> forallb (Py.dict_has config) fields = true.
Proof.
  induction fields as [|f fields IH]; simpl; [tauto|].
  destruct (Py.dict_has config f); simpl; [exact IH|].
  split; discriminate.
Qed.


(** With every required field present, a [master_count] that is no number
    (a string such as ["3"], a list, [None]) makes [validate_config] raise
    the [TypeError] of the comparison instead of returning [False];
    nothing is printed. *)
Theorem validate_config_raises_on_non_numeric_master_count
    (env : environment) (config : Py.dict) (w : world) :
  forallb (Py.dict_has config) Main.required_fields = true ->
  is_number (Main.item config "master_count") = false ->
  Main.validate_config env config w
  = (Exc.Raise
       (Exc.mk Exc.TypeError
          ("'<' not supported between instances of '"
           +:+ Py.type_name (Main.item config "master_count") +:+ "' and 'int'")), w).
Proof.
  intros Hall Hn. apply filter_missing_nil in Hall.
  unfold Main.validate_config. rewrite Hall.
  destruct (Main.item config "master_count"); try discriminate Hn; reflexivity.
Qed.

Lemma validate_config_raises_on_non_numeric_master_count_witness :
  Main.validate_config Sample.env
    (Py.dict_set Sample.config "master_count" (Py.VStr "3")) Sample.home
  = (Exc.Raise
       (Exc.mk Exc.TypeError "'<' not supported between instances of 'str' and 'int'"),
     Sample.home).
Proof.
  exact (validate_config_raises_on_non_numeric_master_count Sample.env
           (Py.dict_set Sample.config "master_count" (Py.VStr "3")) Sample.home
           eq_refl eq_refl).
Defined.

(** ** [_generate_tfvars] *)

Lemma append_empty_r (s : string) : s +:+ "" = s.
Proof.
  induction s as [|c s IH]; [reflexivity|]. rewrite append_String, IH. reflexivity.
Qed.

Lemma tfvars_app (config1 config2 : Py.dict) :
  K8sClusterManager._generate_tfvars (config1 ++ config2)
  = K8sClusterManager._generate_tfvars config1
    +:+ K8sClusterManager._generate_tfvars config2.
Proof.
  unfold K8sClusterManager._generate_tfvars.
  match goal with |- fold_left ?f _ _ = _ => set (step := f) end.
  assert (Hstep : forall acc kv, step acc kv = acc +:+ step "" kv).
  { intros acc [key value]. unfold step.
    destruct value as [| | | |l|]; try reflexivity.
    destruct (K8sClusterManager.all_str l); reflexivity. }
  assert (Hfold : forall l acc, fold_left step l acc = acc +:+ fold_left step l "").
  { induction l as [|kv l IH]; intros acc; simpl.
    - symmetry. apply append_empty_r.
    - rewrite (IH (step acc kv)), (IH (step "" kv)), (Hstep acc kv).
      apply append_assoc. }
  rewrite fold_left_app. apply Hfold.
Qed.

(** The text of [terraform.tfvars] is built key by key, in the order of
    the configuration: the text for two configurations put one after the
    other is the text for the first followed by the text for the second. *)
Theorem generate_tfvars_is_built_key_by_key (config1 config2 : Py.dict) :
  K8sClusterManager._generate_tfvars (config1 ++ config2)
  = K8sClusterManager._generate_tfvars config1
    +:+ K8sClusterManager._generate_tfvars config2.
Proof. apply tfvars_app. Qed.

(** An empty list in the configuration is written as a list holding one
    empty string: the line for [key = []] reads [key = [""]], wherever
    the key stands in the configuration. *)
Theorem generate_tfvars_writes_empty_list_as_one_empty_string
    (before after : Py.dict) (key : string) :
  K8sClusterManager._generate_tfvars (before ++ (key, Py.VList []) :: after)
  = K8sClusterManager._generate_tfvars before
    +:+ key +:+ " = [" +:+ Str.dq +:+ Str.dq +:+ "]" +:+ Str.nl
    +:+ K8sClusterManager._generate_tfvars after.
Proof.
  rewrite tfvars_app. f_equal.
  change ((key, Py.VList []) :: after) with ([(key, Py.VList [])] ++ after).
  rewrite tfvars_app. unfold K8sClusterManager._generate_tfvars at 1. simpl.
  rewrite append_empty, !append_assoc. reflexivity.
Qed.

(** ** More on trees *)

Lemma set_entry_same es x c : FS.assoc es x = Some c -> FS.set_entry es x c = es.
Proof.
  induction es as [|[y m] es IH]; simpl; [discriminate|].
  destruct (String.eqb_spec y x) as [->|Hne]; intros H.
  - injection H as ->. reflexivity.
  - rewrite (IH H). reflexivity.
Qed.

Lemma lookup_app n p r :
  FS.lookup n (p ++ r) = match FS.lookup n p with Some c => FS.lookup c r | None => None end.
Proof.
  revert n. induction p as [|x p IH]; intros n; simpl; [reflexivity|].
  destruct n as [|es]; [reflexivity|].
  destruct (FS.assoc es x); [apply IH|reflexivity].
Qed.

Lemma lookup_put_node_under n q new n' r :
  FS.put_node n q new = Some n' -> FS.lookup n' (q ++ r) = FS.lookup new r.
Proof.
  intros H. rewrite lookup_app, (lookup_put_node_eq _ _ _ _ H). reflexivity.
Qed.

(** Putting a node needs, and keeps, the directories above it. *)
Lemma put_node_above n q new n' p r :
  FS.put_node n q new = Some n' -> q = p ++ r -> r <> [] ->
  FS.is_dir n p = true /\ FS.is_dir n' p = true.
Proof.
  revert n n' q. induction p as [|x p IH]; intros n n' q H -> Hr.
  - unfold FS.is_dir. simpl. destruct r as [|y r]; [contradiction|].
    simpl in H. destruct n as [|es]; [discriminate|].
    split; [reflexivity|].
    destruct r; [injection H as <-; reflexivity|].
    destruct (FS.assoc es y); [|discriminate].
    destruct (FS.put_node _ _ _); [|discriminate]. injection H as <-. reflexivity.
  - simpl in H. destruct n as [|es]; [discriminate|].
    destruct (p ++ r) as [|z t] eqn:Et.
    { destruct p; [destruct r; [contradiction|discriminate]|discriminate]. }
    destruct (FS.assoc es x) as [c|] eqn:Ec; [|discriminate].
    destruct (FS.put_node c (z :: t) new) as [c'|] eqn:Ep; [|discriminate].
    injection H as <-.
    destruct (IH c c' (z :: t) Ep eq_refl Hr) as [H1 H2].
    unfold FS.is_dir in *. simpl. rewrite Ec, assoc_set_entry_eq. auto.
Qed.

(** Putting a node leaves everything that is neither below nor above it
    as it was. *)
Lemma lookup_put_node_apart n q new n' p :
  FS.put_node n q new = Some n' ->
  (forall r, p <> q ++ r) -> (forall r, q <> p ++ r) ->
  FS.lookup n' p = FS.lookup n p.
Proof.
  revert n n' p. induction q as [|y q IH]; intros n n' p H Hq Hp.
  - exfalso. apply (Hq p). reflexivity.
  - destruct p as [|x p]; [exfalso; apply (Hp (y :: q)); reflexivity|].
    simpl in H. destruct n as [|es]; [discriminate|].
    destruct (String.eqb_spec y x) as [->|Hne].
    + destruct q as [|z q].
      { exfalso. apply (Hq p). reflexivity. }
      destruct (FS.assoc es x) as [c|] eqn:Ec; [|discriminate].
      destruct (FS.put_node c (z :: q) new) as [c'|] eqn:Ep; [|discriminate].
      injection H as <-. simpl. rewrite assoc_set_entry_eq, Ec.
      apply (IH c c' p Ep).
      * intros r E. apply (Hq r). rewrite E. reflexivity.
      * intros r E. apply (Hp r). rewrite E. reflexivity.
    + assert (E : exists es', n' = FS.Dir es' /\ FS.assoc es' x = FS.assoc es x).
      { destruct q as [|z q].
        - injection H as <-. eexists. split; [reflexivity|].
          apply assoc_set_entry_ne. exact Hne.
        - destruct (FS.assoc es y); [|discriminate].
          destruct (FS.put_node _ _ _); [|discriminate]. injection H as <-.
          eexists. split; [reflexivity|]. apply assoc_set_entry_ne. exact Hne. }
      destruct E as (es' & -> & E). simpl. rewrite E. reflexivity.
Qed.

(** Any two paths are equal, one strictly above the other, or apart. *)
Lemma paths_compare (p q : FS.path) :
  (exists r, p = q ++ r) \/ (exists r, r <> [] /\ q = p ++ r)
  \/ ((forall r, p <> q ++ r) /\ (forall r, q <> p ++ r)).
Proof.
  revert q. induction p as [|x p IH]; intros q.
  - destruct q as [|y q]; [left; exists []; reflexivity|].
    right. left. exists (y :: q). split; [discriminate|reflexivity].
  - destruct q as [|y q]; [left; exists (x :: p); reflexivity|].
    destruct (String.eqb_spec x y) as [->|Hne].
    + destruct (IH q) as [[r ->]|[[r [Hr ->]]|[H1 H2]]].
      * left. exists r. reflexivity.
      * right. left. exists r. split; [exact Hr|reflexivity].
      * right. right. split; intros r E; injection E as E; [eapply H1|eapply H2]; exact E.
    + right. right. split; intros r E; injection E as E _; congruence.
Qed.

Lemma put_node_some n p x new :
  FS.is_dir n p = true -> exists n', FS.put_node n (p ++ [x]) new = Some n'.
Proof.
  unfold FS.is_dir. revert n. induction p as [|y p IH]; intros n H; simpl in *.
  - destruct n as [|es]; [discriminate|]. eauto.
  - destruct n as [|es]; [discriminate|].
    destruct (FS.assoc es y) as [c|]; [|discriminate].
    destruct (IH c H) as [c' Hc]. rewrite Hc.
    destruct (p ++ [x]) eqn:E; [destruct p; discriminate|]. eauto.
Qed.

(** Putting a regular file or an empty directory where no directory was
    keeps every directory a directory and every non-directory elsewhere
    a non-directory. *)
Lemma is_dir_put_node n q new n' p :
  FS.put_node n q new = Some n' -> FS.is_dir n q = false -> p <> q ->
  (forall r, r <> [] -> FS.lookup new r = None) ->
  FS.is_dir n' p = FS.is_dir n p.
Proof.
  intros H Hq Hne Hleaf.
  destruct (paths_compare p q) as [[r ->]|[[r [Hr ->]]|[H1 H2]]].
  - assert (Hr : r <> []) by (intros ->; apply Hne; rewrite app_nil_r; reflexivity).
    unfold FS.is_dir. rewrite (lookup_put_node_under _ _ _ _ r H), (Hleaf r Hr).
    rewrite lookup_app. unfold FS.is_dir in Hq.
    destruct (FS.lookup n q) as [[|es]|]; try reflexivity; try discriminate.
    destruct r; [contradiction|reflexivity].
  - destruct (put_node_above _ _ _ _ p r H eq_refl Hr) as [-> ->]. reflexivity.
  - unfold FS.is_dir. rewrite (lookup_put_node_apart _ _ _ _ p H H1 H2). reflexivity.
Qed.

Lemma makedirs_node_is_dir n p n' :
  FS.makedirs_node n p = Some n' -> FS.is_dir n' p = true.
Proof.
  unfold FS.is_dir. revert n n'. induction p as [|x p IH]; intros n n' H.
  - destruct n as [|es]; simpl in H; [discriminate|]. injection H as <-. reflexivity.
  - destruct n as [|es]; simpl in H; [discriminate|].
    destruct (FS.makedirs_node _ p) as [c'|] eqn:E; [|discriminate].
    injection H as <-. simpl. rewrite assoc_set_entry_eq. apply (IH _ _ E).
Qed.

Lemma makedirs_node_idem n p : FS.is_dir n p = true -> FS.makedirs_node n p = Some n.
Proof.
  unfold FS.is_dir. revert n. induction p as [|x p IH]; intros n H.
  - destruct n as [|es]; simpl in *; [discriminate|reflexivity].
  - destruct n as [|es]; simpl in *; [discriminate|].
    destruct (FS.assoc es x) as [c|] eqn:Ec; [|discriminate].
    simpl. rewrite (IH c H), (set_entry_same _ _ _ Ec). reflexivity.
Qed.

(** Creating directories keeps every file and every directory there was. *)
Lemma makedirs_node_keeps n p n' q :
  FS.makedirs_node n p = Some n' ->
  (forall m c, FS.lookup n q = Some (FS.File m c) -> FS.lookup n' q = Some (FS.File m c))
  /\ (FS.is_dir n q = true -> FS.is_dir n' q = true).
Proof.
  unfold FS.is_dir. revert n n' q. induction p as [|x p IH]; intros n n' q H.
  - destruct n as [|es]; simpl in H; [discriminate|]. injection H as <-. auto.
  - destruct n as [|es]; simpl in H; [discriminate|].
    destruct (FS.makedirs_node _ p) as [c'|] eqn:E; [|discriminate].
    injection H as <-.
    destruct q as [|y q]; [simpl; auto; split; [discriminate|reflexivity]|].
    simpl. destruct (String.eqb_spec x y) as [->|Hne].
    + rewrite assoc_set_entry_eq.
      destruct (FS.assoc es y) as [c|] eqn:Ec; simpl in E.
      * apply (IH c c' q E).
      * split; [discriminate|discriminate].
    + rewrite (assoc_set_entry_ne _ _ _ _ Hne). auto.
Qed.

(** ** [K8sClusterManager.__init__] and [create_terraform_files] *)

Lemma makedirs_inv name w w' :
  OS.makedirs name true w = (Exc.Ok tt, w') ->
  FS.makedirs_node (w_fs w) (Path.resolve (w_cwd w) name) = Some (w_fs w')
  /\ w_cwd w' = w_cwd w /\ w_hosts w' = w_hosts w /\ w_trace w' = w_trace w
  /\ w_stdout w' = w_stdout w.
Proof.
  unfold OS.makedirs, bind, get. simpl.
  destruct (Path.is_empty name); [discriminate|].
  destruct (FS.makedirs_node _ _) as [fs'|]; [|discriminate].
  intros H. injection H as <-. auto.
Qed.

Lemma makedirs_existing name w :
  Path.is_empty name = false ->
  FS.is_dir (w_fs w) (Path.resolve (w_cwd w) name) = true ->
  OS.makedirs name true w = (Exc.Ok tt, w).
Proof.
  intros Hn Hd. unfold OS.makedirs, bind, get. simpl.
  rewrite Hn, (makedirs_node_idem _ _ Hd). destruct w; reflexivity.
Qed.

Lemma resolve_terraform_dir cwd :
  Path.resolve cwd (K8sClusterManager.working_dir +:+ "/terraform")
  = cwd ++ ["k8s_setup"; "terraform"].
Proof.
  change (Path.resolve cwd (K8sClusterManager.working_dir +:+ "/terraform"))
    with ((cwd ++ ["k8s_setup"]) ++ ["terraform"]).
  rewrite <- app_assoc. reflexivity.
Qed.

Lemma resolve_scripts_dir cwd :
  Path.resolve cwd (K8sClusterManager.working_dir +:+ "/scripts")
  = cwd ++ ["k8s_setup"; "scripts"].
Proof.
  change (Path.resolve cwd (K8sClusterManager.working_dir +:+ "/scripts"))
    with ((cwd ++ ["k8s_setup"]) ++ ["scripts"]).
  rewrite <- app_assoc. reflexivity.
Qed.

(** What [__init__] leaves: the three directories, below the working
    directory. *)
Lemma init_makes_directories w w1 :
  K8sClusterManager.__init__ w = (Exc.Ok tt, w1) ->
  w_cwd w1 = w_cwd w
  /\ FS.is_dir (w_fs w1) (w_cwd w ++ ["k8s_setup"]) = true
  /\ FS.is_dir (w_fs w1) (w_cwd w ++ ["k8s_setup"; "terraform"]) = true
  /\ FS.is_dir (w_fs w1) (w_cwd w ++ ["k8s_setup"; "scripts"]) = true.
Proof.
  unfold K8sClusterManager.__init__. intros H.
  apply bind_ok_inv in H as ([] & wa & Ha & H).
  apply bind_ok_inv in H as ([] & wb & Hb & H).
  apply makedirs_inv in Ha as (Ma & Ca & _).
  apply makedirs_inv in Hb as (Mb & Cb & _).
  apply makedirs_inv in H as (Mc & Cc & _).
  rewrite Cb, Ca in Mc. rewrite Ca in Mb.
  change (Path.resolve (w_cwd w) K8sClusterManager.working_dir)
    with (w_cwd w ++ ["k8s_setup"]) in Ma.
  rewrite resolve_terraform_dir in Mb. rewrite resolve_scripts_dir in Mc.
  pose proof (makedirs_node_is_dir _ _ _ Ma) as Da.
  pose proof (makedirs_node_is_dir _ _ _ Mb) as Db.
  pose proof (makedirs_node_is_dir _ _ _ Mc) as Dc.
  split; [congruence|]. split; [|split; [|exact Dc]].
  - apply (makedirs_node_keeps _ _ _ _ Mc). apply (makedirs_node_keeps _ _ _ _ Mb). exact Da.
  - apply (makedirs_node_keeps _ _ _ _ Mc). exact Db.
Qed.

(** [__init__] is idempotent: a second manager created in the state the
    first one left changes nothing. *)
Theorem manager_init_is_idempotent (w w1 : world) :
  K8sClusterManager.__init__ w = (Exc.Ok tt, w1) ->
  K8sClusterManager.__init__ w1 = (Exc.Ok tt, w1).
Proof.
  intros H. apply init_makes_directories in H as (Hc & Da & Db & Dc).
  unfold K8sClusterManager.__init__.
  assert (E1 : OS.makedirs K8sClusterManager.working_dir true w1 = (Exc.Ok tt, w1)).
  { apply makedirs_existing; [reflexivity|]. rewrite Hc. exact Da. }
  assert (E2 : OS.makedirs (K8sClusterManager.working_dir +:+ "/terraform") true w1
               = (Exc.Ok tt, w1)).
  { apply makedirs_existing; [reflexivity|]. rewrite Hc, resolve_terraform_dir. exact Db. }
  assert (E3 : OS.makedirs (K8sClusterManager.working_dir +:+ "/scripts") true w1
               = (Exc.Ok tt, w1)).
  { apply makedirs_existing; [reflexivity|]. rewrite Hc, resolve_scripts_dir. exact Dc. }
  rewrite (bind_ok _ _ _ _ _ E1), (bind_ok _ _ _ _ _ E2). exact E3.
Qed.

Lemma manager_init_is_idempotent_witness :
  K8sClusterManager.__init__ Sample.ready = (Exc.Ok tt, Sample.ready).
Proof.
  apply (manager_init_is_idempotent Sample.home Sample.ready). reflexivity.
Defined.

Lemma file_is_leaf perm content r : r <> [] -> FS.lookup (FS.File perm content) r = None.
Proof. destruct r; [contradiction|reflexivity]. Qed.

(** Writing a file into an existing directory, where no directory is in
    the way, goes through. *)
Lemma write_text_in_dir name content w q x :
  Path.is_empty name = false ->
  Path.resolve (w_cwd w) name = q ++ [x] ->
  FS.is_dir (w_fs w) q = true ->
  FS.is_dir (w_fs w) (q ++ [x]) = false ->
  exists w' perm,
    OS.write_text name content w = (Exc.Ok tt, w')
    /\ FS.put_node (w_fs w) (q ++ [x]) (FS.File perm content) = Some (w_fs w')
    /\ w_cwd w' = w_cwd w /\ w_hosts w' = w_hosts w /\ w_trace w' = w_trace w
    /\ w_stdout w' = w_stdout w.
Proof.
  intros Hn Hr Hq Hx. unfold OS.write_text, bind, get. simpl.
  rewrite Hn, Hr, Hx, removelast_last, Hq. simpl.
  destruct (put_node_some (w_fs w) q x
              (FS.File (default 420 (FS.perm_of (w_fs w) (q ++ [x]))) content) Hq)
    as [fs' Hp].
  rewrite Hp. eexists. eexists. split; [reflexivity|]. simpl.
  split; [exact Hp|]. auto.
Qed.

Lemma resolve_terraform_files cwd :
  Path.resolve cwd (K8sClusterManager.terraform_file "main.tf")
    = (cwd ++ ["k8s_setup"; "terraform"]) ++ ["main.tf"]
  /\ Path.resolve cwd (K8sClusterManager.terraform_file "variables.tf")
     = (cwd ++ ["k8s_setup"; "terraform"]) ++ ["variables.tf"]
  /\ Path.resolve cwd (K8sClusterManager.terraform_file "terraform.tfvars")
     = (cwd ++ ["k8s_setup"; "terraform"]) ++ ["terraform.tfvars"].
Proof.
  repeat split.
  - change (Path.resolve cwd (K8sClusterManager.terraform_file "main.tf"))
      with (((cwd ++ ["k8s_setup"]) ++ ["terraform"]) ++ ["main.tf"]).
    rewrite <- !app_assoc. reflexivity.
  - change (Path.resolve cwd (K8sClusterManager.terraform_file "variables.tf"))
      with (((cwd ++ ["k8s_setup"]) ++ ["terraform"]) ++ ["variables.tf"]).
    rewrite <- !app_assoc. reflexivity.
  - change (Path.resolve cwd (K8sClusterManager.terraform_file "terraform.tfvars"))
      with (((cwd ++ ["k8s_setup"]) ++ ["terraform"]) ++ ["terraform.tfvars"]).
    rewrite <- !app_assoc. reflexivity.
Qed.

Lemma create_terraform_files_in_dir config w :
  FS.is_dir (w_fs w) (terraform_dir w) = true ->
  FS.is_dir (w_fs w) (terraform_dir w ++ ["main.tf"]) = false ->
  FS.is_dir (w_fs w) (terraform_dir w ++ ["variables.tf"]) = false ->
  FS.is_dir (w_fs w) (terraform_dir w ++ ["terraform.tfvars"]) = false ->
  exists w',
    K8sClusterManager.create_terraform_files config w = (Exc.Ok tt, w')
    /\ FS.read (w_fs w') (terraform_dir w ++ ["main.tf"])
       = Some K8sClusterManager._generate_main_tf
    /\ FS.read (w_fs w') (terraform_dir w ++ ["variables.tf"])
       = Some K8sClusterManager._generate_variables_tf
    /\ FS.read (w_fs w') (terraform_dir w ++ ["terraform.tfvars"])
       = Some (K8sClusterManager._generate_tfvars config)
    /\ w_trace w' = w_trace w.
Proof.
  intros Hd H1 H2 H3. unfold terraform_dir in *.
  destruct (resolve_terraform_files (w_cwd w)) as (R1 & R2 & R3).
  assert (Hleaf : forall perm content r, r <> [] ->
                    FS.lookup (FS.File perm content) r = None)
    by (intros; apply file_is_leaf; assumption).
  assert (Hne : forall a b : string, a <> b ->
                  (w_cwd w ++ ["k8s_setup"; "terraform"]) ++ [a]
                  <> (w_cwd w ++ ["k8s_setup"; "terraform"]) ++ [b]).
  { intros a b Hab E. apply app_inv_head in E. congruence. }
  assert (Hdir : forall a : string,
                   w_cwd w ++ ["k8s_setup"; "terraform"]
                   <> (w_cwd w ++ ["k8s_setup"; "terraform"]) ++ [a]).
  { intros a E. apply (f_equal (@length string)) in E.
    rewrite !length_app in E. simpl in E. lia. }
  assert (N21 : "variables.tf" <> "main.tf") by discriminate.
  assert (N31 : "terraform.tfvars" <> "main.tf") by discriminate.
  assert (N12 : "main.tf" <> "variables.tf") by discriminate.
  assert (N32 : "terraform.tfvars" <> "variables.tf") by discriminate.
  assert (N13 : "main.tf" <> "terraform.tfvars") by discriminate.
  assert (N23 : "variables.tf" <> "terraform.tfvars") by discriminate.
  (* main.tf *)
  destruct (write_text_in_dir (K8sClusterManager.terraform_file "main.tf")
              K8sClusterManager._generate_main_tf w _ _ eq_refl R1 Hd H1)
    as (wa & pa & Wa & Pa & Ca & _ & Ta & _).
  pose proof (lookup_put_node_eq _ _ _ _ Pa) as La.
  assert (Hda : FS.is_dir (w_fs wa) (w_cwd w ++ ["k8s_setup"; "terraform"]) = true)
    by (rewrite (is_dir_put_node _ _ _ _ _ Pa H1 (Hdir _) (Hleaf _ _)); exact Hd).
  assert (H2a : FS.is_dir (w_fs wa)
                  ((w_cwd w ++ ["k8s_setup"; "terraform"]) ++ ["variables.tf"]) = false)
    by (rewrite (is_dir_put_node _ _ _ _ _ Pa H1 (Hne _ _ N21)
                   (Hleaf _ _)); exact H2).
  assert (H3a : FS.is_dir (w_fs wa)
                  ((w_cwd w ++ ["k8s_setup"; "terraform"]) ++ ["terraform.tfvars"]) = false)
    by (rewrite (is_dir_put_node _ _ _ _ _ Pa H1 (Hne _ _ N31)
                   (Hleaf _ _)); exact H3).
  (* variables.tf *)
  assert (R2a : Path.resolve (w_cwd wa) (K8sClusterManager.terraform_file "variables.tf")
                = (w_cwd w ++ ["k8s_setup"; "terraform"]) ++ ["variables.tf"])
    by (rewrite Ca; exact R2).
  destruct (write_text_in_dir (K8sClusterManager.terraform_file "variables.tf")
              K8sClusterManager._generate_variables_tf wa _ _ eq_refl R2a Hda H2a)
    as (wb & pb & Wb & Pb & Cb & _ & Tb & _).
  pose proof (lookup_put_node_eq _ _ _ _ Pb) as Lb.
  pose proof (lookup_put_node_file _ _ _ _ _ _ _ La Pb (Hne _ _ N21) H2a)
    as La'.
  assert (Hdb : FS.is_dir (w_fs wb) (w_cwd w ++ ["k8s_setup"; "terraform"]) = true)
    by (rewrite (is_dir_put_node _ _ _ _ _ Pb H2a (Hdir _) (Hleaf _ _)); exact Hda).
  assert (H3b : FS.is_dir (w_fs wb)
                  ((w_cwd w ++ ["k8s_setup"; "terraform"]) ++ ["terraform.tfvars"]) = false)
    by (rewrite (is_dir_put_node _ _ _ _ _ Pb H2a (Hne _ _ N32)
                   (Hleaf _ _)); exact H3a).
  (* terraform.tfvars *)
  assert (R3b : Path.resolve (w_cwd wb) (K8sClusterManager.terraform_file "terraform.tfvars")
                = (w_cwd w ++ ["k8s_setup"; "terraform"]) ++ ["terraform.tfvars"])
    by (rewrite Cb, Ca; exact R3).
  destruct (write_text_in_dir (K8sClusterManager.terraform_file "terraform.tfvars")
              (K8sClusterManager._generate_tfvars config) wb _ _ eq_refl R3b Hdb H3b)
    as (wc & pc & Wc & Pc & Cc & _ & Tc & _).
  pose proof (lookup_put_node_eq _ _ _ _ Pc) as Lc.
  pose proof (lookup_put_node_file _ _ _ _ _ _ _ La' Pc (Hne _ _ N31) H3b)
    as La''.
  pose proof (lookup_put_node_file _ _ _ _ _ _ _ Lb Pc (Hne _ _ N32) H3b)
    as Lb'.
  exists wc. unfold K8sClusterManager.create_terraform_files.
  rewrite (bind_ok _ _ _ _ _ Wa), (bind_ok _ _ _ _ _ Wb), Wc.
  unfold FS.read. rewrite La'', Lb', Lc. repeat split; congruence.
Qed.

(** After [__init__], [create_terraform_files] goes through unless a
    directory stands where one of its three files belongs, and leaves
    [main.tf], [variables.tf] and [terraform.tfvars] in
    [./k8s_setup/terraform] with the generated texts, the last one made
    from the configuration; nothing is logged. *)
Theorem create_terraform_files_after_init
    (config : Py.dict) (w0 w : world) :
  K8sClusterManager.__init__ w0 = (Exc.Ok tt, w) ->
  FS.is_dir (w_fs w) (terraform_dir w ++ ["main.tf"]) = false ->
  FS.is_dir (w_fs w) (terraform_dir w ++ ["variables.tf"]) = false ->
  FS.is_dir (w_fs w) (terraform_dir w ++ ["terraform.tfvars"]) = false ->
  exists w',
    K8sClusterManager.create_terraform_files config w = (Exc.Ok tt, w')
    /\ FS.read (w_fs w') (terraform_dir w ++ ["main.tf"])
       = Some K8sClusterManager._generate_main_tf
    /\ FS.read (w_fs w') (terraform_dir w ++ ["variables.tf"])
       = Some K8sClusterManager._generate_variables_tf
    /\ FS.read (w_fs w') (terraform_dir w ++ ["terraform.tfvars"])
       = Some (K8sClusterManager._generate_tfvars config)
    /\ w_trace w' = w_trace w.
Proof.
  intros Hi. apply init_makes_directories in Hi as (Hc & _ & Hd & _).
  apply create_terraform_files_in_dir. unfold terraform_dir. rewrite Hc. exact Hd.
Qed.

Lemma create_terraform_files_after_init_witness :
  exists w',
    K8sClusterManager.create_terraform_files Sample.config Sample.ready = (Exc.Ok tt, w')
    /\ FS.read (w_fs w') ["home"; "u"; "k8s_setup"; "terraform"; "terraform.tfvars"]
       = Some (K8sClusterManager._generate_tfvars Sample.config).
Proof.
  destruct (create_terraform_files_after_init Sample.config Sample.home Sample.ready
              eq_refl eq_refl eq_refl eq_refl) as (w' & H & _ & _ & R & _).
  exists w'. split; [exact H|exact R].
Defined.

(** ** [setup_kubernetes_cluster] without its directory *)

Lemma is_dir_child_needs_parent n p x :
  FS.is_dir n p = false -> FS.is_dir n (p ++ [x]) = false.
Proof.
  intros H. destruct (FS.is_dir n (p ++ [x])) eqn:E; [|reflexivity].
  apply is_dir_parent in E. rewrite removelast_last in E. congruence.
Qed.

Lemma setup_without_terraform_dir env config w :
  FS.is_dir (w_fs w) (terraform_dir w) = false ->
  exists e,
    K8sClusterManager.setup_kubernetes_cluster env config w
    = (Exc.Ok (setup_failure (Exc.exn_msg e)), w)
    /\ (e = Exc.enoent "./k8s_setup/terraform/main.tf"
        \/ e = Exc.enotdir "./k8s_setup/terraform/main.tf").
Proof.
  intros Hd. unfold terraform_dir in Hd.
  destruct (resolve_terraform_files (w_cwd w)) as (R1 & _).
  assert (W : exists e,
             OS.write_text (K8sClusterManager.terraform_file "main.tf")
               K8sClusterManager._generate_main_tf w = (Exc.Raise e, w)
             /\ (e = Exc.enoent "./k8s_setup/terraform/main.tf"
                 \/ e = Exc.enotdir "./k8s_setup/terraform/main.tf")).
  { unfold OS.write_text, bind, get. simpl.
    change (Path.is_empty (K8sClusterManager.terraform_file "main.tf")) with false.
    rewrite R1, (is_dir_child_needs_parent _ _ _ Hd), removelast_last, Hd. simpl.
    destruct (FS.exists_ _ _); eexists; (split; [reflexivity|]); auto. }
  destruct W as (e & W & He). exists e. split; [|exact He].
  unfold K8sClusterManager.setup_kubernetes_cluster, K8sClusterManager.create_terraform_files.
  erewrite try_except_caught.
  - reflexivity.
  - rewrite (bind_raise _ _ _ _ _ (bind_raise _ _ _ _ _ W)). reflexivity.
  - destruct He as [-> | ->]; reflexivity.
Qed.

(** Without the directory [./k8s_setup/terraform] below the working
    directory, [setup_kubernetes_cluster] fails fast: it returns the
    failure dictionary carrying the [OSError] text for [main.tf], never
    invokes the agent, and leaves the state as it was. *)
Theorem setup_fails_fast_without_terraform_dir
    (env : environment) (config : Py.dict) (w : world) :
  FS.is_dir (w_fs w) (terraform_dir w) = false ->
  exists e,
    K8sClusterManager.setup_kubernetes_cluster env config w
    = (Exc.Ok (setup_failure (Exc.exn_msg e)), w)
    /\ (e = Exc.enoent "./k8s_setup/terraform/main.tf"
        \/ e = Exc.enotdir "./k8s_setup/terraform/main.tf").
Proof. apply setup_without_terraform_dir. Qed.

Lemma setup_fails_fast_without_terraform_dir_witness :
  exists e,
    K8sClusterManager.setup_kubernetes_cluster Sample.env Sample.config Sample.home
    = (Exc.Ok (setup_failure (Exc.exn_msg e)), Sample.home)
    /\ (e = Exc.enoent "./k8s_setup/terraform/main.tf"
        \/ e = Exc.enotdir "./k8s_setup/terraform/main.tf").
Proof.
  apply (setup_fails_fast_without_terraform_dir Sample.env Sample.config Sample.home).
  reflexivity.
Defined.

Lemma keeps_fs_init env workspace_dir :
  respects (keeps w_fs) (TerraformInitTool._run env workspace_dir).
Proof.
  assert (Hcd : forall name, respects (keeps w_fs) (OS.chdir name)).
  { intros name. apply (respects_chdir (keeps w_fs)). intros cwd w0. reflexivity. }
  unfold TerraformInitTool._run, Subprocess.run_check, Subprocess.run.
  respects_auto; auto. intros w0. reflexivity.
Qed.

(** The layout the manager sets up defeats itself: once [terraform_init]
    has run in [./k8s_setup/terraform], where the manager put the
    Terraform files, the process is left inside [./k8s_setup], and a
    following [setup_kubernetes_cluster] looks for
    [./k8s_setup/terraform] below that directory, does not find it, and
    fails before it invokes the agent. *)
Theorem terraform_init_in_workspace_breaks_next_setup
    (env : environment) (config : Py.dict) (w : world) :
  enterable w "./k8s_setup/terraform" = true ->
  FS.is_dir (w_fs w) (w_cwd w ++ ["k8s_setup"; "k8s_setup"; "terraform"]) = false ->
  exists e,
    K8sClusterManager.setup_kubernetes_cluster env config
      (snd (TerraformInitTool._run env "./k8s_setup/terraform" w))
    = (Exc.Ok (setup_failure (Exc.exn_msg e)),
       snd (TerraformInitTool._run env "./k8s_setup/terraform" w))
    /\ w_cwd (snd (TerraformInitTool._run env "./k8s_setup/terraform" w))
       = w_cwd w ++ ["k8s_setup"].
Proof.
  intros He Hn.
  assert (Hc : w_cwd (snd (TerraformInitTool._run env "./k8s_setup/terraform" w))
               = w_cwd w ++ ["k8s_setup"]).
  { unfold TerraformInitTool._run.
    rewrite chdir_frame_enterable; [| | |exact He];
      [|respects_auto; auto using keeps_place_run_check|intros; respects_auto].
    change (Path.resolve (w_cwd w) "./k8s_setup/terraform")
      with ((w_cwd w ++ ["k8s_setup"]) ++ ["terraform"]).
    apply removelast_last. }
  pose proof (keeps_fs_init env "./k8s_setup/terraform" w) as Hf. unfold keeps in Hf.
  destruct (setup_without_terraform_dir env config
              (snd (TerraformInitTool._run env "./k8s_setup/terraform" w))) as (e & H & _).
  - unfold terraform_dir. rewrite Hc, Hf, <- app_assoc. exact Hn.
  - exists e. split; [exact H|exact Hc].
Qed.

Lemma terraform_init_in_workspace_breaks_next_setup_witness :
  exists e,
    K8sClusterManager.setup_kubernetes_cluster Sample.env Sample.config
      (snd (TerraformInitTool._run Sample.env "./k8s_setup/terraform" Sample.ready))
    = (Exc.Ok (setup_failure (Exc.exn_msg e)),
       snd (TerraformInitTool._run Sample.env "./k8s_setup/terraform" Sample.ready))
    /\ w_cwd (snd (TerraformInitTool._run Sample.env "./k8s_setup/terraform" Sample.ready))
       = w_cwd Sample.ready ++ ["k8s_setup"].
Proof.
  apply (terraform_init_in_workspace_breaks_next_setup Sample.env Sample.config Sample.ready);
    reflexivity.
Defined.

(** ** [sftp_is_dir] *)

Lemma file_mode_is_no_directory perm :
  (Z.land (FS.st_mode (FS.File perm "")) 0xF000 =? 0x4000) = false.
Proof.
  apply Z.eqb_neq. intros H.
  apply (f_equal (fun z => Z.testbit z 15)) in H.
  unfold FS.st_mode in H. rewrite Z.land_spec, Z.lor_spec in H.
  discriminate H.
Qed.

Lemma st_mode_test n :
  (Z.land (FS.st_mode n) 0xF000 =? 0x4000)
  = match n with FS.Dir _ => true | FS.File _ _ => false end.
Proof.
  destruct n as [perm content|es]; [|reflexivity].
  exact (file_mode_is_no_directory perm).
Qed.

Lemma sftp_is_dir_run
    (env : environment) (host path : string) (w : world) :
  sftp_is_dir env host path w
  = (Exc.Ok (match env_fault env (w_trace w) (ESftp host (SStat path)) with
             | Some _ => false
             | None => FS.is_dir (host_fs w host) (Channel.remote_path env host path)
             end),
     logged w [ESftp host (SStat path)]).
Proof.
  unfold sftp_is_dir, try_except, bind, Channel.stat, Channel.call, bind, get, log, logged.
  simpl. destruct (env_fault env (w_trace w) _); simpl; [reflexivity|].
  unfold host_fs, FS.is_dir. simpl.
  destruct (FS.lookup _ _) as [n|]; simpl; [|reflexivity].
  rewrite st_mode_test. destruct n; reflexivity.
Qed.

(** [sftp_is_dir] never raises and makes one [stat] request.  It answers
    [True] exactly when the request went through and the path is a
    directory on the host; a missing path, a regular file, a transport
    fault and even an interrupt all read as [False]. *)
Theorem sftp_is_dir_never_raises
    (env : environment) (host path : string) (w : world) :
  sftp_is_dir env host path w
  = (Exc.Ok (match env_fault env (w_trace w) (ESftp host (SStat path)) with
             | Some _ => false
             | None => FS.is_dir (host_fs w host) (Channel.remote_path env host path)
             end),
     logged w [ESftp host (SStat path)]).
Proof. exact (sftp_is_dir_run env host path w). Qed.

(** * Recursive transfers *)

(** ** Path arithmetic: [join], [relpath] and [resolve] *)

Lemma split_slash_nonempty s : Path.split_slash s <> [].
Proof.
  destruct s as [|c s]; simpl; [discriminate|].
  destruct (Ascii.eqb c "/"); [discriminate|].
  destruct (Path.split_slash s); discriminate.
Qed.

(** Splitting a concatenation: the last component of the first part and
    the first component of the second part merge. *)
Lemma split_slash_app a b :
  Path.split_slash (a +:+ b)
  = removelast (Path.split_slash a)
    ++ match Path.split_slash b with
       | h :: t => (List.last (Path.split_slash a) "" +:+ h) :: t
       | [] => []
       end.
Proof.
  induction a as [|c a IH].
  - rewrite append_empty. simpl.
    destruct (Path.split_slash b) as [|h t] eqn:E; [|rewrite append_empty; reflexivity].
    exfalso. exact (split_slash_nonempty b E).
  - rewrite append_String. simpl Path.split_slash.
    pose proof (split_slash_nonempty a) as Ha.
    destruct (Ascii.eqb c "/").
    + rewrite IH. destruct (Path.split_slash a) as [|h' t'] eqn:E; [contradiction|].
      reflexivity.
    + rewrite IH. destruct (Path.split_slash a) as [|h' t'] eqn:E; [contradiction|].
      destruct (Path.split_slash b) as [|h t] eqn:Eb; [exfalso; exact (split_slash_nonempty b Eb)|].
      destruct t' as [|h'' t']; simpl.
      * rewrite append_String. reflexivity.
      * reflexivity.
Qed.

Lemma has_no_slash_valid x : Path.valid_name x = true -> Str.has_char "/" x = false.
Proof.
  unfold Path.valid_name. intros H. apply andb_prop in H as [_ H].
  apply negb_true_iff in H. exact H.
Qed.

Lemma split_slash_concat rel :
  rel <> [] -> Forall (fun x => Path.valid_name x = true) rel ->
  Path.split_slash (String.concat "/" rel) = rel.
Proof.
  induction rel as [|x rel IH]; intros Hne Hv; [contradiction|].
  inversion Hv as [|? ? Hx Hrel]; subst.
  destruct rel as [|y rel].
  - simpl. apply split_slash_no_slash, has_no_slash_valid, Hx.
  - change (String.concat "/" (x :: y :: rel))
      with (x +:+ String "/" (String.concat "/" (y :: rel))).
    rewrite split_slash_app.
    rewrite (split_slash_no_slash x (has_no_slash_valid x Hx)).
    change (Path.split_slash (String "/" (String.concat "/" (y :: rel))))
      with ("" :: Path.split_slash (String.concat "/" (y :: rel))).
    rewrite IH by (discriminate || assumption).
    simpl. rewrite append_empty_r. reflexivity.
Qed.

Lemma step_valid acc x : Path.valid_name x = true -> Path.step acc x = acc ++ [x].
Proof.
  unfold Path.valid_name, Path.step. intros H.
  apply andb_prop in H as [H _]. apply andb_prop in H as [H H3].
  apply andb_prop in H as [H1 H2].
  apply negb_true_iff in H1, H2, H3. rewrite H1, H2, H3. reflexivity.
Qed.

Lemma fold_step_valid rel acc :
  Forall (fun x => Path.valid_name x = true) rel ->
  fold_left Path.step rel acc = acc ++ rel.
Proof.
  revert acc. induction rel as [|x rel IH]; intros acc Hv.
  - simpl. rewrite app_nil_r. reflexivity.
  - inversion Hv; subst. simpl. rewrite step_valid by assumption.
    rewrite IH by assumption. rewrite <- app_assoc. reflexivity.
Qed.

Lemma join_relative a s : Path.is_abs s = false -> Path.join a s = dir_prefix a +:+ s.
Proof.
  intros H. unfold Path.join, dir_prefix. rewrite H.
  destruct (Path.is_empty a || Str.ends_with_char "/" a); [reflexivity|].
  rewrite append_assoc. reflexivity.
Qed.

Lemma split_slash_String c s :
  Path.split_slash (String c s)
  = if Ascii.eqb c "/" then "" :: Path.split_slash s
    else match Path.split_slash s with
         | h :: t => String c h :: t
         | [] => [String c ""]
         end.
Proof. reflexivity. Qed.

Lemma split_slash_not_blank c s : Path.split_slash (String c s) <> [""].
Proof.
  rewrite split_slash_String. pose proof (split_slash_nonempty s) as Hn.
  destruct (Ascii.eqb c "/"); destruct (Path.split_slash s); try contradiction; discriminate.
Qed.

Lemma ends_with_slash_last a :
  Str.ends_with_char "/" a = true -> List.last (Path.split_slash a) "" = "".
Proof.
  induction a as [|c a IH]; intros H; [discriminate|].
  simpl in H. destruct a as [|c' a'].
  - apply Ascii.eqb_eq in H. subst c. reflexivity.
  - specialize (IH H). rewrite split_slash_String.
    pose proof (split_slash_nonempty (String c' a')) as Hn.
    pose proof (split_slash_not_blank c' a') as Hb.
    destruct (Path.split_slash (String c' a')) as [|h t]; [contradiction|].
    destruct (Ascii.eqb c "/"); [exact IH|].
    destruct t as [|h' t]; [|exact IH].
    simpl in IH. subst h. contradiction.
Qed.

(** Resolving [a] ignores whether [a] ends with a slash. *)
Lemma fold_dir_prefix a acc :
  fold_left Path.step (removelast (Path.split_slash (dir_prefix a))) acc
  = fold_left Path.step (Path.split_slash a) acc
  /\ List.last (Path.split_slash (dir_prefix a)) "" = "".
Proof.
  unfold dir_prefix. destruct (Path.is_empty a) eqn:Ee; simpl orb.
  - apply String.eqb_eq in Ee. subst a. split; reflexivity.
  - destruct (Str.ends_with_char "/" a) eqn:Es.
    + pose proof (ends_with_slash_last a Es) as Hl. split; [|exact Hl].
      rewrite (app_removelast_last "" (split_slash_nonempty a)) at 2.
      rewrite Hl, fold_left_app. reflexivity.
    + rewrite split_slash_app. change (Path.split_slash "/") with ["" ; ""].
      cbv beta iota. rewrite append_empty_r.
      pose proof (app_removelast_last "" (split_slash_nonempty a)) as HX.
      set (l := removelast (Path.split_slash a)) in *.
      set (t := List.last (Path.split_slash a) "") in *.
      rewrite HX. change (l ++ [t; ""]) with (l ++ [t] ++ [""]).
      rewrite app_assoc, removelast_last, last_last. split; reflexivity.
Qed.

Lemma is_abs_dir_prefix a s :
  Path.is_abs s = false -> Path.is_abs (dir_prefix a +:+ s) = Path.is_abs a.
Proof.
  intros H. unfold dir_prefix. destruct a as [|c a].
  - simpl. rewrite append_empty. exact H.
  - destruct (Path.is_empty (String c a) || Str.ends_with_char "/" (String c a));
      rewrite !append_String; reflexivity.
Qed.

Lemma is_abs_concat rel :
  Forall (fun x => Path.valid_name x = true) rel ->
  Path.is_abs (String.concat "/" rel) = false.
Proof.
  intros Hv. destruct rel as [|x rel]; [reflexivity|].
  inversion Hv as [|? ? Hx _]; subst.
  pose proof (has_no_slash_valid x Hx) as Hs.
  assert (Path.is_abs x = false) as Hx'.
  { destruct x as [|c x]; [reflexivity|]. simpl in Hs. apply orb_false_iff in Hs as [Hc _].
    change (Path.is_abs (String c x)) with (if Ascii.eqb "/" c then true else false).
    rewrite Ascii.eqb_sym, Hc. reflexivity. }
  destruct rel as [|y rel]; [exact Hx'|].
  change (String.concat "/" (x :: y :: rel))
    with (x +:+ String "/" (String.concat "/" (y :: rel))).
  destruct x as [|c x].
  - exfalso. unfold Path.valid_name in Hx. discriminate Hx.
  - rewrite append_String. exact Hx'.
Qed.

(** Joining a relative path of entry names onto [a] resolves to the
    location of [a] followed by those names. *)
Lemma resolve_join_names start a rel :
  rel <> [] -> Forall (fun x => Path.valid_name x = true) rel ->
  Path.resolve start (Path.join a (String.concat "/" rel)) = Path.resolve start a ++ rel.
Proof.
  intros Hne Hv. pose proof (is_abs_concat rel Hv) as Habs.
  rewrite (join_relative _ _ Habs). unfold Path.resolve.
  rewrite (is_abs_dir_prefix _ _ Habs), split_slash_app, (split_slash_concat rel Hne Hv).
  destruct (fold_dir_prefix a (if Path.is_abs a then [] else start)) as [Hf Hl].
  rewrite Hl. destruct rel as [|x rel]; [contradiction|].
  rewrite append_empty, fold_left_app, Hf.
  apply fold_step_valid, Hv.
Qed.

Lemma resolve_join_name start a x :
  Path.valid_name x = true ->
  Path.resolve start (Path.join a x) = Path.resolve start a ++ [x].
Proof.
  intros Hx. apply (resolve_join_names start a [x]); [discriminate|].
  constructor; [exact Hx|constructor].
Qed.

Lemma join_name_not_empty a x : Path.valid_name x = true -> Path.is_empty (Path.join a x) = false.
Proof.
  intros Hx. destruct x as [|c x]; [discriminate Hx|].
  unfold Path.join. destruct (Path.is_abs (String c x)); [reflexivity|].
  destruct (Path.is_empty a || Str.ends_with_char "/" a).
  - destruct a; reflexivity.
  - destruct a; reflexivity.
Qed.

Lemma common_prefix_app l r : Path.common_prefix l (l ++ r) = l.
Proof.
  induction l as [|x l IH]; [reflexivity|].
  simpl. rewrite String.eqb_refl, IH. reflexivity.
Qed.

(** [relpath] of a location strictly below [start] is the names between. *)
Lemma relpath_below cwd p start r :
  Path.is_empty p = false -> r <> [] ->
  Path.resolve cwd p = Path.resolve cwd start ++ r ->
  Path.relpath cwd p start = Exc.Ok (String.concat "/" r).
Proof.
  intros Hp Hr E. unfold Path.relpath. rewrite Hp. cbv zeta. rewrite E.
  rewrite common_prefix_app, Nat.sub_diag, drop_app_length. simpl repeat.
  simpl app. destruct r; [contradiction|reflexivity].
Qed.

(** ** Trees: entries, well-formedness and the files below a directory *)

Lemma node_induction (P : FS.node -> Prop) :
  (forall perm content, P (FS.File perm content)) ->
  (forall es, Forall (fun xc => P (snd xc)) es -> P (FS.Dir es)) ->
  forall n, P n.
Proof.
  intros Hf Hd. fix IH 1. intros [perm content|es]; [apply Hf|].
  apply Hd. induction es as [|[x c] es IHes]; constructor; [apply IH|exact IHes].
Qed.

Lemma walk_Dir top es :
  walk top (FS.Dir es)
  = (top, map fst (List.filter (fun xc => is_Dir (snd xc)) es),
          map fst (List.filter (fun xc => is_File (snd xc)) es))
    :: flat_map (fun xc => walk (Path.join top (fst xc)) (snd xc)) es.
Proof.
  simpl. f_equal. induction es as [|[x c] es IH]; [reflexivity|].
  simpl. rewrite IH. reflexivity.
Qed.

Lemma files_under_Dir es :
  FS.files_under (FS.Dir es)
  = flat_map (fun xc => match snd xc with
                        | FS.File _ c => [([fst xc], c)]
                        | FS.Dir _ => []
                        end) es
    ++ flat_map (fun xc => map (fun pc => (fst xc :: fst pc, snd pc))
                               (FS.files_under (snd xc))) es.
Proof.
  simpl. f_equal.
  - induction es as [|[x [m c|es']] es IH]; [reflexivity| |]; simpl; rewrite IH; reflexivity.
  - induction es as [|[x c] es IH]; [reflexivity|]. simpl. rewrite IH. reflexivity.
Qed.

Lemma in_files_under_Dir es rel c :
  In (rel, c) (FS.files_under (FS.Dir es)) <->
  (exists x m, rel = [x] /\ In (x, FS.File m c) es)
  \/ (exists x n rel', rel = x :: rel' /\ In (x, n) es /\ In (rel', c) (FS.files_under n)).
Proof.
  rewrite files_under_Dir, in_app_iff, !in_flat_map. split.
  - intros [[[x n] [Hin H]]|[[x n] [Hin H]]]; simpl in H.
    + left. destruct n as [m c'|]; [|contradiction].
      destruct H as [H|[]]. inversion H; subst. eauto.
    + right. apply in_map_iff in H as [[rel' c'] [H Hin']]. simpl in H.
      inversion H; subst. eauto 10.
  - intros [[x [m [-> Hin]]]|[x [n [rel' [-> [Hin Hin']]]]]].
    + left. exists (x, FS.File m c). split; [exact Hin|]. simpl. auto.
    + right. exists (x, n). split; [exact Hin|]. simpl.
      apply in_map_iff. exists (rel', c). auto.
Qed.

Lemma files_under_not_here n c : ~ In ([], c) (FS.files_under n).
Proof.
  destruct n as [m c'|es]; [simpl; auto|].
  rewrite in_files_under_Dir. intros [[x [m [H _]]]|[x [n [rel' [H _]]]]]; discriminate.
Qed.

Lemma wf_Dir es :
  FS.wf (FS.Dir es) = true ->
  List.NoDup (map fst es)
  /\ Forall (fun xc => Path.valid_name (fst xc) = true /\ FS.wf (snd xc) = true) es.
Proof.
  simpl. induction es as [|[x c] es IH]; intros H.
  - split; constructor.
  - apply andb_prop in H as [H Hgo]. apply andb_prop in H as [H Hc].
    apply andb_prop in H as [Hx Hnew]. destruct (IH Hgo) as [Hnd Hall].
    split.
    + simpl. constructor; [|exact Hnd]. intros Hin.
      apply negb_true_iff in Hnew.
      assert (existsb (String.eqb x) (map fst es) = true) as E.
      { apply existsb_exists. exists x. split; [exact Hin|apply String.eqb_refl]. }
      congruence.
    + constructor; [split; assumption|exact Hall].
Qed.

Lemma assoc_in es x n : List.NoDup (map fst es) -> In (x, n) es -> FS.assoc es x = Some n.
Proof.
  induction es as [|[y c] es IH]; intros Hnd Hin; [contradiction|].
  simpl in Hnd. inversion Hnd as [|? ? Hy Hnd']; subst. simpl.
  destruct Hin as [H|Hin].
  - inversion H; subst. rewrite String.eqb_refl. reflexivity.
  - destruct (String.eqb y x) eqn:E.
    + apply String.eqb_eq in E. subst y. exfalso. apply Hy.
      apply in_map_iff. exists (x, n). auto.
    + apply IH; assumption.
Qed.

Lemma lookup_child fs p es x n :
  FS.lookup fs p = Some (FS.Dir es) -> List.NoDup (map fst es) -> In (x, n) es ->
  FS.lookup fs (p ++ [x]) = Some n.
Proof.
  intros Hp Hnd Hin. rewrite lookup_app, Hp. simpl.
  rewrite (assoc_in _ _ _ Hnd Hin). reflexivity.
Qed.

(** ** Successful steps of the channel, taken apart *)

Lemma for_each_app_inv {A} (l1 l2 : list A) (body : A -> M unit) w w' :
  for_each (l1 ++ l2) body w = (Exc.Ok tt, w') ->
  exists w1, for_each l1 body w = (Exc.Ok tt, w1) /\ for_each l2 body w1 = (Exc.Ok tt, w').
Proof.
  revert w. induction l1 as [|x l1 IH]; intros w H; simpl in *.
  - exists w. auto.
  - apply bind_ok_inv in H as [[] [w1 [Hx H]]].
    destruct (IH _ H) as [w2 [H1 H2]]. exists w2. split; [|exact H2].
    rewrite (bind_ok _ _ _ _ _ Hx). exact H1.
Qed.

Lemma remote_kept_refl host W w : remote_kept host W w w.
Proof. split; auto. Qed.

Lemma remote_kept_trans host (W1 W2 W : FS.path -> Prop) w w1 w2 :
  remote_kept host W1 w w1 -> remote_kept host W2 w1 w2 ->
  (forall q, W1 q -> W q) -> (forall q, W2 q -> W q) ->
  remote_kept host W w w2.
Proof.
  intros [P1 K1] [P2 K2] I1 I2. split; [congruence|].
  intros q c Hq Hr. apply K2; [auto|]. apply K1; auto.
Qed.

Lemma call_ok env ev w w' :
  Channel.call env ev w = (Exc.Ok tt, w') -> w' = logged w [ev].
Proof.
  unfold Channel.call, bind, get, log. simpl.
  destruct (env_fault env (w_trace w) ev); intros H; inversion H. reflexivity.
Qed.

Lemma call_raise env ev w e w' :
  Channel.call env ev w = (Exc.Raise e, w') -> w' = logged w [ev].
Proof.
  unfold Channel.call, bind, get, log. simpl.
  destruct (env_fault env (w_trace w) ev); intros H; inversion H. reflexivity.
Qed.

Lemma stat_end env host p w r w' :
  Channel.stat env host p w = (r, w') -> w' = logged w [ESftp host (SStat p)].
Proof.
  unfold Channel.stat. unfold bind at 1.
  destruct (Channel.call env _ w) as [[[]|e] w1] eqn:E.
  - apply call_ok in E. subst w1. unfold bind, get. simpl.
    destruct (FS.lookup _ _); intros H; inversion H; reflexivity.
  - apply call_raise in E. intros H. inversion H. subst. reflexivity.
Qed.

Lemma mkdir_ok env host p w w' :
  Channel.mkdir env host p w = (Exc.Ok tt, w') ->
  exists fs',
    FS.put_node (host_fs w host) (Channel.remote_path env host p) FS.empty = Some fs'
    /\ FS.exists_ (host_fs w host) (Channel.remote_path env host p) = false
    /\ w' = World (w_fs w) (w_cwd w) (<[host := fs']> (w_hosts w))
                  (w_trace w ++ [ESftp host (SMkdir p)]) (w_stdout w).
Proof.
  unfold Channel.mkdir. intros H.
  apply bind_ok_inv in H as [[] [w1 [Hc H]]]. apply call_ok in Hc. subst w1.
  unfold bind, get in H. simpl in H.
  change (host_fs (logged w [ESftp host (SMkdir p)]) host) with (host_fs w host) in H.
  destruct (FS.exists_ _ _) eqn:Ex; [discriminate|].
  destruct (negb _); [discriminate|].
  destruct (FS.put_node _ _ _) as [fs'|] eqn:Ep; [|discriminate].
  exists fs'. repeat split. unfold set_host_fs in H. inversion H. reflexivity.
Qed.

Lemma host_fs_insert fs cwd hosts trace out host fs' :
  host_fs (World fs cwd (<[host := fs']> hosts) trace out) host = fs'.
Proof. unfold host_fs. simpl. rewrite lookup_insert_eq. reflexivity. Qed.

Lemma host_fs_logged w evs host : host_fs (logged w evs) host = host_fs w host.
Proof. reflexivity. Qed.

Lemma remote_kept_logged host W w evs : remote_kept host W w (logged w evs).
Proof. split; [reflexivity|]. intros q c _ H. exact H. Qed.

Lemma stat_or_mkdir_ok env host p w w' :
  stat_or_mkdir env host p w = (Exc.Ok tt, w') ->
  remote_kept host (fun _ => False) w w'.
Proof.
  unfold stat_or_mkdir. intros H.
  apply try_except_inv in H as [[H _]|[e [w1 [H [_ Hm]]]]].
  - apply bind_ok_inv in H as [m [w1 [Hs H]]]. apply ret_inv in H as [_ <-].
    apply stat_end in Hs. subst w1. apply remote_kept_logged.
  - assert (w1 = logged w [ESftp host (SStat p)]) as ->.
    { unfold bind in H. destruct (Channel.stat env host p w) as [[m|e'] w2] eqn:Es.
      - discriminate H.
      - inversion H; subst. exact (stat_end _ _ _ _ _ _ Es). }
    apply mkdir_ok in Hm as [fs' [Hp [Hx ->]]].
    rewrite host_fs_logged in Hp, Hx.
    split; [reflexivity|]. intros q c _ Hr.
    simpl. rewrite host_fs_insert.
    unfold FS.read in *. destruct (FS.lookup (host_fs w host) q) as [[m c'|]|] eqn:El;
      try discriminate.
    injection Hr as ->.
    rewrite (lookup_put_node_file _ _ _ _ _ _ _ El Hp); [reflexivity| |].
    + intros E. unfold FS.exists_ in Hx. rewrite E, El in Hx. discriminate.
    + unfold FS.exists_ in Hx. unfold FS.is_dir.
      destruct (FS.lookup _ (Channel.remote_path env host p)); [discriminate|reflexivity].
Qed.

Lemma read_bytes_ok name w c w' :
  OS.read_bytes name w = (Exc.Ok c, w') ->
  w' = w /\ FS.read (w_fs w) (Path.resolve (w_cwd w) name) = Some c.
Proof.
  unfold OS.read_bytes, bind, get. simpl.
  destruct (Path.is_empty name); [discriminate|].
  unfold FS.read. destruct (FS.lookup _ _) as [[m c'|]|]; try discriminate.
  intros H. inversion H. auto.
Qed.

Lemma sftp_put_ok env host l r w w' :
  Channel.sftp_put env host l r w = (Exc.Ok tt, w') ->
  exists c,
    FS.read (w_fs w) (Path.resolve (w_cwd w) l) = Some c
    /\ FS.read (host_fs w' host) (Channel.remote_path env host r) = Some c
    /\ remote_kept host (fun q => q = Channel.remote_path env host r) w w'.
Proof.
  unfold Channel.sftp_put. intros H.
  apply bind_ok_inv in H as [c [w0 [Hr H]]]. apply read_bytes_ok in Hr as [-> Hr].
  apply bind_ok_inv in H as [[] [w1 [Hc H]]]. apply call_ok in Hc. subst w1.
  unfold bind, get in H. simpl in H.
  change (host_fs (logged w [ESftp host (SPut l r)]) host) with (host_fs w host) in H.
  destruct (FS.is_dir _ _) eqn:Ed; [discriminate|].
  destruct (negb _); [discriminate|].
  destruct (FS.put_node _ _ _) as [fs'|] eqn:Ep; [|discriminate].
  unfold set_host_fs in H. inversion H; subst; clear H. simpl.
  exists c. split; [exact Hr|]. rewrite host_fs_insert. split.
  - unfold FS.read. rewrite (lookup_put_node_eq _ _ _ _ Ep). reflexivity.
  - split; [reflexivity|]. intros q c' Hq Hq'. simpl. rewrite host_fs_insert.
    unfold FS.read in *. destruct (FS.lookup (host_fs w host) q) as [[m c''|]|] eqn:El;
      try discriminate.
    injection Hq' as ->.
    rewrite (lookup_put_node_file _ _ _ _ _ _ _ El Ep); [reflexivity| |exact Ed].
    intros E. apply Hq. symmetry. exact E.
Qed.

Lemma names_filter (f : FS.node -> bool) (es : list (string * FS.node)) :
  List.NoDup (map fst es) ->
  List.NoDup (map fst (List.filter (fun xc => f (snd xc)) es)).
Proof.
  induction es as [|[x n] es IH]; intros H; [constructor|].
  simpl in H. inversion H as [|? ? Hx Hnd]; subst. simpl.
  destruct (f n); [|exact (IH Hnd)].
  simpl. constructor; [|exact (IH Hnd)].
  intros Hin. apply Hx. apply in_map_iff in Hin as [[y m] [E Hin]].
  apply filter_In in Hin as [Hin _]. apply in_map_iff. exists (y, m). auto.
Qed.

Lemma path_shift (rb d : FS.path) x rel : rb ++ (d ++ [x]) ++ rel = rb ++ d ++ x :: rel.
Proof. rewrite <- (app_assoc d). reflexivity. Qed.

Section Upload.
Context (env : environment) (host local_path remote_path : string).
Context (cwd : FS.path) (fs : FS.node).

Local Abbreviation lb := (Path.resolve cwd local_path).
Local Abbreviation rb := (Channel.remote_path env host remote_path).
Local Abbreviation valid := (fun x => Path.valid_name x = true).

Lemma relpath_entry root d x :
  Path.resolve cwd root = lb ++ d -> Path.valid_name x = true ->
  Path.relpath cwd (Path.join root x) local_path = Exc.Ok (String.concat "/" (d ++ [x])).
Proof.
  intros Hroot Hx. apply relpath_below.
  - apply join_name_not_empty, Hx.
  - destruct d; discriminate.
  - rewrite (resolve_join_name _ _ _ Hx), Hroot, <- app_assoc. reflexivity.
Qed.

Lemma remote_entry d x :
  Forall valid d -> Path.valid_name x = true ->
  Channel.remote_path env host (Path.join remote_path (String.concat "/" (d ++ [x])))
  = rb ++ d ++ [x].
Proof.
  intros Hd Hx. unfold Channel.remote_path. apply resolve_join_names.
  - destruct d; discriminate.
  - apply Forall_app. split; [exact Hd|]. constructor; [exact Hx|constructor].
Qed.

Lemma upload_level_ok root d es w w' :
  place w = (cwd, fs) -> Path.resolve cwd root = lb ++ d -> Forall valid d ->
  FS.lookup fs (lb ++ d) = Some (FS.Dir es) ->
  List.NoDup (map fst es) ->
  Forall (fun xc => Path.valid_name (fst xc) = true /\ FS.wf (snd xc) = true) es ->
  SCPTransferTool.upload_level env host local_path remote_path
    (root, map fst (List.filter (fun xc => is_Dir (snd xc)) es),
           map fst (List.filter (fun xc => is_File (snd xc)) es)) w
  = (Exc.Ok tt, w') ->
  remote_kept host (landing rb d (FS.Dir es)) w w'
  /\ forall x m c, In (x, FS.File m c) es ->
       FS.read (host_fs w' host) (rb ++ d ++ [x]) = Some c.
Proof.
  intros Hplace Hroot Hd Hes Hnd Hall H.
  assert (forall x n, In (x, n) es -> Path.valid_name x = true) as Hvalid.
  { intros x n Hin. rewrite List.Forall_forall in Hall. exact (proj1 (Hall _ Hin)). }
  unfold SCPTransferTool.upload_level in H.
  apply bind_ok_inv in H as [[] [w1 [Hdirs Hfiles]]].
  assert (remote_kept host (fun _ => False) w w1) as K1.
  { clear Hfiles.
    assert (forall x, In x (map fst (List.filter (fun xc => is_Dir (snd xc)) es)) ->
                      Path.valid_name x = true) as Hv.
    { intros x Hin. apply in_map_iff in Hin as [[y n] [<- Hin]].
      apply filter_In in Hin as [Hin _]. exact (Hvalid _ _ Hin). }
    revert w Hplace Hdirs Hv.
    induction (map fst (List.filter (fun xc => is_Dir (snd xc)) es)) as [|x dirs IH];
      intros w Hplace Hdirs Hv.
    - apply ret_inv in Hdirs as [_ <-]. apply remote_kept_refl.
    - simpl in Hdirs. apply bind_ok_inv in Hdirs as [[] [w2 [Hx Hrest]]].
      unfold bind at 1, get in Hx.
      assert (w_cwd w = cwd) as Hcwd by (injection Hplace; auto).
      rewrite Hcwd in Hx.
      rewrite (relpath_entry root d x Hroot (Hv x (or_introl eq_refl))) in Hx.
      unfold bind, lift in Hx. apply stat_or_mkdir_ok in Hx.
      assert (place w2 = (cwd, fs)) as Hplace2 by (rewrite (proj1 Hx); exact Hplace).
      apply (remote_kept_trans host (fun _ => False) (fun _ => False) _ w w2 w1 Hx);
        [|auto|auto].
      apply (IH w2 Hplace2 Hrest). intros y Hy. apply Hv. right. exact Hy. }
  assert (place w1 = (cwd, fs)) as Hplace1 by (rewrite (proj1 K1); exact Hplace).
  assert (remote_kept host
            (fun q => exists x, In x (map fst (List.filter (fun xc => is_File (snd xc)) es))
                                /\ q = rb ++ d ++ [x]) w1 w'
          /\ forall x, In x (map fst (List.filter (fun xc => is_File (snd xc)) es)) ->
               forall m c, In (x, FS.File m c) es ->
               FS.read (host_fs w' host) (rb ++ d ++ [x]) = Some c) as [K2 F2].
  { clear Hdirs K1 Hplace.
    assert (forall x, In x (map fst (List.filter (fun xc => is_File (snd xc)) es)) ->
                      exists n, In (x, n) es) as Hv.
    { intros x Hin. apply in_map_iff in Hin as [[y n] [<- Hin]].
      apply filter_In in Hin as [Hin _]. eauto. }
    pose proof (names_filter is_File es Hnd) as Hnd'.
    revert w1 Hplace1 Hfiles Hv Hnd'.
    induction (map fst (List.filter (fun xc => is_File (snd xc)) es)) as [|x files IH];
      intros w1 Hplace1 Hfiles Hv Hnd'.
    - apply ret_inv in Hfiles as [_ <-]. split; [apply remote_kept_refl|].
      intros x [].
    - simpl in Hfiles. apply bind_ok_inv in Hfiles as [[] [w2 [Hx Hrest]]].
      unfold bind at 1, get in Hx.
      assert (w_cwd w1 = cwd) as Hcwd by (injection Hplace1; auto).
      assert (w_fs w1 = fs) as Hfs by (injection Hplace1; auto).
      destruct (Hv x (or_introl eq_refl)) as [n Hn].
      pose proof (Hvalid _ _ Hn) as Hvx.
      rewrite Hcwd in Hx. rewrite (relpath_entry root d x Hroot Hvx) in Hx.
      unfold bind at 1, lift in Hx.
      apply sftp_put_ok in Hx as [c0 [Hlocal [Hremote Kx]]].
      rewrite (remote_entry d x Hd Hvx) in Hremote, Kx.
      rewrite Hcwd, Hfs, (resolve_join_name _ _ _ Hvx), Hroot in Hlocal.
      unfold FS.read in Hlocal. rewrite (lookup_child _ _ _ _ _ Hes Hnd Hn) in Hlocal.
      assert (place w2 = (cwd, fs)) as Hplace2 by (rewrite (proj1 Kx); exact Hplace1).
      apply List.NoDup_cons_iff in Hnd' as [Hnew Hnd''].
      destruct (IH w2 Hplace2 Hrest (fun y Hy => Hv y (or_intror Hy)) Hnd'') as [Kr Fr].
      split.
      + apply (remote_kept_trans host _ _ _ w1 w2 w' Kx Kr).
        * intros q ->. exists x. split; [left; reflexivity|reflexivity].
        * intros q [y [Hy ->]]. exists y. split; [right; exact Hy|reflexivity].
      + intros y [<-|Hy] m c Hin.
        * apply (proj2 Kr).
          -- intros [y [Hy E]]. apply app_inv_head in E. apply app_inv_head in E.
             injection E as <-. contradiction.
          -- rewrite Hremote.
             pose proof (assoc_in _ _ _ Hnd Hn) as A1.
             pose proof (assoc_in _ _ _ Hnd Hin) as A2.
             rewrite A1 in A2. injection A2 as ->. symmetry. exact Hlocal.
        * exact (Fr y Hy m c Hin). }
  split.
  - apply (remote_kept_trans host _ _ _ w w1 w' K1 K2); [intros q []|].
    intros q [x [Hx ->]]. apply in_map_iff in Hx as [[y n] [<- Hin]].
    apply filter_In in Hin as [Hin Hf]. simpl in Hf. destruct n as [m c|]; [|discriminate].
    exists [y], c. split; [|reflexivity].
    apply in_files_under_Dir. left. eauto.
  - intros x m c Hin. apply (F2 x) with (m := m); [|exact Hin].
    apply in_map_iff. exists (x, FS.File m c). split; [reflexivity|].
    apply filter_In. auto.
Qed.

Lemma upload_walk_ok n :
  forall top d w w',
    place w = (cwd, fs) -> Path.resolve cwd top = lb ++ d -> Forall valid d ->
    FS.lookup fs (lb ++ d) = Some n -> FS.wf n = true ->
    for_each (walk top n) (SCPTransferTool.upload_level env host local_path remote_path) w
    = (Exc.Ok tt, w') ->
    remote_kept host (landing rb d n) w w'
    /\ forall rel c, In (rel, c) (FS.files_under n) ->
         FS.read (host_fs w' host) (rb ++ d ++ rel) = Some c.
Proof.
  induction n as [perm content|es IH] using node_induction;
    intros top d w w' Hplace Htop Hd Hn Hwf H.
  - apply ret_inv in H as [_ <-]. split; [apply remote_kept_refl|]. intros rel c [].
  - rewrite walk_Dir in H. simpl for_each in H.
    apply bind_ok_inv in H as [[] [wa [Hlevel Hbelow]]].
    destruct (wf_Dir es Hwf) as [Hnd Hall].
    destruct (upload_level_ok top d es w wa Hplace Htop Hd Hn Hnd Hall Hlevel) as [K1 F1].
    assert (place wa = (cwd, fs)) as Hplace_a by (rewrite (proj1 K1); exact Hplace).
    assert (forall l wa w',
              (forall xc, In xc l -> In xc es) -> List.NoDup (map fst l) ->
              place wa = (cwd, fs) ->
              for_each (flat_map (fun xc => walk (Path.join top (fst xc)) (snd xc)) l)
                (SCPTransferTool.upload_level env host local_path remote_path) wa
              = (Exc.Ok tt, w') ->
              remote_kept host
                (fun q => exists x n rel c,
                   In (x, n) l /\ In (rel, c) (FS.files_under n) /\ q = rb ++ d ++ x :: rel)
                wa w'
              /\ forall x n rel c, In (x, n) l -> In (rel, c) (FS.files_under n) ->
                   FS.read (host_fs w' host) (rb ++ d ++ x :: rel) = Some c) as Hchildren.
    { clear w wa w' Hplace Hlevel Hbelow K1 F1 Hplace_a.
      induction l as [|[x n] l IHl]; intros wa w' Hsub Hndl Hplace H.
      - apply ret_inv in H as [_ <-]. split; [apply remote_kept_refl|].
        intros x n rel c [].
      - simpl flat_map in H. apply for_each_app_inv in H as [wm [Hx Hrest]].
        simpl in Hndl. apply List.NoDup_cons_iff in Hndl as [Hnew Hndl].
        assert (In (x, n) es) as Hin by (apply Hsub; left; reflexivity).
        rewrite List.Forall_forall in IH, Hall.
        destruct (Hall _ Hin) as [Hvx Hwfn]. simpl in Hvx, Hwfn.
        assert (Path.resolve cwd (Path.join top x) = lb ++ d ++ [x]) as Htop'.
        { rewrite (resolve_join_name _ _ _ Hvx), Htop, <- app_assoc. reflexivity. }
        assert (Forall valid (d ++ [x])) as Hd'.
        { apply Forall_app. split; [exact Hd|]. constructor; [exact Hvx|constructor]. }
        assert (FS.lookup fs (lb ++ d ++ [x]) = Some n) as Hn'.
        { rewrite app_assoc. exact (lookup_child _ _ _ _ _ Hn Hnd Hin). }
        destruct (IH _ Hin (Path.join top x) (d ++ [x]) wa wm Hplace Htop' Hd' Hn' Hwfn Hx)
          as [Kx Fx].
        assert (place wm = (cwd, fs)) as Hplace_m by (rewrite (proj1 Kx); exact Hplace).
        destruct (IHl wm w' (fun xc Hxc => Hsub xc (or_intror Hxc)) Hndl Hplace_m Hrest)
          as [Kr Fr].
        split.
        + apply (remote_kept_trans host _ _ _ wa wm w' Kx Kr).
          * intros q [rel [c [Hrel ->]]]. exists x, n, rel, c.
            split; [left; reflexivity|]. split; [exact Hrel|apply path_shift].
          * intros q [y [m [rel [c [Hy [Hrel ->]]]]]]. exists y, m, rel, c.
            split; [right; exact Hy|]. split; [exact Hrel|reflexivity].
        + intros y m rel c [E|Hy] Hrel.
          * injection E as <- <-. apply (proj2 Kr).
            -- intros [y [m [rel' [c' [Hy [_ E]]]]]].
               apply app_inv_head in E. apply app_inv_head in E. injection E as <- _.
               apply Hnew. apply in_map_iff. exists (x, m). auto.
            -- rewrite <- path_shift. exact (Fx rel c Hrel).
          * exact (Fr y m rel c Hy Hrel). }
    destruct (Hchildren es wa w' (fun xc H => H) Hnd Hplace_a Hbelow) as [K2 F2].
    split.
    + apply (remote_kept_trans host _ _ _ w wa w' K1 K2); [auto|].
      intros q [x [n [rel [c [Hin [Hrel ->]]]]]]. exists (x :: rel), c.
      split; [|reflexivity]. apply in_files_under_Dir. right. eauto 10.
    + intros rel c Hrel. apply in_files_under_Dir in Hrel
        as [[x [m [-> Hin]]]|[x [n [rel' [-> [Hin Hrel]]]]]].
      * apply (proj2 K2).
        -- intros [y [n [rel [c' [_ [Hrel E]]]]]].
           apply app_inv_head in E. apply app_inv_head in E. injection E as _ <-.
           exact (files_under_not_here _ _ Hrel).
        -- exact (F1 x m c Hin).
      * exact (F2 x n rel' c Hin Hrel).
Qed.

End Upload.

Lemma message_kinds a b c d : "Directory " +:+ a <> "SCP error: " +:+ b
  /\ "Directory " +:+ c <> "File " +:+ d.
Proof. split; discriminate. Qed.

Lemma os_walk_ok top w triples w' :
  os_walk top w = (Exc.Ok triples, w') ->
  w' = w
  /\ triples = match FS.lookup (w_fs w) (Path.resolve (w_cwd w) top) with
               | Some n => if Path.is_empty top then [] else walk top n
               | None => []
               end.
Proof. unfold os_walk, bind, get, ret. intros H. inversion H. auto. Qed.

Lemma path_isdir_ok name w b w' :
  OS.path_isdir name w = (Exc.Ok b, w') ->
  w' = w /\ b = negb (Path.is_empty name) && FS.is_dir (w_fs w) (Path.resolve (w_cwd w) name).
Proof. unfold OS.path_isdir, bind, get, ret. intros H. inversion H. auto. Qed.

Lemma recursive_upload_run
    (env : environment) (host username key_path : string) (port : Z)
    (local_path remote_path : string) (timeout : Z) (w w' : world) (tree : FS.node) :
  FS.lookup (w_fs w) (Path.resolve (w_cwd w) local_path) = Some tree ->
  FS.wf tree = true ->
  SCPTransferTool._run env host username key_path port local_path remote_path
    true true timeout w
  = (Exc.Ok ("Directory " +:+ local_path +:+ " uploaded to " +:+ remote_path
             +:+ " on " +:+ host), w') ->
  place w' = place w
  /\ (forall rel c, In (rel, c) (FS.files_under tree) ->
        FS.read (host_fs w' host) (Channel.remote_path env host remote_path ++ rel) = Some c)
  /\ (forall q c,
        ~ landing (Channel.remote_path env host remote_path) [] tree q ->
        FS.read (host_fs w host) q = Some c -> FS.read (host_fs w' host) q = Some c).
Proof.
  intros Htree Hwf H. unfold SCPTransferTool._run in H.
  apply try_except_inv in H as [[H _]|[e [w1 [_ [_ H]]]]].
  2:{ apply ret_inv in H as [H _]. discriminate H. }
  apply bind_ok_inv in H as [[] [w1 [Hc H]]]. apply call_ok in Hc. subst w1.
  apply bind_ok_inv in H as [[] [w2 [Hs H]]]. apply call_ok in Hs. subst w2.
  apply bind_ok_inv in H as [result [w3 [H Hret]]]. apply ret_inv in Hret as [-> ->].
  apply bind_ok_inv in H as [isd [w2 [Hisd H]]].
  apply path_isdir_ok in Hisd as [-> Hisd].
  destruct isd.
  2:{ apply bind_ok_inv in H as [[] [w3 [_ H]]]. apply ret_inv in H as [H _].
      discriminate H. }
  apply bind_ok_inv in H as [[] [w3 [Hdest H]]]. apply stat_or_mkdir_ok in Hdest.
  apply bind_ok_inv in H as [triples [w4 [Hwalk H]]].
  apply os_walk_ok in Hwalk as [-> ->].
  apply bind_ok_inv in H as [[] [w5 [Hloop H]]]. apply ret_inv in H as [_ ->].
  set (w0 := logged (logged w _) _) in *.
  assert (place w3 = place w) as Hplace3 by (rewrite (proj1 Hdest); reflexivity).
  assert (w_cwd w3 = w_cwd w /\ w_fs w3 = w_fs w) as [Hcwd Hfs]
    by (injection Hplace3; auto).
  symmetry in Hisd. apply andb_prop in Hisd as [Hne _]. apply negb_true_iff in Hne.
  rewrite Hcwd, Hfs, Htree, Hne in Hloop.
  assert (place w3 = (w_cwd w, w_fs w)) as Hplace3' by exact Hplace3.
  assert (Path.resolve (w_cwd w) local_path = Path.resolve (w_cwd w) local_path ++ [])
    as Htop by (rewrite app_nil_r; reflexivity).
  assert (FS.lookup (w_fs w) (Path.resolve (w_cwd w) local_path ++ []) = Some tree)
    as Htree' by (rewrite app_nil_r; exact Htree).
  destruct (upload_walk_ok env host local_path remote_path (w_cwd w) (w_fs w) tree
              local_path [] w3 w' Hplace3' Htop (List.Forall_nil _) Htree' Hwf Hloop)
    as [K F].
  split; [rewrite (proj1 K); exact Hplace3|]. split.
  - intros rel c Hrel. exact (F rel c Hrel).
  - intros q c Hq Hr. apply (proj2 K); [exact Hq|].
    apply (proj2 Hdest); [auto|]. exact Hr.
Qed.

Lemma apart_siblings (b : FS.path) x y : x <> y -> apart (b ++ [x]) (b ++ [y]).
Proof.
  intros Hne. split; intros r E; rewrite <- app_assoc in E; apply app_inv_head in E;
    injection E as E _; congruence.
Qed.

Lemma apart_below (p b r0 : FS.path) : apart p b -> apart p (b ++ r0).
Proof.
  intros [H1 H2]. split; intros r E.
  - apply (H1 (r0 ++ r)). rewrite app_assoc. exact E.
  - apply app_eq_app in E as [k [[E1 E2]|[E1 E2]]].
    + apply (H2 k). exact E1.
    + apply (H1 k). exact E1.
Qed.

Lemma apart_sym p q : apart p q -> apart q p.
Proof. intros [H1 H2]. split; assumption. Qed.

Lemma leaf_empty_dir r : r <> [] -> FS.lookup FS.empty r = None.
Proof. destruct r; [contradiction|reflexivity]. Qed.

Section Forward.
Context (env : environment) (host : string).
Context (Hfree : no_faults env).

Lemma call_free ev w : Channel.call env ev w = (Exc.Ok tt, logged w [ev]).
Proof. unfold Channel.call, bind, get, log. simpl. rewrite Hfree. reflexivity. Qed.

(** On a link without faults, [stat] then [mkdir] creates a directory
    that is not there when its parent is. *)
Lemma stat_or_mkdir_fresh p w :
  FS.lookup (host_fs w host) (Channel.remote_path env host p) = None ->
  FS.is_dir (host_fs w host) (removelast (Channel.remote_path env host p)) = true ->
  exists w',
    stat_or_mkdir env host p w = (Exc.Ok tt, w')
    /\ place w' = place w
    /\ FS.lookup (host_fs w' host) (Channel.remote_path env host p) = Some FS.empty
    /\ (forall p', apart p' (Channel.remote_path env host p) ->
          FS.lookup (host_fs w' host) p' = FS.lookup (host_fs w host) p')
    /\ (forall p', p' <> Channel.remote_path env host p ->
          FS.is_dir (host_fs w' host) p' = FS.is_dir (host_fs w host) p').
Proof.
  set (q := Channel.remote_path env host p). intros Hnone Hparent.
  assert (q <> []) as Hq by (intros E; rewrite E in Hnone; discriminate).
  destruct (put_node_some (host_fs w host) (removelast q) (List.last q "") FS.empty Hparent)
    as [fs' Hput].
  rewrite <- (app_removelast_last "" Hq) in Hput.
  assert (FS.is_dir (host_fs w host) q = false) as Hnd
    by (unfold FS.is_dir; rewrite Hnone; reflexivity).
  assert (Channel.stat env host p w
          = (Exc.Raise Channel.no_such_file, logged w [ESftp host (SStat p)])) as Hstat.
  { unfold Channel.stat. rewrite (bind_ok _ _ _ _ _ (call_free _ w)).
    unfold bind, get. simpl. fold q.
    change (host_fs (logged w [ESftp host (SStat p)]) host) with (host_fs w host).
    rewrite Hnone. reflexivity. }
  eexists. split; [|split; [|split; [|split]]].
  - unfold stat_or_mkdir.
    rewrite (try_except_caught _ _ _ w Channel.no_such_file
               (logged w [ESftp host (SStat p)]));
      [|exact (bind_raise _ _ _ _ _ Hstat)|reflexivity].
    unfold Channel.mkdir. rewrite (bind_ok _ _ _ _ _ (call_free _ _)).
    unfold bind, get. simpl. fold q.
    change (host_fs (logged (logged w [ESftp host (SStat p)]) [ESftp host (SMkdir p)]) host)
      with (host_fs w host).
    unfold FS.exists_. rewrite Hnone, Hparent, Hput. simpl. reflexivity.
  - reflexivity.
  - simpl. rewrite host_fs_insert. exact (lookup_put_node_eq _ _ _ _ Hput).
  - intros p' [H1 H2]. simpl. rewrite host_fs_insert.
    exact (lookup_put_node_apart _ _ _ _ _ Hput H1 H2).
  - intros p' Hne. simpl. rewrite host_fs_insert.
    exact (is_dir_put_node _ _ _ _ _ Hput Hnd Hne leaf_empty_dir).
Qed.

(** On a link without faults, [put] writes a file that is not there when
    its directory is. *)
Lemma sftp_put_fresh l r w c :
  Path.is_empty l = false ->
  FS.read (w_fs w) (Path.resolve (w_cwd w) l) = Some c ->
  FS.lookup (host_fs w host) (Channel.remote_path env host r) = None ->
  FS.is_dir (host_fs w host) (removelast (Channel.remote_path env host r)) = true ->
  exists w',
    Channel.sftp_put env host l r w = (Exc.Ok tt, w')
    /\ place w' = place w
    /\ (forall p', apart p' (Channel.remote_path env host r) ->
          FS.lookup (host_fs w' host) p' = FS.lookup (host_fs w host) p')
    /\ (forall p', p' <> Channel.remote_path env host r ->
          FS.is_dir (host_fs w' host) p' = FS.is_dir (host_fs w host) p').
Proof.
  set (q := Channel.remote_path env host r). intros Hl Hread Hnone Hparent.
  assert (q <> []) as Hq by (intros E; rewrite E in Hnone; discriminate).
  assert (FS.is_dir (host_fs w host) q = false) as Hnd
    by (unfold FS.is_dir; rewrite Hnone; reflexivity).
  destruct (put_node_some (host_fs w host) (removelast q) (List.last q "")
              (FS.File (default 0x1A4 (FS.perm_of (host_fs w host) q)) c) Hparent)
    as [fs' Hput].
  rewrite <- (app_removelast_last "" Hq) in Hput.
  assert (OS.read_bytes l w = (Exc.Ok c, w)) as Hrb.
  { unfold OS.read_bytes, bind, get. simpl. rewrite Hl. unfold FS.read in Hread.
    destruct (FS.lookup _ _) as [[m c'|]|]; try discriminate.
    injection Hread as ->. reflexivity. }
  eexists. split; [|split; [|split]].
  - unfold Channel.sftp_put. rewrite (bind_ok _ _ _ _ _ Hrb).
    rewrite (bind_ok _ _ _ _ _ (call_free _ _)).
    unfold bind, get. simpl. fold q.
    change (host_fs (logged w [ESftp host (SPut l r)]) host) with (host_fs w host).
    rewrite Hnd, Hparent, Hput. simpl. reflexivity.
  - reflexivity.
  - intros p' [H1 H2]. simpl. rewrite host_fs_insert.
    exact (lookup_put_node_apart _ _ _ _ _ Hput H1 H2).
  - intros p' Hne. simpl. rewrite host_fs_insert.
    apply (is_dir_put_node _ _ _ _ _ Hput Hnd Hne). intros r0 Hr0.
    apply file_is_leaf, Hr0.
Qed.

End Forward.

Lemma for_each_app_ok {A} (l1 l2 : list A) (body : A -> M unit) w w1 :
  for_each l1 body w = (Exc.Ok tt, w1) ->
  for_each (l1 ++ l2) body w = for_each l2 body w1.
Proof.
  revert w. induction l1 as [|x l1 IH]; intros w H; simpl in *.
  - apply ret_inv in H as [_ ->]. reflexivity.
  - apply bind_ok_inv in H as [[] [w2 [Hx H]]].
    rewrite (bind_ok _ _ _ _ _ Hx). apply IH, H.
Qed.

Lemma not_own_child (b : FS.path) x : b <> b ++ [x].
Proof.
  intros E. apply (f_equal (@length string)) in E. rewrite length_app in E. simpl in E. lia.
Qed.

Lemma children_of_empty n (b : FS.path) x :
  FS.lookup n b = Some FS.empty -> FS.lookup n (b ++ [x]) = None.
Proof. intros H. rewrite lookup_app, H. reflexivity. Qed.

Section ForwardWalk.
Context (env : environment) (host local_path remote_path : string).
Context (cwd : FS.path) (fs : FS.node).
Context (Hfree : no_faults env).

Local Abbreviation lb := (Path.resolve cwd local_path).
Local Abbreviation rb := (Channel.remote_path env host remote_path).
Local Abbreviation valid := (fun x => Path.valid_name x = true).

Lemma remote_entry' d x :
  Forall valid d -> Path.valid_name x = true ->
  Channel.remote_path env host (Path.join remote_path (String.concat "/" (d ++ [x])))
  = (rb ++ d) ++ [x].
Proof. intros Hd Hx. rewrite <- app_assoc. apply remote_entry; assumption. Qed.

Lemma upload_level_fresh root d es w :
  place w = (cwd, fs) -> Path.resolve cwd root = lb ++ d -> Forall valid d ->
  FS.lookup fs (lb ++ d) = Some (FS.Dir es) ->
  List.NoDup (map fst es) ->
  Forall (fun xc => Path.valid_name (fst xc) = true /\ FS.wf (snd xc) = true) es ->
  FS.lookup (host_fs w host) (rb ++ d) = Some FS.empty ->
  exists w',
    SCPTransferTool.upload_level env host local_path remote_path
      (root, map fst (List.filter (fun xc => is_Dir (snd xc)) es),
             map fst (List.filter (fun xc => is_File (snd xc)) es)) w
    = (Exc.Ok tt, w')
    /\ place w' = (cwd, fs)
    /\ (forall x es', In (x, FS.Dir es') es ->
          FS.lookup (host_fs w' host) ((rb ++ d) ++ [x]) = Some FS.empty)
    /\ (forall p, apart p (rb ++ d) ->
          FS.lookup (host_fs w' host) p = FS.lookup (host_fs w host) p).
Proof.
  intros Hplace Hroot Hd Hes Hnd Hall Hempty.
  assert (forall x n, In (x, n) es -> Path.valid_name x = true) as Hvalid.
  { intros x n Hin. rewrite List.Forall_forall in Hall. exact (proj1 (Hall _ Hin)). }
  set (b := rb ++ d) in *.
  (* the directories of this level *)
  assert (forall dirs w,
            List.NoDup dirs -> (forall x, In x dirs -> Path.valid_name x = true) ->
            place w = (cwd, fs) ->
            FS.is_dir (host_fs w host) b = true ->
            (forall z, In z dirs -> FS.lookup (host_fs w host) (b ++ [z]) = None) ->
            exists w',
              for_each dirs (fun dir_name =>
                w ← get;
                let local_dir := Path.join root dir_name in
                rel_path ← lift (Path.relpath (w_cwd w) local_dir local_path);
                let remote_dir := Path.join remote_path rel_path in
                stat_or_mkdir env host remote_dir) w
              = (Exc.Ok tt, w')
              /\ place w' = (cwd, fs)
              /\ FS.is_dir (host_fs w' host) b = true
              /\ (forall z, In z dirs ->
                    FS.lookup (host_fs w' host) (b ++ [z]) = Some FS.empty)
              /\ (forall p, (forall z, In z dirs -> apart p (b ++ [z])) ->
                    FS.lookup (host_fs w' host) p = FS.lookup (host_fs w host) p)) as Hdirs.
  { clear w Hplace Hempty.
    induction dirs as [|x dirs IH]; intros w Hndd Hv Hplace Hb Hnone.
    - exists w. repeat split; auto. intros z [].
    - apply List.NoDup_cons_iff in Hndd as [Hnew Hndd].
      assert (w_cwd w = cwd) as Hcwd by (injection Hplace; auto).
      pose proof (Hv x (or_introl eq_refl)) as Hvx.
      destruct (stat_or_mkdir_fresh env host Hfree
                  (Path.join remote_path (String.concat "/" (d ++ [x]))) w)
        as [w2 [Hrun [Hplace2 [Hnew2 [Hframe2 Hdir2]]]]].
      { rewrite (remote_entry' d x Hd Hvx). apply Hnone. left. reflexivity. }
      { rewrite (remote_entry' d x Hd Hvx), removelast_last. exact Hb. }
      rewrite (remote_entry' d x Hd Hvx) in Hnew2, Hframe2, Hdir2.
      destruct (IH w2 Hndd (fun y Hy => Hv y (or_intror Hy))) as [w' [Hrest [Hp' [Hb' [Hz' Hf']]]]].
      { rewrite Hplace2. exact Hplace. }
      { rewrite (Hdir2 b (not_own_child b x)). exact Hb. }
      { intros z Hz. rewrite Hframe2; [apply Hnone; right; exact Hz|].
        apply apart_siblings. intros ->. contradiction. }
      exists w'. split; [|split; [exact Hp'|split; [exact Hb'|split]]].
      + simpl for_each. unfold bind at 1. unfold get at 1. unfold bind at 1.
        rewrite Hcwd, (relpath_entry local_path cwd root d x Hroot Hvx).
        unfold lift at 1. unfold bind at 1. cbv beta iota. rewrite Hrun. exact Hrest.
      + intros z [<-|Hz]; [|exact (Hz' z Hz)].
        rewrite Hf'; [exact Hnew2|].
        intros z Hz. apply apart_siblings. intros ->. contradiction.
      + intros p Hp. rewrite Hf' by (intros z Hz; apply Hp; right; exact Hz).
        apply Hframe2. apply Hp. left. reflexivity. }
  (* the files of this level *)
  assert (forall files w,
            List.NoDup files ->
            (forall x, In x files -> exists m c, In (x, FS.File m c) es) ->
            place w = (cwd, fs) ->
            FS.is_dir (host_fs w host) b = true ->
            (forall z, In z files -> FS.lookup (host_fs w host) (b ++ [z]) = None) ->
            exists w',
              for_each files (fun file_name =>
                w ← get;
                let local_file := Path.join root file_name in
                rel_path ← lift (Path.relpath (w_cwd w) local_file local_path);
                let remote_file := Path.join remote_path rel_path in
                Channel.sftp_put env host local_file remote_file) w
              = (Exc.Ok tt, w')
              /\ place w' = (cwd, fs)
              /\ (forall p, (forall z, In z files -> apart p (b ++ [z])) ->
                    FS.lookup (host_fs w' host) p = FS.lookup (host_fs w host) p)) as Hfiles.
  { clear w Hplace Hempty Hdirs.
    induction files as [|x files IH]; intros w Hndf Hv Hplace Hb Hnone.
    - exists w. repeat split; auto.
    - apply List.NoDup_cons_iff in Hndf as [Hnew Hndf].
      assert (w_cwd w = cwd) as Hcwd by (injection Hplace; auto).
      assert (w_fs w = fs) as Hfs by (injection Hplace; auto).
      destruct (Hv x (or_introl eq_refl)) as [m [c Hin]].
      pose proof (Hvalid _ _ Hin) as Hvx.
      destruct (sftp_put_fresh env host Hfree (Path.join root x)
                  (Path.join remote_path (String.concat "/" (d ++ [x]))) w c)
        as [w2 [Hrun [Hplace2 [Hframe2 Hdir2]]]].
      { apply join_name_not_empty, Hvx. }
      { rewrite Hcwd, Hfs, (resolve_join_name _ _ _ Hvx), Hroot. unfold FS.read.
        rewrite (lookup_child _ _ _ _ _ Hes Hnd Hin). reflexivity. }
      { rewrite (remote_entry' d x Hd Hvx). apply Hnone. left. reflexivity. }
      { rewrite (remote_entry' d x Hd Hvx), removelast_last. exact Hb. }
      rewrite (remote_entry' d x Hd Hvx) in Hframe2, Hdir2.
      destruct (IH w2 Hndf (fun y Hy => Hv y (or_intror Hy))) as [w' [Hrest [Hp' Hf']]].
      { rewrite Hplace2. exact Hplace. }
      { rewrite (Hdir2 b (not_own_child b x)). exact Hb. }
      { intros z Hz. rewrite Hframe2; [apply Hnone; right; exact Hz|].
        apply apart_siblings. intros ->. contradiction. }
      exists w'. split; [|split; [exact Hp'|]].
      + simpl for_each. unfold bind at 1. unfold get at 1. unfold bind at 1.
        rewrite Hcwd, (relpath_entry local_path cwd root d x Hroot Hvx).
        unfold lift at 1. unfold bind at 1. cbv beta iota. rewrite Hrun. exact Hrest.
      + intros p Hp. rewrite Hf' by (intros z Hz; apply Hp; right; exact Hz).
        apply Hframe2. apply Hp. left. reflexivity. }
  assert (FS.is_dir (host_fs w host) b = true) as Hb
    by (unfold FS.is_dir; rewrite Hempty; reflexivity).
  destruct (Hdirs (map fst (List.filter (fun xc => is_Dir (snd xc)) es)) w)
    as [w1 [Hrun1 [Hplace1 [Hb1 [Hnew1 Hframe1]]]]].
  { apply names_filter, Hnd. }
  { intros x Hin. apply in_map_iff in Hin as [[y n] [<- Hin]].
    apply filter_In in Hin as [Hin _]. exact (Hvalid _ _ Hin). }
  { exact Hplace. }
  { exact Hb. }
  { intros z _. apply children_of_empty, Hempty. }
  assert (forall x y n n', In (x, n) es -> In (y, n') es -> is_Dir n = true ->
            is_File n' = true -> x <> y) as Hkinds.
  { intros x y n n' Hx Hy Hdn Hfn ->.
    pose proof (assoc_in _ _ _ Hnd Hx) as A1. pose proof (assoc_in _ _ _ Hnd Hy) as A2.
    rewrite A1 in A2. injection A2 as ->. destruct n'; discriminate. }
  destruct (Hfiles (map fst (List.filter (fun xc => is_File (snd xc)) es)) w1)
    as [w2 [Hrun2 [Hplace2 Hframe2]]].
  { apply names_filter, Hnd. }
  { intros x Hin. apply in_map_iff in Hin as [[y n] [<- Hin]].
    apply filter_In in Hin as [Hin Hf]. simpl in Hf.
    destruct n as [m c|]; [eauto|discriminate]. }
  { exact Hplace1. }
  { exact Hb1. }
  { intros z Hz. rewrite Hframe1; [apply children_of_empty, Hempty|].
    intros y Hy. apply apart_siblings. intros ->.
    apply in_map_iff in Hz as [[z n'] [<- Hz]]. apply filter_In in Hz as [Hz Hfz].
    apply in_map_iff in Hy as [[y n] [E Hy]]. apply filter_In in Hy as [Hy Hdy].
    simpl in *. exact (Hkinds _ _ _ _ Hy Hz Hdy Hfz E). }
  exists w2. split; [|split; [exact Hplace2|split]].
  - unfold SCPTransferTool.upload_level. rewrite (bind_ok _ _ _ _ _ Hrun1). exact Hrun2.
  - intros x es' Hin. rewrite Hframe2.
    + apply Hnew1. apply in_map_iff. exists (x, FS.Dir es'). split; [reflexivity|].
      apply filter_In. auto.
    + intros z Hz. apply apart_siblings.
      apply in_map_iff in Hz as [[y n'] [<- Hz]]. apply filter_In in Hz as [Hz Hfz].
      simpl in *. exact (Hkinds _ _ _ _ Hin Hz eq_refl Hfz).
  - intros p Hp. rewrite Hframe2 by (intros z _; apply apart_below, Hp).
    apply Hframe1. intros z _. apply apart_below, Hp.
Qed.

Lemma upload_walk_fresh n :
  forall top d w,
    place w = (cwd, fs) -> Path.resolve cwd top = lb ++ d -> Forall valid d ->
    FS.lookup fs (lb ++ d) = Some n -> FS.wf n = true ->
    (is_Dir n = true -> FS.lookup (host_fs w host) (rb ++ d) = Some FS.empty) ->
    exists w',
      for_each (walk top n) (SCPTransferTool.upload_level env host local_path remote_path) w
      = (Exc.Ok tt, w')
      /\ place w' = (cwd, fs)
      /\ (forall p, apart p (rb ++ d) ->
            FS.lookup (host_fs w' host) p = FS.lookup (host_fs w host) p).
Proof.
  induction n as [perm content|es IH] using node_induction;
    intros top d w Hplace Htop Hd Hn Hwf Hempty.
  - exists w. repeat split; auto.
  - specialize (Hempty eq_refl).
    destruct (wf_Dir es Hwf) as [Hnd Hall].
    destruct (upload_level_fresh top d es w Hplace Htop Hd Hn Hnd Hall Hempty)
      as [wa [Hlevel [Hplace_a [Hnew Hframe_a]]]].
    assert (forall l wa,
              (forall xc, In xc l -> In xc es) -> List.NoDup (map fst l) ->
              place wa = (cwd, fs) ->
              (forall x es', In (x, FS.Dir es') l ->
                 FS.lookup (host_fs wa host) ((rb ++ d) ++ [x]) = Some FS.empty) ->
              exists w',
                for_each (flat_map (fun xc => walk (Path.join top (fst xc)) (snd xc)) l)
                  (SCPTransferTool.upload_level env host local_path remote_path) wa
                = (Exc.Ok tt, w')
                /\ place w' = (cwd, fs)
                /\ (forall p, (forall x n, In (x, n) l -> apart p ((rb ++ d) ++ [x])) ->
                      FS.lookup (host_fs w' host) p = FS.lookup (host_fs wa host) p))
      as Hchildren.
    { clear w wa Hplace Hempty Hlevel Hplace_a Hnew Hframe_a.
      induction l as [|[x n] l IHl]; intros wa Hsub Hndl Hplace Hnew.
      - exists wa. repeat split; auto.
      - simpl in Hndl. apply List.NoDup_cons_iff in Hndl as [Hfresh Hndl].
        assert (In (x, n) es) as Hin by (apply Hsub; left; reflexivity).
        rewrite List.Forall_forall in IH, Hall.
        destruct (Hall _ Hin) as [Hvx Hwfn]. simpl in Hvx, Hwfn.
        assert (Path.resolve cwd (Path.join top x) = lb ++ d ++ [x]) as Htop'.
        { rewrite (resolve_join_name _ _ _ Hvx), Htop, <- app_assoc. reflexivity. }
        assert (Forall valid (d ++ [x])) as Hd'.
        { apply Forall_app. split; [exact Hd|]. constructor; [exact Hvx|constructor]. }
        assert (FS.lookup fs (lb ++ d ++ [x]) = Some n) as Hn'.
        { rewrite app_assoc. exact (lookup_child _ _ _ _ _ Hn Hnd Hin). }
        destruct (IH _ Hin (Path.join top x) (d ++ [x]) wa Hplace Htop' Hd' Hn' Hwfn)
          as [wm [Hx [Hplace_m Hframe_m]]].
        { intros Hdn. rewrite app_assoc. destruct n as [|es']; [discriminate Hdn|].
          apply (Hnew x es'). left. reflexivity. }
        rewrite app_assoc in Hframe_m.
        destruct (IHl wm (fun xc Hxc => Hsub xc (or_intror Hxc)) Hndl Hplace_m)
          as [w' [Hrest [Hplace' Hframe']]].
        { intros y es' Hy. rewrite Hframe_m; [apply (Hnew y es'); right; exact Hy|].
          apply apart_siblings. intros ->. apply Hfresh.
          apply in_map_iff. exists (x, FS.Dir es'). auto. }
        exists w'. split; [|split; [exact Hplace'|]].
        + simpl flat_map. rewrite (for_each_app_ok _ _ _ _ _ Hx). exact Hrest.
        + intros p Hp. rewrite Hframe' by (intros y m Hy; apply (Hp y m); right; exact Hy).
          apply Hframe_m. apply (Hp x n). left. reflexivity. }
    destruct (Hchildren es wa (fun xc H => H) Hnd Hplace_a Hnew)
      as [w' [Hbelow [Hplace' Hframe']]].
    exists w'. split; [|split; [exact Hplace'|]].
    + rewrite walk_Dir. simpl for_each. rewrite (bind_ok _ _ _ _ _ Hlevel). exact Hbelow.
    + intros p Hp. rewrite Hframe' by (intros x n _; apply apart_below, Hp).
      apply Hframe_a, Hp.
Qed.

End ForwardWalk.

Lemma recursive_upload_fresh_run
    (env : environment) (host username key_path : string) (port : Z)
    (local_path remote_path : string) (timeout : Z) (w : world)
    (es : list (string * FS.node)) :
  no_faults env ->
  Path.is_empty local_path = false ->
  FS.lookup (w_fs w) (Path.resolve (w_cwd w) local_path) = Some (FS.Dir es) ->
  FS.wf (FS.Dir es) = true ->
  FS.exists_ (host_fs w host) (Channel.remote_path env host remote_path) = false ->
  FS.is_dir (host_fs w host) (removelast (Channel.remote_path env host remote_path)) = true ->
  fst (SCPTransferTool._run env host username key_path port local_path remote_path
         true true timeout w)
  = Exc.Ok ("Directory " +:+ local_path +:+ " uploaded to " +:+ remote_path
            +:+ " on " +:+ host).
Proof.
  intros Hfree Hne Htree Hwf Hnew Hparent.
  unfold SCPTransferTool._run.
  set (w2 := logged (logged w [EConnect host username
                                 (Path.expanduser (env_home env) key_path) port timeout])
                    [EOpenSftp host]).
  destruct (stat_or_mkdir_fresh env host Hfree remote_path w2)
    as [w3 [Hdest [Hplace3 [Hempty _]]]].
  { unfold FS.exists_ in Hnew. change (host_fs w2 host) with (host_fs w host).
    destruct (FS.lookup (host_fs w host) (Channel.remote_path env host remote_path));
      [discriminate Hnew|reflexivity]. }
  { exact Hparent. }
  assert (place w3 = (w_cwd w, w_fs w)) as Hplace3' by exact Hplace3.
  assert (Path.resolve (w_cwd w) local_path = Path.resolve (w_cwd w) local_path ++ [])
    as Htop by (rewrite app_nil_r; reflexivity).
  assert (FS.lookup (w_fs w) (Path.resolve (w_cwd w) local_path ++ []) = Some (FS.Dir es))
    as Htree' by (rewrite app_nil_r; exact Htree).
  destruct (upload_walk_fresh env host local_path remote_path (w_cwd w) (w_fs w) Hfree
              (FS.Dir es) local_path [] w3 Hplace3' Htop (List.Forall_nil _) Htree' Hwf)
    as [w' [Hloop _]].
  { intros _. rewrite app_nil_r. exact Hempty. }
  assert (w_cwd w3 = w_cwd w /\ w_fs w3 = w_fs w) as [Hcwd Hfs]
    by (injection Hplace3; auto).
  erewrite try_except_ok; [reflexivity|].
  unfold Channel.connect, Channel.open_sftp.
  rewrite (bind_ok _ _ _ _ _ (call_free env Hfree _ w)).
  rewrite (bind_ok _ _ _ _ _ (call_free env Hfree _ _)).
  fold w2.
  erewrite bind_ok; [reflexivity|].
  erewrite bind_ok.
  2:{ unfold OS.path_isdir, bind, get, ret. reflexivity. }
  change (w_fs w2) with (w_fs w). change (w_cwd w2) with (w_cwd w).
  unfold FS.is_dir. rewrite Hne, Htree. change (negb false && true) with true. cbv iota.
  rewrite (bind_ok _ _ _ _ _ Hdest).
  erewrite bind_ok.
  2:{ unfold os_walk, bind, get, ret. reflexivity. }
  rewrite Hcwd, Hfs, Htree, Hne.
  rewrite (bind_ok _ _ _ _ _ Hloop). reflexivity.
Qed.

(** ** Recursive download *)

Lemma in_files_under_entries es rel c :
  In (rel, c) (FS.files_under (FS.Dir es)) <->
  exists x n rel', rel = x :: rel' /\ In (x, n) es /\ In (rel', c) (files_of n).
Proof.
  rewrite in_files_under_Dir. split.
  - intros [[x [m [-> Hin]]]|[x [n [rel' [-> [Hin Hrel]]]]]].
    + exists x, (FS.File m c), []. simpl. auto.
    + exists x, n, rel'. destruct n as [m c'|es']; [destruct Hrel|]. auto.
  - intros [x [n [rel' [-> [Hin Hrel]]]]]. destruct n as [m c'|es'].
    + left. destruct Hrel as [E|[]]. injection E as <- <-. eauto.
    + right. eauto 10.
Qed.

Lemma local_kept_refl W w : local_kept W w w.
Proof. repeat split; auto. Qed.

Lemma local_kept_logged W w evs : local_kept W w (logged w evs).
Proof. repeat split; auto. Qed.

Lemma local_kept_trans (W1 W2 W : FS.path -> Prop) w w1 w2 :
  local_kept W1 w w1 -> local_kept W2 w1 w2 ->
  (forall q, W1 q -> W q) -> (forall q, W2 q -> W q) ->
  local_kept W w w2.
Proof.
  intros [C1 [H1 K1]] [C2 [H2 K2]] I1 I2. split; [congruence|]. split; [congruence|].
  intros q c Hq Hr. apply K2; [auto|]. apply K1; auto.
Qed.

Lemma write_text_kept name content w w' :
  OS.write_text name content w = (Exc.Ok tt, w') ->
  local_kept (fun q => q = Path.resolve (w_cwd w) name) w w'
  /\ FS.read (w_fs w') (Path.resolve (w_cwd w) name) = Some content.
Proof.
  intros H. apply write_text_ok in H as [perm [Hl [Hp [Hd [Hc [Hh _]]]]]].
  split; [|unfold FS.read; rewrite Hl; reflexivity].
  split; [exact Hc|]. split; [exact Hh|].
  intros q c Hq Hr. unfold FS.read in *.
  destruct (FS.lookup (w_fs w) q) as [[m c'|]|] eqn:El; try discriminate.
  injection Hr as ->.
  rewrite (lookup_put_node_file _ _ _ _ _ _ _ El Hp); [reflexivity| |exact Hd].
  intros E. apply Hq. symmetry. exact E.
Qed.

Lemma makedirs_kept name exist_ok w w' :
  OS.makedirs name exist_ok w = (Exc.Ok tt, w') -> local_kept (fun _ => False) w w'.
Proof.
  unfold OS.makedirs, bind, get. simpl.
  destruct (Path.is_empty name); [discriminate|].
  destruct (negb exist_ok && _); [discriminate|].
  destruct (FS.makedirs_node _ _) as [fs'|] eqn:E; [|discriminate].
  intros H. inversion H; subst; clear H. split; [reflexivity|]. split; [reflexivity|].
  intros q c _ Hr. simpl. unfold FS.read in *.
  destruct (FS.lookup (w_fs w) q) as [[m c'|]|] eqn:El; try discriminate.
  rewrite (proj1 (makedirs_node_keeps _ _ _ q E) _ _ El). exact Hr.
Qed.

Lemma listdir_ok env host p w items w' :
  Channel.listdir env host p w = (Exc.Ok items, w') ->
  w' = logged w [ESftp host (SListdir p)]
  /\ exists es, FS.lookup (host_fs w host) (Channel.remote_path env host p) = Some (FS.Dir es)
                /\ items = map fst es.
Proof.
  unfold Channel.listdir. intros H.
  apply bind_ok_inv in H as [[] [w1 [Hc H]]]. apply call_ok in Hc. subst w1.
  unfold bind, get in H. simpl in H.
  change (host_fs (logged w [ESftp host (SListdir p)]) host) with (host_fs w host) in H.
  destruct (FS.lookup _ _) as [[m c|es]|]; try discriminate.
  inversion H. split; [reflexivity|]. eauto.
Qed.

Lemma sftp_get_ok env host r l w w' :
  Channel.sftp_get env host r l w = (Exc.Ok tt, w') ->
  exists m c,
    FS.lookup (host_fs w host) (Channel.remote_path env host r) = Some (FS.File m c)
    /\ FS.read (w_fs w') (Path.resolve (w_cwd w) l) = Some c
    /\ local_kept (fun q => q = Path.resolve (w_cwd w) l) w w'.
Proof.
  unfold Channel.sftp_get. intros H.
  apply bind_ok_inv in H as [[] [w1 [Hopen H]]].
  apply write_text_kept in Hopen as [K1 _].
  apply bind_ok_inv in H as [[] [w2 [Hc H]]]. apply call_ok in Hc. subst w2.
  unfold bind at 1, get in H.
  change (host_fs (logged w1 [ESftp host (SGet r l)]) host) with (host_fs w1 host) in H.
  assert (host_fs w1 host = host_fs w host) as Hh
    by (unfold host_fs; rewrite (proj1 (proj2 K1)); reflexivity).
  rewrite Hh in H.
  destruct (FS.lookup _ _) as [[m c|es]|]; try discriminate.
  apply write_text_kept in H as [K2 R2].
  change (w_cwd (logged w1 [ESftp host (SGet r l)])) with (w_cwd w1) in K2, R2.
  rewrite (proj1 K1) in K2, R2.
  exists m, c. split; [reflexivity|]. split; [exact R2|].
  set (P := fun q : FS.path => q = Path.resolve (w_cwd w) l) in *.
  apply (local_kept_trans P P P w w1 w' K1); [|auto|auto].
  apply (local_kept_trans (fun _ => False) P P w1 (logged w1 [ESftp host (SGet r l)]) w'
           (local_kept_logged _ _ _) K2); [intros q []|auto].
Qed.

Lemma path_exists_ok name w b w' : OS.path_exists name w = (Exc.Ok b, w') -> w' = w.
Proof. unfold OS.path_exists, bind, get, ret. intros H. inversion H. reflexivity. Qed.

Lemma sftp_is_dir_true env host path w :
  fst (sftp_is_dir env host path w) = Exc.Ok true ->
  FS.is_dir (host_fs w host) (Channel.remote_path env host path) = true.
Proof.
  rewrite sftp_is_dir_run. simpl. destruct (env_fault _ _ _); intros H; congruence.
Qed.

Section Download.
Context (env : environment) (host : string) (cwd : FS.path) (hosts : gmap string FS.node).

Local Abbreviation remote := (default FS.empty (hosts !! host)).

Lemma download_ok depth :
  forall n rd ld w w',
    w_cwd w = cwd -> w_hosts w = hosts ->
    FS.lookup remote (Channel.remote_path env host rd) = Some n -> FS.wf n = true ->
    download_dir_recursive env depth host rd ld w = (Exc.Ok tt, w') ->
    local_kept (landing (Path.resolve cwd ld) [] n) w w'
    /\ forall rel c, In (rel, c) (FS.files_under n) ->
         FS.read (w_fs w') (Path.resolve cwd ld ++ rel) = Some c.
Proof.
  induction depth as [|depth IH]; intros n rd ld w w' Hcwd Hhosts Hn Hwf H;
    [discriminate H|].
  simpl in H. apply bind_ok_inv in H as [items [w1 [Hlist Hloop]]].
  apply listdir_ok in Hlist as [-> [es [Hes ->]]].
  assert (host_fs w host = remote) as Hremote by (unfold host_fs; rewrite Hhosts; reflexivity).
  rewrite Hremote, Hn in Hes. injection Hes as ->.
  destruct (wf_Dir es Hwf) as [Hnd Hall].
  set (rq := Channel.remote_path env host rd) in *.
  set (lq := Path.resolve cwd ld) in *.
  assert (forall l w1 w',
            (forall xc, In xc l -> In xc es) -> List.NoDup (map fst l) ->
            w_cwd w1 = cwd -> w_hosts w1 = hosts ->
            for_each (map fst l) (fun item =>
              let remote_path := Path.join rd item in
              let local_path := Path.join ld item in
              isd ← sftp_is_dir env host remote_path;
              if isd then
                (present ← OS.path_exists local_path;
                 if negb present then OS.makedirs local_path false else ret tt);;
                download_dir_recursive env depth host remote_path local_path
              else Channel.sftp_get env host remote_path local_path) w1
            = (Exc.Ok tt, w') ->
            local_kept (fun q => exists x n rel c,
                          In (x, n) l /\ In (rel, c) (files_of n) /\ q = lq ++ x :: rel) w1 w'
            /\ forall x n rel c, In (x, n) l -> In (rel, c) (files_of n) ->
                 FS.read (w_fs w') (lq ++ x :: rel) = Some c) as Hentries.
  { clear w w' Hcwd Hhosts Hremote Hloop.
    induction l as [|[x n] l IHl]; intros w1 w' Hsub Hndl Hcwd Hhosts H.
    - apply ret_inv in H as [_ <-]. split; [apply local_kept_refl|].
      intros x n rel c [].
    - simpl in Hndl. apply List.NoDup_cons_iff in Hndl as [Hnew Hndl].
      assert (In (x, n) es) as Hin by (apply Hsub; left; reflexivity).
      rewrite List.Forall_forall in Hall.
      destruct (Hall _ Hin) as [Hvx Hwfn]. simpl in Hvx, Hwfn.
      assert (host_fs w1 host = remote) as Hremote
        by (unfold host_fs; rewrite Hhosts; reflexivity).
      assert (Channel.remote_path env host (Path.join rd x) = rq ++ [x]) as Hrx
        by (apply resolve_join_name, Hvx).
      assert (Path.resolve cwd (Path.join ld x) = lq ++ [x]) as Hlx
        by (apply resolve_join_name, Hvx).
      pose proof (lookup_child _ _ _ _ _ Hn Hnd Hin) as Hchild.
      simpl in H. apply bind_ok_inv in H as [[] [wm [Hx Hrest]]].
      assert (local_kept (fun q => exists rel c, In (rel, c) (files_of n)
                                                 /\ q = lq ++ x :: rel) w1 wm
              /\ forall rel c, In (rel, c) (files_of n) ->
                   FS.read (w_fs wm) (lq ++ x :: rel) = Some c) as [Kx Fx].
      { clear Hrest IHl. cbv zeta in Hx.
        apply bind_ok_inv in Hx as [isd [w2 [Hisd Hx]]].
        pose proof (sftp_is_dir_true env host (Path.join rd x) w1) as Htrue.
        rewrite Hisd in Htrue. simpl in Htrue.
        rewrite sftp_is_dir_run in Hisd. injection Hisd as _ <-.
        destruct isd.
        - specialize (Htrue eq_refl). rewrite Hremote, Hrx in Htrue.
          unfold FS.is_dir in Htrue. rewrite Hchild in Htrue.
          destruct n as [m c|es']; [discriminate|].
          apply bind_ok_inv in Hx as [[] [w3 [Hmk Hrec]]].
          assert (local_kept (fun _ => False) w1 w3) as K3.
          { apply bind_ok_inv in Hmk as [present [w4 [Hp Hmk]]].
            apply path_exists_ok in Hp. subst w4.
            destruct (negb present).
            - apply makedirs_kept in Hmk.
              apply (local_kept_trans (fun _ => False) _ _ w1 _ w3
                       (local_kept_logged _ w1 _) Hmk); auto.
            - apply ret_inv in Hmk as [_ <-]. apply local_kept_logged. }
          destruct K3 as [C3 [H3 K3]].
          destruct (IH (FS.Dir es') (Path.join rd x) (Path.join ld x) w3 wm) as [Kr Fr];
            [congruence|congruence|rewrite Hrx; exact Hchild|exact Hwfn|exact Hrec|].
          rewrite Hlx in Kr, Fr. split.
          + apply (local_kept_trans (fun _ => False) _ _ w1 w3 wm
                     (conj C3 (conj H3 K3)) Kr); [intros q []|].
            intros q [rel [c [Hrel ->]]]. exists rel, c. split; [exact Hrel|].
            simpl. rewrite <- app_assoc. reflexivity.
          + intros rel c Hrel. rewrite <- (Fr rel c Hrel), <- app_assoc. reflexivity.
        - apply sftp_get_ok in Hx as [m [c [Hfile [Hread K]]]].
          change (host_fs (logged w1 [ESftp host (SStat (Path.join rd x))]) host)
            with (host_fs w1 host) in Hfile.
          change (w_cwd (logged w1 [ESftp host (SStat (Path.join rd x))]))
            with (w_cwd w1) in Hread, K.
          rewrite Hremote, Hrx, Hchild in Hfile. injection Hfile as ->.
          rewrite Hcwd, Hlx in Hread, K. split.
          + apply (local_kept_trans (fun _ => False) _ _ w1 _ wm
                     (local_kept_logged _ w1 _) K); [intros q []|].
            intros q ->. exists [], c. simpl. auto.
          + intros rel c' [E|[]]. injection E as <- <-. exact Hread. }
      assert (w_cwd wm = cwd /\ w_hosts wm = hosts) as [Hcwd_m Hhosts_m]
        by (destruct Kx as [C [Hh _]]; split; congruence).
      destruct (IHl wm w' (fun xc Hxc => Hsub xc (or_intror Hxc)) Hndl Hcwd_m Hhosts_m Hrest)
        as [Kr Fr].
      split.
      + apply (local_kept_trans _ _ _ w1 wm w' Kx Kr).
        * intros q [rel [c [Hrel ->]]]. exists x, n, rel, c.
          split; [left; reflexivity|]. split; [exact Hrel|reflexivity].
        * intros q [y [m [rel [c [Hy [Hrel ->]]]]]]. exists y, m, rel, c.
          split; [right; exact Hy|]. split; [exact Hrel|reflexivity].
      + intros y m rel c [E|Hy] Hrel.
        * injection E as <- <-. apply (proj2 (proj2 Kr)).
          -- intros [y [m [rel' [c' [Hy [_ E]]]]]].
             apply app_inv_head in E. injection E as <- _.
             apply Hnew. apply in_map_iff. exists (x, m). auto.
          -- exact (Fx rel c Hrel).
        * exact (Fr y m rel c Hy Hrel). }
  destruct (Hentries es (logged w [ESftp host (SListdir rd)]) w' (fun xc H => H) Hnd
              Hcwd Hhosts Hloop) as [K F].
  split.
  - apply (local_kept_trans (fun _ => False) _ _ w _ w' (local_kept_logged _ w _) K);
      [intros q []|].
    intros q [x [n [rel [c [Hin [Hrel ->]]]]]]. exists (x :: rel), c.
    split; [|reflexivity]. apply in_files_under_entries. eauto 10.
  - intros rel c Hrel. apply in_files_under_entries in Hrel
      as [x [n [rel' [-> [Hin Hrel]]]]].
    exact (F x n rel' c Hin Hrel).
Qed.

End Download.

Lemma recursive_download_run
    (env : environment) (host username key_path : string) (port : Z)
    (local_path remote_path : string) (timeout : Z) (w w' : world) (tree : FS.node) :
  FS.lookup (host_fs w host) (Channel.remote_path env host remote_path) = Some tree ->
  FS.wf tree = true ->
  SCPTransferTool._run env host username key_path port local_path remote_path
    false true timeout w
  = (Exc.Ok ("Directory " +:+ remote_path +:+ " downloaded to " +:+ local_path
             +:+ " from " +:+ host), w') ->
  local_kept (landing (Path.resolve (w_cwd w) local_path) [] tree) w w'
  /\ forall rel c, In (rel, c) (FS.files_under tree) ->
       FS.read (w_fs w') (Path.resolve (w_cwd w) local_path ++ rel) = Some c.
Proof.
  intros Htree Hwf H. unfold SCPTransferTool._run in H.
  apply try_except_inv in H as [[H _]|[e [w1 [_ [_ H]]]]].
  2:{ apply ret_inv in H as [H _]. discriminate H. }
  apply bind_ok_inv in H as [[] [w1 [Hc H]]]. apply call_ok in Hc. subst w1.
  apply bind_ok_inv in H as [[] [w2 [Hs H]]]. apply call_ok in Hs. subst w2.
  apply bind_ok_inv in H as [result [w3 [H Hret]]]. apply ret_inv in Hret as [-> ->].
  apply bind_ok_inv in H as [isd [w2 [Hisd H]]].
  rewrite sftp_is_dir_run in Hisd. injection Hisd as _ <-.
  destruct isd.
  2:{ apply bind_ok_inv in H as [[] [w3 [_ H]]]. apply ret_inv in H as [H _].
      discriminate H. }
  set (w0 := logged (logged (logged w _) _) _) in *.
  apply bind_ok_inv in H as [[] [w3 [Hmk H]]].
  apply bind_ok_inv in H as [[] [w4 [Hrec H]]]. apply ret_inv in H as [_ ->].
  assert (local_kept (fun _ => False) w w3) as K3.
  { apply bind_ok_inv in Hmk as [present [w5 [Hp Hmk]]].
    apply path_exists_ok in Hp. subst w5.
    destruct (negb present).
    - apply makedirs_kept in Hmk.
      apply (local_kept_trans (fun _ => False) (fun _ => False) _ w w0 w3); auto.
      repeat split; auto.
    - apply ret_inv in Hmk as [_ <-]. repeat split; auto. }
  destruct K3 as [C3 [H3 K3]].
  destruct (download_ok env host (w_cwd w) (w_hosts w) (env_recursion_limit env) tree
              remote_path local_path w3 w' C3 H3 Htree Hwf Hrec) as [K F].
  split; [|exact F].
  apply (local_kept_trans (fun _ => False) _ _ w w3 w' (conj C3 (conj H3 K3)) K);
    [intros q []|auto].
Qed.


Lemma height_child es x n :
  In (x, n) es -> (FS.height n < FS.height (FS.Dir es))%nat.
Proof.
  simpl. induction es as [|[y c] es IH]; intros Hin; [contradiction|].
  simpl. destruct Hin as [E|Hin].
  - injection E as _ ->. lia.
  - specialize (IH Hin). lia.
Qed.

(** Making a directory that is not there, below one that is, puts an
    empty directory in its place. *)
Lemma makedirs_node_fresh n p x :
  FS.is_dir n p = true -> FS.lookup n (p ++ [x]) = None ->
  FS.makedirs_node n (p ++ [x]) = FS.put_node n (p ++ [x]) FS.empty.
Proof.
  unfold FS.is_dir. revert n. induction p as [|y p IH]; intros n Hd Hx.
  - destruct n as [|es]; [discriminate|]. simpl in *.
    destruct (FS.assoc es x) as [c|]; [discriminate|]. reflexivity.
  - destruct n as [|es]; [discriminate|]. simpl in Hd, Hx.
    change ((y :: p) ++ [x]) with (y :: (p ++ [x])).
    destruct (FS.assoc es y) as [c|] eqn:Ey; [|discriminate].
    simpl. rewrite Ey. simpl. rewrite (IH c Hd Hx).
    destruct (p ++ [x]) eqn:E; [destruct p; discriminate|]. reflexivity.
Qed.

Lemma makedirs_fresh name w q x :
  Path.is_empty name = false ->
  Path.resolve (w_cwd w) name = q ++ [x] ->
  FS.is_dir (w_fs w) q = true ->
  FS.lookup (w_fs w) (q ++ [x]) = None ->
  exists fs',
    FS.put_node (w_fs w) (q ++ [x]) FS.empty = Some fs'
    /\ OS.makedirs name false w
       = (Exc.Ok tt, World fs' (w_cwd w) (w_hosts w) (w_trace w) (w_stdout w)).
Proof.
  intros Hn Hr Hq Hx.
  destruct (put_node_some (w_fs w) q x FS.empty Hq) as [fs' Hp].
  exists fs'. split; [exact Hp|].
  unfold OS.makedirs, bind, get. simpl. rewrite Hn, Hr.
  unfold FS.exists_. rewrite Hx. simpl.
  rewrite (makedirs_node_fresh _ _ _ Hq Hx), Hp. reflexivity.
Qed.

(** What putting a leaf where no directory is does to the rest of a
    tree. *)
Lemma put_leaf_frame n q new n' :
  FS.put_node n q new = Some n' -> FS.is_dir n q = false ->
  (forall r, r <> [] -> FS.lookup new r = None) ->
  FS.lookup n' q = Some new
  /\ (forall p, apart p q -> FS.lookup n' p = FS.lookup n p)
  /\ (forall p, p <> q -> FS.is_dir n' p = FS.is_dir n p).
Proof.
  intros Hp Hd Hleaf. split; [exact (lookup_put_node_eq _ _ _ _ Hp)|]. split.
  - intros p [H1 H2]. exact (lookup_put_node_apart _ _ _ _ _ Hp H1 H2).
  - intros p Hne. exact (is_dir_put_node _ _ _ _ _ Hp Hd Hne Hleaf).
Qed.

Section ForwardDownload.
Context (env : environment) (host : string) (cwd : FS.path) (hosts : gmap string FS.node).
Context (Hfree : no_faults env).

Local Abbreviation remote := (default FS.empty (hosts !! host)).

(** On a link without faults, [get] fetches a file into a directory that
    has nothing of its name. *)
Lemma sftp_get_fresh r l w q x m c :
  w_hosts w = hosts ->
  FS.lookup remote (Channel.remote_path env host r) = Some (FS.File m c) ->
  Path.is_empty l = false ->
  Path.resolve (w_cwd w) l = q ++ [x] ->
  FS.is_dir (w_fs w) q = true ->
  FS.lookup (w_fs w) (q ++ [x]) = None ->
  exists w',
    Channel.sftp_get env host r l w = (Exc.Ok tt, w')
    /\ w_cwd w' = w_cwd w /\ w_hosts w' = hosts
    /\ (forall p, apart p (q ++ [x]) -> FS.lookup (w_fs w') p = FS.lookup (w_fs w) p)
    /\ (forall p, p <> q ++ [x] -> FS.is_dir (w_fs w') p = FS.is_dir (w_fs w) p).
Proof.
  intros Hhosts Hfile Hl Hres Hq Hx.
  assert (FS.is_dir (w_fs w) (q ++ [x]) = false) as Hnd
    by (unfold FS.is_dir; rewrite Hx; reflexivity).
  destruct (write_text_in_dir l "" w q x Hl Hres Hq Hnd)
    as [w1 [perm1 [Hrun1 [Hput1 [Hc1 [Hh1 _]]]]]].
  destruct (put_leaf_frame _ _ _ _ Hput1 Hnd (file_is_leaf _ _)) as [Hl1 [Hf1 Hd1]].
  set (w2 := logged w1 [ESftp host (SGet r l)]).
  assert (FS.is_dir (w_fs w2) (q ++ [x]) = false) as Hnd2
    by (unfold FS.is_dir; simpl; rewrite Hl1; reflexivity).
  assert (FS.is_dir (w_fs w2) q = true) as Hq2
    by (simpl; rewrite (Hd1 q (not_own_child q x)); exact Hq).
  assert (Path.resolve (w_cwd w2) l = q ++ [x]) as Hres2
    by (simpl; rewrite Hc1; exact Hres).
  destruct (write_text_in_dir l c w2 q x Hl Hres2 Hq2 Hnd2)
    as [w3 [perm3 [Hrun3 [Hput3 [Hc3 [Hh3 _]]]]]].
  destruct (put_leaf_frame _ _ _ _ Hput3 Hnd2 (file_is_leaf _ _)) as [_ [Hf3 Hd3]].
  exists w3. split; [|split; [|split; [|split]]].
  - unfold Channel.sftp_get. rewrite (bind_ok _ _ _ _ _ Hrun1).
    rewrite (bind_ok _ _ _ _ _ (call_free env Hfree _ w1)). fold w2.
    unfold bind at 1, get.
    assert (host_fs w2 host = remote) as ->
      by (unfold host_fs; simpl; rewrite Hh1, Hhosts; reflexivity).
    rewrite Hfile. exact Hrun3.
  - rewrite Hc3. simpl. exact Hc1.
  - rewrite Hh3. simpl. rewrite Hh1. exact Hhosts.
  - intros p Hp. rewrite (Hf3 p Hp). simpl. exact (Hf1 p Hp).
  - intros p Hp. rewrite (Hd3 p Hp). simpl. exact (Hd1 p Hp).
Qed.

Lemma download_fresh depth :
  forall es rd ld w,
    w_cwd w = cwd -> w_hosts w = hosts ->
    FS.lookup remote (Channel.remote_path env host rd) = Some (FS.Dir es) ->
    FS.wf (FS.Dir es) = true ->
    (FS.height (FS.Dir es) <= depth)%nat ->
    FS.lookup (w_fs w) (Path.resolve cwd ld) = Some FS.empty ->
    exists w',
      download_dir_recursive env depth host rd ld w = (Exc.Ok tt, w')
      /\ w_cwd w' = cwd /\ w_hosts w' = hosts
      /\ (forall p, apart p (Path.resolve cwd ld) ->
            FS.lookup (w_fs w') p = FS.lookup (w_fs w) p)
      /\ (forall p, FS.is_dir (w_fs w) p = true -> FS.is_dir (w_fs w') p = true).
Proof.
  induction depth as [|depth IH]; intros es rd ld w Hcwd Hhosts Hes Hwf Hheight Hempty.
  { simpl in Hheight. lia. }
  destruct (wf_Dir es Hwf) as [Hnd Hall].
  set (rq := Channel.remote_path env host rd) in *.
  set (lq := Path.resolve cwd ld) in *.
  assert (forall l w1,
            (forall xc, In xc l -> In xc es) -> List.NoDup (map fst l) ->
            w_cwd w1 = cwd -> w_hosts w1 = hosts ->
            FS.is_dir (w_fs w1) lq = true ->
            (forall x n, In (x, n) l -> FS.lookup (w_fs w1) (lq ++ [x]) = None) ->
            exists w',
              for_each (map fst l) (fun item =>
                let remote_path := Path.join rd item in
                let local_path := Path.join ld item in
                isd ← sftp_is_dir env host remote_path;
                if isd then
                  (present ← OS.path_exists local_path;
                   if negb present then OS.makedirs local_path false else ret tt);;
                  download_dir_recursive env depth host remote_path local_path
                else Channel.sftp_get env host remote_path local_path) w1
              = (Exc.Ok tt, w')
              /\ w_cwd w' = cwd /\ w_hosts w' = hosts
              /\ (forall p, (forall x n, In (x, n) l -> apart p (lq ++ [x])) ->
                    FS.lookup (w_fs w') p = FS.lookup (w_fs w1) p)
              /\ (forall p, (forall x n, In (x, n) l -> p <> lq ++ [x]) ->
                    FS.is_dir (w_fs w1) p = true -> FS.is_dir (w_fs w') p = true))
    as Hentries.
  { clear w Hcwd Hhosts Hempty.
    induction l as [|[x n] l IHl]; intros w1 Hsub Hndl Hcwd Hhosts Hdir Hnone.
    - exists w1. repeat split; auto.
    - simpl in Hndl. apply List.NoDup_cons_iff in Hndl as [Hnew Hndl].
      assert (In (x, n) es) as Hin by (apply Hsub; left; reflexivity).
      rewrite List.Forall_forall in Hall.
      destruct (Hall _ Hin) as [Hvx Hwfn]. simpl in Hvx, Hwfn.
      assert (host_fs w1 host = remote) as Hremote
        by (unfold host_fs; rewrite Hhosts; reflexivity).
      assert (Channel.remote_path env host (Path.join rd x) = rq ++ [x]) as Hrx
        by (apply resolve_join_name, Hvx).
      assert (Path.resolve cwd (Path.join ld x) = lq ++ [x]) as Hlx
        by (apply resolve_join_name, Hvx).
      pose proof (lookup_child _ _ _ _ _ Hes Hnd Hin) as Hchild.
      pose proof (Hnone x n (or_introl eq_refl)) as Hx.
      set (w2 := logged w1 [ESftp host (SStat (Path.join rd x))]).
      assert (exists wm,
                (if is_Dir n then
                   (present ← OS.path_exists (Path.join ld x);
                    if negb present then OS.makedirs (Path.join ld x) false else ret tt);;
                   download_dir_recursive env depth host (Path.join rd x) (Path.join ld x)
                 else Channel.sftp_get env host (Path.join rd x) (Path.join ld x)) w2
                = (Exc.Ok tt, wm)
                /\ w_cwd wm = cwd /\ w_hosts wm = hosts
                /\ (forall p, apart p (lq ++ [x]) ->
                      FS.lookup (w_fs wm) p = FS.lookup (w_fs w1) p)
                /\ (forall p, p <> lq ++ [x] ->
                      FS.is_dir (w_fs w1) p = true -> FS.is_dir (w_fs wm) p = true))
        as [wm [Hrun [Hcwd_m [Hhosts_m [Hframe_m Hdir_m]]]]].
      { destruct n as [m c|es'].
        - destruct (sftp_get_fresh (Path.join rd x) (Path.join ld x) w2 lq x m c)
            as [wm [Hget [Hc [Hh [Hf Hd]]]]]; try assumption.
          + rewrite Hrx. exact Hchild.
          + apply join_name_not_empty, Hvx.
          + simpl. rewrite Hcwd. exact Hlx.
          + exists wm. split; [exact Hget|]. split; [rewrite Hc; exact Hcwd|].
            split; [exact Hh|]. split; [exact Hf|].
            intros p Hp Hpd. rewrite (Hd p Hp). exact Hpd.
        - destruct (makedirs_fresh (Path.join ld x) w2 lq x) as [fs' [Hput Hmk]].
          + apply join_name_not_empty, Hvx.
          + simpl. rewrite Hcwd. exact Hlx.
          + exact Hdir.
          + exact Hx.
          + assert (FS.is_dir (w_fs w2) (lq ++ [x]) = false) as Hnd2
              by (unfold FS.is_dir; simpl; rewrite Hx; reflexivity).
            destruct (put_leaf_frame _ _ _ _ Hput Hnd2 leaf_empty_dir) as [Hl3 [Hf3 Hd3]].
            set (w3 := World fs' (w_cwd w2) (w_hosts w2) (w_trace w2) (w_stdout w2)) in *.
            destruct (IH es' (Path.join rd x) (Path.join ld x) w3)
              as [wm [Hrec [Hc [Hh [Hf Hd]]]]].
            * exact Hcwd.
            * exact Hhosts.
            * rewrite Hrx. exact Hchild.
            * exact Hwfn.
            * pose proof (height_child _ _ _ Hin). lia.
            * rewrite Hlx. exact Hl3.
            * rewrite Hlx in Hf.
              exists wm. split; [|split; [exact Hc|split; [exact Hh|split]]].
              -- change (is_Dir (FS.Dir es')) with true. cbv iota.
                 erewrite bind_ok; [exact Hrec|].
                 unfold OS.path_exists. unfold bind at 1, get. unfold ret at 1.
                 unfold bind at 1.
                 change (w_fs w2) with (w_fs w1). change (w_cwd w2) with (w_cwd w1).
                 rewrite Hcwd, Hlx. unfold FS.exists_. rewrite Hx.
                 rewrite andb_false_r. simpl negb. cbv iota. exact Hmk.
              -- intros p Hp. rewrite (Hf p Hp). exact (Hf3 p Hp).
              -- intros p Hp Hpd. apply (Hd p). simpl. rewrite (Hd3 p Hp). exact Hpd. }
      destruct (IHl wm (fun xc Hxc => Hsub xc (or_intror Hxc)) Hndl Hcwd_m Hhosts_m)
        as [w' [Hrest [Hcwd' [Hhosts' [Hframe' Hdir']]]]].
      { apply Hdir_m; [apply not_own_child|exact Hdir]. }
      { intros y m Hy. rewrite Hframe_m; [exact (Hnone y m (or_intror Hy))|].
        apply apart_siblings. intros ->. apply Hnew.
        apply in_map_iff. exists (x, m). auto. }
      exists w'. split; [|split; [exact Hcwd'|split; [exact Hhosts'|split]]].
      + change (map fst ((x, n) :: l)) with (x :: map fst l).
        simpl for_each. cbv zeta.
        erewrite bind_ok; [exact Hrest|].
        rewrite (bind_ok _ _ _ _ _ (sftp_is_dir_run env host (Path.join rd x) w1)).
        rewrite Hfree, Hremote, Hrx. unfold FS.is_dir. rewrite Hchild.
        fold w2. destruct n; exact Hrun.
      + intros p Hp.
        rewrite Hframe' by (intros y m Hy; apply (Hp y m); right; exact Hy).
        apply Hframe_m. apply (Hp x n). left. reflexivity.
      + intros p Hp Hpd. apply Hdir'.
        * intros y m Hy. apply (Hp y m). right. exact Hy.
        * apply Hdir_m; [apply (Hp x n); left; reflexivity|exact Hpd]. }
  set (w1 := logged w [ESftp host (SListdir rd)]).
  destruct (Hentries es w1 (fun xc H => H) Hnd Hcwd Hhosts) as [w' [Hloop [Hc [Hh [Hf Hd]]]]].
  { unfold FS.is_dir. simpl. rewrite Hempty. reflexivity. }
  { intros x n _. apply children_of_empty. exact Hempty. }
  exists w'. split; [|split; [exact Hc|split; [exact Hh|split]]].
  - simpl download_dir_recursive.
    erewrite bind_ok; [exact Hloop|].
    unfold Channel.listdir. rewrite (bind_ok _ _ _ _ _ (call_free env Hfree _ w)).
    fold w1. unfold bind, get.
    assert (host_fs w1 host = remote) as ->
      by (unfold host_fs; simpl; rewrite Hhosts; reflexivity).
    fold rq. rewrite Hes. reflexivity.
  - intros p Hp. rewrite Hf by (intros x n _; apply apart_below, Hp). reflexivity.
  - intros p Hpd. apply Hd; [|exact Hpd].
    intros x n _ E. subst p. unfold FS.is_dir in Hpd.
    rewrite (children_of_empty _ _ x Hempty) in Hpd. discriminate Hpd.
Qed.

End ForwardDownload.

Lemma recursive_download_fresh_run
    (env : environment) (host username key_path : string) (port : Z)
    (local_path remote_path : string) (timeout : Z) (w : world)
    (es : list (string * FS.node)) :
  no_faults env ->
  Path.is_empty local_path = false ->
  FS.lookup (host_fs w host) (Channel.remote_path env host remote_path) = Some (FS.Dir es) ->
  FS.wf (FS.Dir es) = true ->
  (FS.height (FS.Dir es) <= env_recursion_limit env)%nat ->
  FS.exists_ (w_fs w) (Path.resolve (w_cwd w) local_path) = false ->
  FS.is_dir (w_fs w) (removelast (Path.resolve (w_cwd w) local_path)) = true ->
  fst (SCPTransferTool._run env host username key_path port local_path remote_path
         false true timeout w)
  = Exc.Ok ("Directory " +:+ remote_path +:+ " downloaded to " +:+ local_path
            +:+ " from " +:+ host).
Proof.
  intros Hfree Hne Htree Hwf Hheight Hnew Hparent.
  set (lq := Path.resolve (w_cwd w) local_path) in *.
  assert (FS.lookup (w_fs w) lq = None) as Hnone
    by (unfold FS.exists_ in Hnew; destruct (FS.lookup (w_fs w) lq); [discriminate Hnew|reflexivity]).
  assert (lq <> []) as Hlq by (intros E; rewrite E in Hnone; discriminate Hnone).
  pose proof (app_removelast_last "" Hlq) as Hsplit.
  set (w0 := logged (logged (logged w [EConnect host username
                                         (Path.expanduser (env_home env) key_path) port timeout])
                            [EOpenSftp host])
                    [ESftp host (SStat remote_path)]).
  destruct (makedirs_fresh local_path w0 (removelast lq) (List.last lq "")) as [fs' [Hput Hmk]].
  { exact Hne. }
  { simpl. exact Hsplit. }
  { exact Hparent. }
  { simpl. rewrite <- Hsplit. exact Hnone. }
  rewrite <- Hsplit in Hput.
  set (w3 := World fs' (w_cwd w0) (w_hosts w0) (w_trace w0) (w_stdout w0)) in *.
  destruct (download_fresh env host (w_cwd w) (w_hosts w) Hfree (env_recursion_limit env)
              es remote_path local_path w3) as [w' [Hrec _]];
    [reflexivity|reflexivity|exact Htree|exact Hwf|exact Hheight| |].
  { exact (lookup_put_node_eq _ _ _ _ Hput). }
  unfold SCPTransferTool._run.
  erewrite try_except_ok; [reflexivity|].
  unfold Channel.connect, Channel.open_sftp.
  rewrite (bind_ok _ _ _ _ _ (call_free env Hfree _ w)).
  rewrite (bind_ok _ _ _ _ _ (call_free env Hfree _ _)).
  erewrite bind_ok; [reflexivity|].
  rewrite (bind_ok _ _ _ _ _ (sftp_is_dir_run env host remote_path _)).
  rewrite Hfree. fold w0.
  change (host_fs (logged (logged w [EConnect host username
                                       (Path.expanduser (env_home env) key_path) port timeout])
                          [EOpenSftp host]) host) with (host_fs w host).
  unfold FS.is_dir. rewrite Htree.
  erewrite bind_ok.
  2:{ erewrite bind_ok.
      2:{ unfold OS.path_exists, bind, get, ret. reflexivity. }
      change (w_fs w0) with (w_fs w). change (w_cwd w0) with (w_cwd w). fold lq.
      rewrite Hnew, andb_false_r. simpl negb. cbv iota. exact Hmk. }
  rewrite (bind_ok _ _ _ _ _ Hrec). reflexivity.
Qed.

(** ** The transfers as a whole *)

(** When [scp_transfer] answers that a directory was uploaded, every
    regular file below [local_path] is on the host, at the same relative
    path below [remote_path] and with the same content; the local side is
    untouched, and the files the host had elsewhere kept their content. *)
Theorem recursive_upload_copies_every_file
    (env : environment) (host username key_path : string) (port : Z)
    (local_path remote_path : string) (timeout : Z) (w w' : world) (tree : FS.node) :
  FS.lookup (w_fs w) (Path.resolve (w_cwd w) local_path) = Some tree ->
  FS.wf tree = true ->
  SCPTransferTool._run env host username key_path port local_path remote_path
    true true timeout w
  = (Exc.Ok ("Directory " +:+ local_path +:+ " uploaded to " +:+ remote_path
             +:+ " on " +:+ host), w') ->
  place w' = place w
  /\ (forall rel c, In (rel, c) (FS.files_under tree) ->
        FS.read (host_fs w' host) (Channel.remote_path env host remote_path ++ rel) = Some c)
  /\ (forall q c,
        ~ landing (Channel.remote_path env host remote_path) [] tree q ->
        FS.read (host_fs w host) q = Some c -> FS.read (host_fs w' host) q = Some c).
Proof.
  exact (recursive_upload_run env host username key_path port local_path remote_path
           timeout w w' tree).
Qed.

Lemma recursive_upload_copies_every_file_witness :
  FS.read
    (host_fs (snd (SCPTransferTool._run Sample.env "10.0.0.1" "ubuntu" "~/.ssh/id_rsa" 22
                     "scripts" "setup" true true 30 workshop)) "10.0.0.1")
    ["home"; "ubuntu"; "setup"; "k8s"; "worker.sh"]
  = Some "kubeadm join".
Proof.
  refine (proj1 (proj2 (recursive_upload_copies_every_file Sample.env "10.0.0.1" "ubuntu"
            "~/.ssh/id_rsa" 22 "scripts" "setup" 30 workshop
            (snd (SCPTransferTool._run Sample.env "10.0.0.1" "ubuntu" "~/.ssh/id_rsa" 22
                    "scripts" "setup" true true 30 workshop))
            scripts_tree _ _ _)) ["k8s"; "worker.sh"] "kubeadm join" _).
  - vm_compute. reflexivity.
  - vm_compute. reflexivity.
  - vm_compute. reflexivity.
  - vm_compute. auto.
Defined.



(** When [scp_transfer] answers that a directory was downloaded, every
    regular file the host has below [remote_path] is in the local tree,
    at the same relative path below [local_path] and with the same
    content; the host is untouched, the process is where it was, and the
    local files elsewhere kept their content. *)
Theorem recursive_download_copies_every_file
    (env : environment) (host username key_path : string) (port : Z)
    (local_path remote_path : string) (timeout : Z) (w w' : world) (tree : FS.node) :
  FS.lookup (host_fs w host) (Channel.remote_path env host remote_path) = Some tree ->
  FS.wf tree = true ->
  SCPTransferTool._run env host username key_path port local_path remote_path
    false true timeout w
  = (Exc.Ok ("Directory " +:+ remote_path +:+ " downloaded to " +:+ local_path
             +:+ " from " +:+ host), w') ->
  w_cwd w' = w_cwd w /\ w_hosts w' = w_hosts w
  /\ (forall rel c, In (rel, c) (FS.files_under tree) ->
        FS.read (w_fs w') (Path.resolve (w_cwd w) local_path ++ rel) = Some c)
  /\ (forall q c,
        ~ landing (Path.resolve (w_cwd w) local_path) [] tree q ->
        FS.read (w_fs w) q = Some c -> FS.read (w_fs w') q = Some c).
Proof.
  intros Htree Hwf H.
  destruct (recursive_download_run env host username key_path port local_path remote_path
              timeout w w' tree Htree Hwf H) as [[C [Hh K]] F].
  auto.
Qed.

Lemma recursive_download_copies_every_file_witness :
  FS.read
    (w_fs (snd (SCPTransferTool._run Sample.env "10.0.0.1" "ubuntu" "~/.ssh/id_rsa" 22
                  "fetched" "logs" false true 30 archive)))
    ["home"; "u"; "fetched"; "pods"; "dns.log"]
  = Some "ready".
Proof.
  refine (proj1 (proj2 (proj2 (recursive_download_copies_every_file Sample.env "10.0.0.1"
            "ubuntu" "~/.ssh/id_rsa" 22 "fetched" "logs" 30 archive
            (snd (SCPTransferTool._run Sample.env "10.0.0.1" "ubuntu" "~/.ssh/id_rsa" 22
                    "fetched" "logs" false true 30 archive))
            logs_tree _ _ _))) ["pods"; "dns.log"] "ready" _).
  - vm_compute. reflexivity.
  - vm_compute. reflexivity.
  - vm_compute. reflexivity.
  - vm_compute. auto.
Defined.



(** ** What a transfer can change, whatever its outcome *)

#[export] Instance upload_frame_preorder host cwd fs rb :
  PreOrder (upload_frame host cwd fs rb).
Proof.
  split.
  - intros w _. apply remote_kept_refl.
  - intros w1 w2 w3 H12 H23 Hp. specialize (H12 Hp).
    assert (place w2 = (cwd, fs)) as Hp2 by (rewrite (proj1 H12); exact Hp).
    apply (remote_kept_trans host _ _ _ w1 w2 w3 H12 (H23 Hp2)); auto.
Qed.

#[export] Instance download_frame_preorder cwd hosts lq :
  PreOrder (download_frame cwd hosts lq).
Proof.
  split.
  - intros w _ _. apply local_kept_refl.
  - intros w1 w2 w3 H12 H23 Hc Hh. specialize (H12 Hc Hh).
    destruct H12 as [C [H K]].
    assert (w_cwd w2 = cwd) as Hc2 by congruence.
    assert (w_hosts w2 = hosts) as Hh2 by congruence.
    apply (local_kept_trans _ _ _ w1 w2 w3 (conj C (conj H K)) (H23 Hc2 Hh2)); auto.
Qed.

Lemma respects_for_each_in {A} (R : relation world) `{!PreOrder R} (l : list A) body :
  (forall x, In x l -> respects R (body x)) -> respects R (for_each l body).
Proof.
  induction l as [|x l IH]; intros Hb; simpl.
  - apply respects_ret. tc_solve.
  - apply respects_bind; [tc_solve|apply Hb; left; reflexivity|].
    intros _. apply IH. intros y Hy. apply Hb. right. exact Hy.
Qed.

(** The continuation of a bind has to keep [R] only from the results the
    first part can produce. *)
Lemma rel_bind {A B} (R : relation world) `{!PreOrder R} (m : M A) (k : A -> M B) w :
  R w (snd (m w)) ->
  (forall a w1, m w = (Exc.Ok a, w1) -> R w1 (snd (k a w1))) ->
  R w (snd (bind m k w)).
Proof.
  intros Hm Hk. unfold bind. destruct (m w) as [[a|e] w1] eqn:E; simpl in *; [|exact Hm].
  etransitivity; [exact Hm|]. apply Hk. reflexivity.
Qed.

Lemma wf_lookup n p c : FS.wf n = true -> FS.lookup n p = Some c -> FS.wf c = true.
Proof.
  revert n. induction p as [|x p IH]; intros n Hwf H; simpl in H.
  - injection H as <-. exact Hwf.
  - destruct n as [|es]; [discriminate|].
    destruct (FS.assoc es x) as [c'|] eqn:Ea; [|discriminate].
    apply (IH c'); [|exact H].
    destruct (wf_Dir es Hwf) as [_ Hall]. rewrite List.Forall_forall in Hall.
    assert (In (x, c') es) as Hin.
    { clear -Ea. induction es as [|[y m] es IH]; [discriminate|]. simpl in Ea.
      destruct (String.eqb_spec y x) as [->|Hne].
      - injection Ea as ->. left. reflexivity.
      - right. apply IH, Ea. }
    exact (proj2 (Hall _ Hin)).
Qed.

(** Every directory a walk reports lies below its top, along valid names,
    and so do the names it lists. *)
Lemma walk_roots cwd lb n :
  FS.wf n = true ->
  forall top d,
    Path.resolve cwd top = lb ++ d -> Forall (fun x => Path.valid_name x = true) d ->
    forall root dirs files, In (root, dirs, files) (walk top n) ->
      exists d', Path.resolve cwd root = lb ++ d'
                 /\ Forall (fun x => Path.valid_name x = true) d'
                 /\ Forall (fun x => Path.valid_name x = true) files.
Proof.
  induction n as [perm content|es IH] using node_induction;
    intros Hwf top d Htop Hd root dirs files Hin; [destruct Hin|].
  rewrite walk_Dir in Hin. destruct (wf_Dir es Hwf) as [_ Hall].
  rewrite List.Forall_forall in Hall, IH.
  destruct Hin as [E|Hin].
  - injection E as <- _ <-. exists d. split; [exact Htop|]. split; [exact Hd|].
    apply List.Forall_forall. intros x Hx.
    apply in_map_iff in Hx as [[y n] [<- Hy]]. apply filter_In in Hy as [Hy _].
    exact (proj1 (Hall _ Hy)).
  - apply in_flat_map in Hin as [[x n] [Hx Hin]]. simpl in Hin.
    destruct (Hall _ Hx) as [Hvx Hwfn]. simpl in Hvx, Hwfn.
    apply (IH _ Hx Hwfn (Path.join top x) (d ++ [x])) with (dirs := dirs); [| |exact Hin].
    + rewrite (resolve_join_name _ _ _ Hvx), Htop, <- app_assoc. reflexivity.
    + apply Forall_app. split; [exact Hd|]. constructor; [exact Hvx|constructor].
Qed.

Lemma call_end env ev w : snd (Channel.call env ev w) = logged w [ev].
Proof.
  destruct (Channel.call env ev w) as [[[]|e] w'] eqn:E; simpl.
  - exact (call_ok _ _ _ _ E).
  - exact (call_raise _ _ _ _ _ E).
Qed.

(** [mkdir], whatever its outcome, keeps every file of the host. *)
Lemma mkdir_any env host p w :
  remote_kept host (fun _ => False) w (snd (Channel.mkdir env host p w)).
Proof.
  destruct (Channel.mkdir env host p w) as [[[]|e] w'] eqn:E; simpl.
  - apply mkdir_ok in E as [fs' [Hp [Hx ->]]].
    split; [reflexivity|]. intros q c _ Hr. simpl. rewrite host_fs_insert.
    unfold FS.read in *.
    destruct (FS.lookup (host_fs w host) q) as [[m c'|]|] eqn:El; try discriminate.
    injection Hr as ->.
    rewrite (lookup_put_node_file _ _ _ _ _ _ _ El Hp); [reflexivity| |].
    + intros E. unfold FS.exists_ in Hx. rewrite E, El in Hx. discriminate.
    + unfold FS.exists_ in Hx. unfold FS.is_dir.
      destruct (FS.lookup _ (Channel.remote_path env host p)); [discriminate|reflexivity].
  - assert (w' = logged w [ESftp host (SMkdir p)]) as ->; [|apply remote_kept_logged].
    revert E. unfold Channel.mkdir. unfold bind at 1.
    destruct (Channel.call env _ w) as [[[]|e'] w1] eqn:Ec.
    + apply call_ok in Ec. subst w1. unfold bind, get. simpl.
      destruct (FS.exists_ _ _); [intros H; inversion H; reflexivity|].
      destruct (negb _); [intros H; inversion H; reflexivity|].
      destruct (FS.put_node _ _ _); [discriminate|intros H; inversion H; reflexivity].
    + apply call_raise in Ec. intros H. inversion H. subst. reflexivity.
Qed.

Lemma stat_or_mkdir_any env host p w :
  remote_kept host (fun _ => False) w (snd (stat_or_mkdir env host p w)).
Proof.
  unfold stat_or_mkdir, try_except.
  assert (snd ((Channel.stat env host p;; ret tt) w) = logged w [ESftp host (SStat p)]) as Hs.
  { unfold bind. destruct (Channel.stat env host p w) as [[m|e] w1] eqn:E; simpl;
      exact (stat_end _ _ _ _ _ _ E). }
  destruct ((Channel.stat env host p;; ret tt) w) as [[[]|e] w1]; simpl in Hs; subst w1.
  - apply remote_kept_logged.
  - destruct (Exc.is_FileNotFoundError e); [|apply remote_kept_logged].
    apply (remote_kept_trans host (fun _ => False) (fun _ => False) _ w _ _
             (remote_kept_logged host _ w _) (mkdir_any env host p _)); auto.
Qed.

(** [put], whatever its outcome, keeps every file of the host but the
    one it writes. *)
Lemma sftp_put_any env host l r w :
  remote_kept host (fun q => q = Channel.remote_path env host r) w
    (snd (Channel.sftp_put env host l r w)).
Proof.
  destruct (Channel.sftp_put env host l r w) as [[[]|e] w'] eqn:E; simpl.
  - apply sftp_put_ok in E as [c [_ [_ K]]]. exact K.
  - assert (w' = w \/ w' = logged w [ESftp host (SPut l r)]) as [->| ->];
      [|apply remote_kept_refl|apply remote_kept_logged].
    revert E. unfold Channel.sftp_put. unfold bind at 1.
    destruct (OS.read_bytes l w) as [[c|e'] w0] eqn:Er.
    + apply read_bytes_ok in Er as [-> _]. unfold bind at 1.
      destruct (Channel.call env _ w) as [[[]|e''] w1] eqn:Ec.
      * apply call_ok in Ec. subst w1. unfold bind, get. simpl.
        destruct (FS.is_dir _ _); [intros H; inversion H; auto|].
        destruct (negb _); [intros H; inversion H; auto|].
        destruct (FS.put_node _ _ _); [discriminate|intros H; inversion H; auto].
      * apply call_raise in Ec. intros H. inversion H. subst. auto.
    + intros H. inversion H; subst. left.
      revert Er. unfold OS.read_bytes, bind, get. simpl.
      destruct (Path.is_empty l); [intros H'; inversion H'; reflexivity|].
      destruct (FS.lookup _ _) as [[m c|es]|]; intros H'; inversion H'; reflexivity.
Qed.

Section UploadFrame.
Context (env : environment) (host local_path remote_path : string).
Context (cwd : FS.path) (fs : FS.node).
Context (Hwf : FS.wf fs = true).

Local Abbreviation rb := (Channel.remote_path env host remote_path).
Local Abbreviation frame := (upload_frame host cwd fs rb).

Lemma frame_from {A} (m : M A) (W : FS.path -> Prop) :
  (forall w, place w = (cwd, fs) -> remote_kept host W w (snd (m w))) ->
  (forall q, W q -> at_or_below rb q) ->
  respects frame m.
Proof.
  intros H HW w Hp. destruct (H w Hp) as [P K]. split; [exact P|].
  intros q c Hq. apply K. intros HWq. apply Hq, HW, HWq.
Qed.

Lemma frame_call ev : respects frame (Channel.call env ev).
Proof.
  apply (frame_from _ (fun _ => False)); [|intros q []].
  intros w _. rewrite call_end. apply remote_kept_logged.
Qed.

Lemma frame_stat_or_mkdir p : respects frame (stat_or_mkdir env host p).
Proof.
  apply (frame_from _ (fun _ => False)); [|intros q []].
  intros w _. apply stat_or_mkdir_any.
Qed.

Lemma frame_put l r r0 :
  Channel.remote_path env host r = rb ++ r0 -> respects frame (Channel.sftp_put env host l r).
Proof.
  intros Hr. apply (frame_from _ (fun q => q = Channel.remote_path env host r)).
  - intros w _. apply sftp_put_any.
  - intros q ->. exists r0. exact Hr.
Qed.

Lemma frame_upload_level root dirs files d :
  Path.resolve cwd root = Path.resolve cwd local_path ++ d ->
  Forall (fun x => Path.valid_name x = true) d ->
  Forall (fun x => Path.valid_name x = true) files ->
  respects frame
    (SCPTransferTool.upload_level env host local_path remote_path (root, dirs, files)).
Proof.
  intros Hroot Hd Hfiles. unfold SCPTransferTool.upload_level.
  apply respects_bind; [tc_solve| |intros _].
  - apply respects_for_each; [tc_solve|]. intros dir_name.
    respects_auto. apply frame_stat_or_mkdir.
  - apply respects_for_each_in; [tc_solve|]. intros x Hx.
    rewrite List.Forall_forall in Hfiles. pose proof (Hfiles x Hx) as Hvx.
    intros w Hp. assert (w_cwd w = cwd) as Hcwd by (injection Hp; auto).
    unfold bind at 1, get. cbv beta iota zeta.
    rewrite Hcwd, (relpath_entry local_path cwd root d x Hroot Hvx).
    unfold bind at 1, lift. cbv beta iota.
    apply (frame_put _ _ (d ++ [x]) (remote_entry env host remote_path d x Hd Hvx) w Hp).
Qed.

Lemma frame_walk :
  respects frame
    (triples ← os_walk local_path;
     for_each triples (SCPTransferTool.upload_level env host local_path remote_path)).
Proof.
  intros w Hp.
  assert (w_cwd w = cwd /\ w_fs w = fs) as [Hcwd Hfs] by (injection Hp; auto).
  unfold bind at 1, os_walk. unfold bind at 1, get, ret. cbv beta iota.
  rewrite Hcwd, Hfs.
  apply (respects_for_each_in frame); [|exact Hp].
  intros [[root dirs] files] Hin.
  destruct (FS.lookup fs (Path.resolve cwd local_path)) as [n|] eqn:En; [|destruct Hin].
  destruct (Path.is_empty local_path); [destruct Hin|].
  destruct (walk_roots cwd (Path.resolve cwd local_path) n (wf_lookup _ _ _ Hwf En)
              local_path [] (eq_sym (app_nil_r _)) (List.Forall_nil _)
              root dirs files Hin) as [d [Hroot [Hd Hfiles]]].
  exact (frame_upload_level root dirs files d Hroot Hd Hfiles).
Qed.

Lemma frame_run username key_path port recursive timeout :
  respects frame
    (SCPTransferTool._run env host username key_path port local_path remote_path
       true recursive timeout).
Proof.
  unfold SCPTransferTool._run, Channel.connect, Channel.open_sftp.
  apply respects_try_except; [tc_solve| |intros e; apply respects_ret; tc_solve].
  apply respects_bind; [tc_solve|apply frame_call|intros _].
  apply respects_bind; [tc_solve|apply frame_call|intros _].
  apply respects_bind; [tc_solve| |intros result; apply respects_ret; tc_solve].
  apply respects_bind; [tc_solve| |intros isd].
  - destruct recursive; [apply (respects_path_isdir frame)|apply respects_ret; tc_solve].
  - destruct isd.
    + apply respects_bind; [tc_solve|apply frame_stat_or_mkdir|intros _].
      pose proof frame_walk as Hw. unfold respects in *. intros w.
      specialize (Hw w). revert Hw. unfold bind.
      destruct (os_walk local_path w) as [[triples|e] w1]; simpl; [|auto].
      destruct (for_each triples _ w1) as [[[]|e] w2]; simpl; auto.
    + apply respects_bind; [tc_solve| |intros _; apply respects_ret; tc_solve].
      apply (frame_put _ _ []). rewrite app_nil_r. reflexivity.
Qed.

End UploadFrame.

(** Whatever a transfer to a host does and however it ends (with an
    answer, an error text or an interrupt), it leaves the local tree and
    the working directory alone and changes no file of the host that is
    not at or below [remote_path]. *)
Theorem upload_changes_nothing_outside_remote_path
    (env : environment) (host username key_path : string) (port : Z)
    (local_path remote_path : string) (recursive : bool) (timeout : Z) (w : world) :
  FS.wf (w_fs w) = true ->
  place (snd (SCPTransferTool._run env host username key_path port local_path remote_path
                true recursive timeout w))
  = place w
  /\ forall q c,
       (forall r, q <> Channel.remote_path env host remote_path ++ r) ->
       FS.read (host_fs w host) q = Some c ->
       FS.read
         (host_fs (snd (SCPTransferTool._run env host username key_path port local_path
                          remote_path true recursive timeout w)) host) q
       = Some c.
Proof.
  intros Hwf.
  destruct (frame_run env host local_path remote_path (w_cwd w) (w_fs w) Hwf
              username key_path port recursive timeout w eq_refl) as [P K].
  split; [exact P|]. intros q c Hq. apply K. intros [r E]. exact (Hq r E).
Qed.

Lemma upload_changes_nothing_outside_remote_path_witness :
  place (snd (SCPTransferTool._run Sample.env "10.0.0.1" "ubuntu" "~/.ssh/id_rsa" 22
                "scripts" "setup" true true 30 workshop))
  = place workshop.
Proof.
  refine (proj1 (upload_changes_nothing_outside_remote_path Sample.env "10.0.0.1" "ubuntu"
                   "~/.ssh/id_rsa" 22 "scripts" "setup" true 30 workshop _)).
  vm_compute. reflexivity.
Defined.

(** [open(name, 'w')] and the write, whatever their outcome, keep every
    local file but the one named. *)
Lemma write_text_any name content w :
  local_kept (fun q => q = Path.resolve (w_cwd w) name) w
    (snd (OS.write_text name content w)).
Proof.
  destruct (OS.write_text name content w) as [[[]|e] w'] eqn:E; simpl.
  - exact (proj1 (write_text_kept _ _ _ _ E)).
  - assert (w' = w) as ->; [|apply local_kept_refl].
    revert E. unfold OS.write_text, bind, get. simpl.
    destruct (Path.is_empty name); [intros H; inversion H; reflexivity|].
    destruct (FS.is_dir _ _); [intros H; inversion H; reflexivity|].
    destruct (negb _); [intros H; inversion H; reflexivity|].
    destruct (FS.put_node _ _ _); [discriminate|intros H; inversion H; reflexivity].
Qed.

Lemma makedirs_any name exist_ok w :
  local_kept (fun _ => False) w (snd (OS.makedirs name exist_ok w)).
Proof.
  destruct (OS.makedirs name exist_ok w) as [[[]|e] w'] eqn:E; simpl.
  - exact (makedirs_kept _ _ _ _ E).
  - assert (w' = w) as ->; [|apply local_kept_refl].
    revert E. unfold OS.makedirs, bind, get. simpl.
    destruct (Path.is_empty name); [intros H; inversion H; reflexivity|].
    destruct (negb exist_ok && _); [intros H; inversion H; reflexivity|].
    destruct (FS.makedirs_node _ _); [discriminate|intros H; inversion H; reflexivity].
Qed.

(** [get], whatever its outcome, keeps every local file but the one it
    opens. *)
Lemma sftp_get_any env host r l w :
  local_kept (fun q => q = Path.resolve (w_cwd w) l) w
    (snd (Channel.sftp_get env host r l w)).
Proof.
  set (P := fun q : FS.path => q = Path.resolve (w_cwd w) l).
  unfold Channel.sftp_get. unfold bind at 1.
  pose proof (write_text_any l "" w) as K1. fold P in K1.
  destruct (OS.write_text l "" w) as [[[]|e] w1]; simpl in K1; [|exact K1].
  unfold bind at 1. pose proof (call_end env (ESftp host (SGet r l)) w1) as Hc.
  destruct (Channel.call env _ w1) as [[[]|e] w2]; simpl in Hc; subst w2.
  2:{ simpl. apply (local_kept_trans P (fun _ => False) P w w1 _ K1
                      (local_kept_logged _ w1 _)); auto. intros q []. }
  unfold bind at 1, get.
  set (w2 := logged w1 [ESftp host (SGet r l)]).
  assert (local_kept P w w2) as K2.
  { apply (local_kept_trans P (fun _ => False) P w w1 w2 K1 (local_kept_logged _ w1 _)); auto.
    intros q []. }
  destruct (FS.lookup _ _) as [[m c|es]|]; simpl; try exact K2.
  pose proof (write_text_any l c w2) as K3.
  assert (w_cwd w2 = w_cwd w) as Hcwd by exact (proj1 K2).
  rewrite Hcwd in K3. fold P in K3.
  apply (local_kept_trans P P P w w2 _ K2 K3); auto.
Qed.

Section DownloadFrame.
Context (env : environment) (host local_path : string).
Context (cwd : FS.path) (hosts : gmap string FS.node).
Context (Hwf : FS.wf (default FS.empty (hosts !! host)) = true).

Local Abbreviation lq := (Path.resolve cwd local_path).
Local Abbreviation frame := (download_frame cwd hosts lq).

Lemma dframe_from {A} (m : M A) (W : FS.path -> Prop) :
  (forall w, w_cwd w = cwd -> local_kept W w (snd (m w))) ->
  (forall q, W q -> at_or_below lq q) ->
  respects frame m.
Proof.
  intros H HW w Hc _. destruct (H w Hc) as [C [Hh K]].
  split; [exact C|]. split; [exact Hh|].
  intros q c Hq. apply K. intros HWq. apply Hq, HW, HWq.
Qed.

Lemma dframe_call ev : respects frame (Channel.call env ev).
Proof.
  apply (dframe_from _ (fun _ => False)); [|intros q []].
  intros w _. rewrite call_end. apply local_kept_logged.
Qed.

Lemma dframe_is_dir p : respects frame (sftp_is_dir env host p).
Proof.
  apply (dframe_from _ (fun _ => False)); [|intros q []].
  intros w _. rewrite sftp_is_dir_run. apply local_kept_logged.
Qed.

Lemma dframe_makedirs name exist_ok : respects frame (OS.makedirs name exist_ok).
Proof.
  apply (dframe_from _ (fun _ => False)); [|intros q []].
  intros w _. apply makedirs_any.
Qed.

Lemma dframe_get r l d :
  Path.resolve cwd l = lq ++ d -> respects frame (Channel.sftp_get env host r l).
Proof.
  intros Hl. apply (dframe_from _ (fun q => q = Path.resolve cwd l)).
  - intros w Hc. rewrite <- Hc. apply sftp_get_any.
  - intros q ->. exists d. exact Hl.
Qed.

Lemma dframe_prepare l :
  respects frame
    (present ← OS.path_exists l;
     if negb present then OS.makedirs l false else ret tt).
Proof.
  apply respects_bind; [tc_solve|apply (respects_path_exists frame)|intros present].
  destruct (negb present); [apply dframe_makedirs|apply respects_ret; tc_solve].
Qed.

Lemma dframe_download depth :
  forall rd ld d,
    Path.resolve cwd ld = lq ++ d ->
    respects frame (download_dir_recursive env depth host rd ld).
Proof.
  induction depth as [|depth IH]; intros rd ld d Hld.
  - apply respects_raise. tc_solve.
  - intros w. simpl download_dir_recursive. apply rel_bind; [tc_solve| |].
    + intros _ _.
      assert (snd (Channel.listdir env host rd w) = logged w [ESftp host (SListdir rd)]) as ->;
        [|apply local_kept_logged].
      unfold Channel.listdir. unfold bind at 1.
      pose proof (call_end env (ESftp host (SListdir rd)) w) as Hc.
      destruct (Channel.call env _ w) as [[[]|e] w1]; simpl in Hc; subst w1; [|reflexivity].
      unfold bind, get. simpl. destruct (FS.lookup _ _) as [[m c|es]|]; reflexivity.
    + intros items w1 Hl. apply listdir_ok in Hl as [-> [es [Hes ->]]].
      intros Hc Hh.
      assert (FS.wf (FS.Dir es) = true) as Hwfes.
      { apply (wf_lookup _ (Channel.remote_path env host rd) _ Hwf). unfold host_fs in Hes.
        change (w_hosts (logged w [ESftp host (SListdir rd)])) with (w_hosts w) in Hh.
        rewrite Hh in Hes. exact Hes. }
      destruct (wf_Dir es Hwfes) as [_ Hall]. rewrite List.Forall_forall in Hall.
      apply (respects_for_each_in frame); [|exact Hc|exact Hh].
      intros x Hx. apply in_map_iff in Hx as [[y n] [<- Hy]].
      pose proof (proj1 (Hall _ Hy)) as Hvx. simpl in Hvx. simpl fst.
      assert (Path.resolve cwd (Path.join ld y) = lq ++ d ++ [y]) as Hly.
      { rewrite (resolve_join_name _ _ _ Hvx), Hld, <- app_assoc. reflexivity. }
      cbv zeta.
      apply respects_bind; [tc_solve|apply dframe_is_dir|intros isd].
      destruct isd.
      * apply respects_bind; [tc_solve|apply dframe_prepare|intros _].
        exact (IH (Path.join rd y) (Path.join ld y) (d ++ [y]) Hly).
      * exact (dframe_get _ _ (d ++ [y]) Hly).
Qed.

Lemma dframe_run remote_path username key_path port recursive timeout :
  respects frame
    (SCPTransferTool._run env host username key_path port local_path remote_path
       false recursive timeout).
Proof.
  unfold SCPTransferTool._run, Channel.connect, Channel.open_sftp.
  apply respects_try_except; [tc_solve| |intros e; apply respects_ret; tc_solve].
  apply respects_bind; [tc_solve|apply dframe_call|intros _].
  apply respects_bind; [tc_solve|apply dframe_call|intros _].
  apply respects_bind; [tc_solve| |intros result; apply respects_ret; tc_solve].
  apply respects_bind; [tc_solve| |intros isd].
  - destruct recursive; [apply dframe_is_dir|apply respects_ret; tc_solve].
  - destruct isd.
    + apply respects_bind; [tc_solve|apply dframe_prepare|intros _].
      apply respects_bind; [tc_solve| |intros _; apply respects_ret; tc_solve].
      apply (dframe_download _ _ _ []). rewrite app_nil_r. reflexivity.
    + apply respects_bind; [tc_solve| |intros _; apply respects_ret; tc_solve].
      apply (dframe_get _ _ []). rewrite app_nil_r. reflexivity.
Qed.

End DownloadFrame.

(** Whatever a transfer from a host does and however it ends, it leaves
    the hosts and the working directory alone and, as long as the names
    the host lists are proper entry names, changes no local file that is
    not at or below [local_path]. *)
Theorem download_changes_nothing_outside_local_path
    (env : environment) (host username key_path : string) (port : Z)
    (local_path remote_path : string) (recursive : bool) (timeout : Z) (w : world) :
  FS.wf (host_fs w host) = true ->
  w_cwd (snd (SCPTransferTool._run env host username key_path port local_path remote_path
                false recursive timeout w))
  = w_cwd w
  /\ w_hosts (snd (SCPTransferTool._run env host username key_path port local_path
                     remote_path false recursive timeout w))
     = w_hosts w
  /\ forall q c,
       (forall r, q <> Path.resolve (w_cwd w) local_path ++ r) ->
       FS.read (w_fs w) q = Some c ->
       FS.read
         (w_fs (snd (SCPTransferTool._run env host username key_path port local_path
                       remote_path false recursive timeout w))) q
       = Some c.
Proof.
  intros Hwf.
  destruct (dframe_run env host local_path (w_cwd w) (w_hosts w) Hwf remote_path
              username key_path port recursive timeout w eq_refl eq_refl) as [C [H K]].
  split; [exact C|]. split; [exact H|].
  intros q c Hq. apply K. intros [r E]. exact (Hq r E).
Qed.

Lemma download_changes_nothing_outside_local_path_witness :
  w_hosts (snd (SCPTransferTool._run Sample.env "10.0.0.1" "ubuntu" "~/.ssh/id_rsa" 22
                  "fetched" "logs" false true 30 archive))
  = w_hosts archive.
Proof.
  refine (proj1 (proj2 (download_changes_nothing_outside_local_path Sample.env "10.0.0.1"
                          "ubuntu" "~/.ssh/id_rsa" 22 "fetched" "logs" true 30 archive _))).
  vm_compute. reflexivity.
Defined.
